(** * The mirroring VFS shim of src/sqlite3/vfsmirror.c

    A shallow embedding of the shim that sits between the SQLite core and
    the real VFS: every file owns a primary handle and, for main database
    and main journal files, a replica handle inside the mirror directory.

    Conventions of the embedding.
    - C [int] and status codes are [Z]; conversions that can wrap are
      written out ([to_int], [size_t_index]).
    - A C string is the [list ascii] of its characters before the
      terminating NUL; the terminator sits at index [length].
    - Undefined behaviour of the C code (a read or write outside an array,
      a NULL dereference) is a [Fault] of the [result] type.
    - Calls into the underlying VFS and into the SQLite API are answered
      by an [environment] record over an abstract world [W] and are recorded,
      oldest first, in the [trace] of the [state].
    - The diagnostic text ([vfsmirror_printf], [vfsmirror_print_errcode]),
      which goes to the output routine given at registration, is left out. *)

From Stdlib Require Import ZArith List Ascii String Bool Lia.
Import ListNotations.
Local Open Scope Z_scope.

(** ** Constants of sqlite3.h *)

(** Modelled from the spec: the header sqlite3.h is not among the sources;
    the names below are the ones vfsmirror.c uses, with the values of
    SQLite's public header. The spec only calls [SQLITE_OK] "success" and
    the two open flags "main database" and "main journal". *)
Definition SQLITE_OK : Z := 0.
Definition SQLITE_NOMEM : Z := 7.
Definition SQLITE_IOERR : Z := 10.
Definition SQLITE_NOTFOUND : Z := 12.
Definition SQLITE_FULL : Z := 13.
Definition SQLITE_CANTOPEN : Z := 14.

(** The [xFileControl] opcode that asks for the names of the VFS stack. *)
Definition SQLITE_FCNTL_VFSNAME : Z := 12.

Definition SQLITE_OPEN_READWRITE : Z := 2.
Definition SQLITE_OPEN_CREATE : Z := 4.
Definition SQLITE_OPEN_MAIN_DB : Z := 256.
Definition SQLITE_OPEN_TEMP_DB : Z := 512.
Definition SQLITE_OPEN_TRANSIENT_DB : Z := 1024.
Definition SQLITE_OPEN_MAIN_JOURNAL : Z := 2048.
Definition SQLITE_OPEN_TEMP_JOURNAL : Z := 4096.
Definition SQLITE_OPEN_SUBJOURNAL : Z := 8192.
Definition SQLITE_OPEN_MASTER_JOURNAL : Z := 16384.
Definition SQLITE_OPEN_WAL : Z := 524288.

(** ** The reconciliation macro *)

(** [#define RETURN_CODE(RC1, RC2) (RC1 == RC2 ? RC1 : RC1 == SQLITE_OK ? RC2: RC1)] *)
Definition RETURN_CODE (RC1 RC2 : Z) : Z :=
  if RC1 =? RC2 then RC1 else if RC1 =? SQLITE_OK then RC2 else RC1.

(** ** C strings, pointers into them, and faults *)

Definition cstring := list ascii.

(** Characters of a literal. *)
Definition C (s : string) : cstring := list_ascii_of_string s.

Definition NUL : ascii := Ascii.zero.

Inductive fault :=
| OobRead (index : Z)     (* read outside the array, at this index *)
| OobWrite (index : Z)    (* write outside the array, at this index *)
| NullDeref               (* NULL used as an object *)
| BadFormat               (* printf conversion in a call without arguments *)
| IncompleteFormat.       (* printf format that ends inside a conversion *)

Inductive result (A : Type) :=
| Ok (a : A)
| Fault (f : fault).
Arguments Ok {A} a.
Arguments Fault {A} f.

Definition rbind {A B} (r : result A) (k : A -> result B) : result B :=
  match r with
  | Ok a => k a
  | Fault f => Fault f
  end.

Notation "x <- r ;; k" := (rbind r (fun x => k))
  (at level 61, r at next level, right associativity).

(** [const char *]: the string object pointed into and the offset of the
    pointer from its first character. *)
Record char_ptr := { base : cstring; ofs : Z }.

Definition ptr_to (z : cstring) : char_ptr := {| base := z; ofs := 0 |}.

Definition ptr_add (z : char_ptr) (i : Z) : char_ptr :=
  {| base := base z; ofs := ofs z + i |}.

Definition len (z : cstring) : Z := Z.of_nat (List.length z).

(** [z[k]]: the characters are at 0 .. len-1 of the object and the NUL at
    len; every other index is outside the object. *)
Definition read_char (z : char_ptr) (k : Z) : result ascii :=
  let i := ofs z + k in
  if (0 <=? i) && (i <? len (base z)) then Ok (nth (Z.to_nat i) (base z) NUL)
  else if i =? len (base z) then Ok NUL
  else Fault (OobRead i).

(** [strlen(z)]: scans from the pointer up to the NUL. *)
Definition c_strlen (z : char_ptr) : result Z :=
  if (0 <=? ofs z) && (ofs z <=? len (base z)) then Ok (len (base z) - ofs z)
  else Fault (OobRead (ofs z)).

(** The string a pointer denotes when it is read as a C string. *)
Definition c_string (z : char_ptr) : result cstring :=
  if (0 <=? ofs z) && (ofs z <=? len (base z))
  then Ok (skipn (Z.to_nat (ofs z)) (base z))
  else Fault (OobRead (ofs z)).

(** Conversion of an integer value to a 32-bit [int]. *)
Definition to_int (x : Z) : Z := (x + 2 ^ 31) mod 2 ^ 32 - 2 ^ 31.

(** The byte offset that indexing an array with a [size_t] value lands
    on: the value is reduced to 64 bits and the address arithmetic wraps,
    so that values from 2^63 on are offsets below the array. *)
Definition size_t_index (x : Z) : Z :=
  let u := x mod 2 ^ 64 in
  if u <? 2 ^ 63 then u else u - 2 ^ 64.

(** ** fileTail *)

Definition is_sep (c : ascii) : bool :=
  (c =? "/")%char || (c =? "\")%char.

(** The loop [while (i > 0 && z[i-1] != '/' && z[i-1] != '\\') i--;]
    entered with [i = n]; each iteration lowers [i] by one, so the loop
    variable is the structural argument. The result is the final [i]. *)
Fixpoint fileTail_scan (z : char_ptr) (n : nat) : result Z :=
  match n with
  | O => Ok 0
  | S n' =>
      c <- read_char z (Z.of_nat n') ;;
      if is_sep c then Ok (Z.of_nat n) else fileTail_scan z n'
  end.

(** [static const char* fileTail(const char* z)]; [None] is the NULL
    pointer. The offset of the returned pointer from [z] is [i]. *)
Definition fileTail_index (z : char_ptr) : result Z :=
  n <- c_strlen z ;;
  let i := to_int (n - 1) in
  if 0 <? i then fileTail_scan z (Z.to_nat i) else Ok i.

Definition fileTail (z : option char_ptr) : result (option char_ptr) :=
  match z with
  | None => Ok None
  | Some p => i <- fileTail_index p ;; Ok (Some (ptr_add p i))
  end.

(** ** Fixed-size character arrays *)

(** The characters of an array before its first NUL; [None] when the
    array holds no NUL at all. *)
Fixpoint c_str (b : list ascii) : option cstring :=
  match b with
  | [] => None
  | c :: b' =>
      if (c =? NUL)%char then Some []
      else match c_str b' with Some s => Some (c :: s) | None => None end
  end.

(** [strncpy(dest, src, n)] into an array of [n] characters, [src] being
    an array itself: at most [n] characters are copied and the rest of
    [dest] is filled with NUL. The result is the C string left in [dest];
    when the first [n] characters of [src] hold no NUL, [dest] is left
    without a terminator and the [strncat] that follows runs off its end. *)
Definition strncpy (src : list ascii) (n : nat) : result cstring :=
  match c_str (firstn n src) with
  | Some s => Ok s
  | None => Fault (OobRead (Z.of_nat n))
  end.

(** [strncat(dest, src, n)] on an array of [cap] characters holding the
    string [dest]: at most [n] characters of [src] and a NUL are written
    after it. *)
Definition strncat (cap : nat) (dest src : cstring) (n : nat) : result cstring :=
  let a := firstn n src in
  if (List.length dest + List.length a <? cap)%nat then Ok (dest ++ a)
  else Fault (OobWrite (Z.of_nat cap)).

(** [static const char* vfsmirrorReplicaPath(char* dest, const char* sourcePath, size_t size)],
    [zSlaveDir] being the static array of the configured directory. The
    result is the string left in [dest]. *)
Definition vfsmirrorReplicaPath (zSlaveDir : list ascii)
    (sourcePath : option char_ptr) (size : nat) : result cstring :=
  d0 <- strncpy zSlaveDir size ;;
  d1 <- strncat size d0 (C "\") size ;;
  t <- fileTail sourcePath ;;
  match t with
  | None => Fault NullDeref
  | Some tp => ts <- c_string tp ;; strncat size d1 ts size
  end.

(** [snprintf(buf, n, fmt)] called without arguments: ordinary
    characters are copied and [%%] prints one [%]. Any other character
    after a [%] starts a conversion specification, which takes an
    argument that was not passed or is not a valid one, and a [%] that
    ends the format is a specification cut short: the behaviour is
    undefined in both cases, and they are told apart. *)
Fixpoint printf_noargs (fmt : cstring) : result cstring :=
  match fmt with
  | [] => Ok []
  | c :: r =>
      if (c =? "%")%char then
        match r with
        | c2 :: r2 =>
            if (c2 =? "%")%char
            then (out <- printf_noargs r2 ;; Ok (c :: out))
            else Fault BadFormat
        | [] => Fault IncompleteFormat
        end
      else (out <- printf_noargs r ;; Ok (c :: out))
  end.

(** [b[i]] and [b[i] = c] on an array, [i] being a byte offset. *)
Definition buf_read (b : list ascii) (i : Z) : result ascii :=
  if (0 <=? i) && (i <? len b) then Ok (nth (Z.to_nat i) b NUL)
  else Fault (OobRead i).

Definition buf_write (b : list ascii) (i : Z) (c : ascii) : result (list ascii) :=
  if (0 <=? i) && (i <? len b)
  then Ok (firstn (Z.to_nat i) b ++ c :: skipn (S (Z.to_nat i)) b)
  else Fault (OobWrite i).

(** Writing the characters [cs] from the start of the array. *)
Definition buf_fill (b : list ascii) (cs : list ascii) : result (list ascii) :=
  if (List.length cs <=? List.length b)%nat
  then Ok (cs ++ skipn (List.length cs) b)
  else Fault (OobWrite (len b)).

Definition snprintf (b : list ascii) (n : nat) (fmt : cstring) : result (list ascii) :=
  out <- printf_noargs fmt ;;
  match n with
  | O => Ok b
  | S m => buf_fill b (firstn m out ++ [NUL])
  end.

(** The loop of [set_mirror_directory],
    [while (zSlaveDir[converted - 1] == '/' || zSlaveDir[converted - 1] == '\\' && converted > 0)
       { converted--; zSlaveDir[converted] = 0; }],
    [&&] binding tighter than [||]. [converted] is a [size_t]; its
    decrement is the structural step. The array is read before
    [converted > 0] is looked at. *)
Fixpoint trim_loop (b : list ascii) (converted : nat) : result (list ascii * nat) :=
  c <- buf_read b (size_t_index (Z.of_nat converted - 1)) ;;
  if (c =? "/")%char || ((c =? "\")%char && (0 <? Z.of_nat converted)) then
    match converted with
    | O => Fault (OobWrite (size_t_index (0 - 1)))
    | S c' =>
        b' <- buf_write b (Z.of_nat c') NUL ;;
        trim_loop b' c'
    end
  else Ok (b, converted).

(** ** Files, operations and the environment *)

(** The two [sqlite3_file] areas that follow a [vfsmirror_file] in the
    block SQLite allocates for a file: [&p[1]] and
    [(char* )&p[1] + pRoot->szOsFile]. A real file is named by the block
    and the area. *)
Inductive area := PrimaryArea | ReplicaArea.

Definition real_file : Type := nat * area.

(** Which optional entries the [sqlite3_io_methods] of a real file has. *)
Record sub_methods := {
  sub_xShmMap : bool;
  sub_xShmLock : bool;
  sub_xShmBarrier : bool;
  sub_xShmUnmap : bool
}.

(** The method table [pNew] that [vfsmirrorOpen] allocates: the twelve
    version-1 entries always point to the shim's functions, so only the
    version and the presence of the shared-memory entries vary. *)
Record io_methods := {
  iVersion : Z;
  has_xShmMap : bool;
  has_xShmLock : bool;
  has_xShmBarrier : bool;
  has_xShmUnmap : bool
}.

(** The entries of [sqlite3_io_methods] with their integer arguments.
    Buffers and out-parameters belong to the caller and the real file and
    are not carried. *)
Inductive file_op :=
| xClose
| xRead (iAmt iOfst : Z)
| xWrite (iAmt iOfst : Z)
| xTruncate (size : Z)
| xSync (flags : Z)
| xFileSize
| xLock (eLock : Z)
| xUnlock (eLock : Z)
| xCheckReservedLock
| xFileControl (op : Z)
| xSectorSize
| xDeviceCharacteristics
| xShmMap (iRegion szRegion isWrite : Z)
| xShmLock (ofst n flags : Z)
| xShmBarrier
| xShmUnmap (delFlag : Z).

(** [struct vfsmirror_file]; [pInfo] only leads to the root VFS, which is
    the environment below. [None] is the NULL pointer. *)
Record vfsmirror_file := {
  pMethods : option io_methods;     (* base.pMethods *)
  zFName : option char_ptr;
  zFname2 : option cstring;         (* the string in the array, if written *)
  pReal0 : option real_file;        (* pReal[0] *)
  pReal1 : option real_file         (* pReal[1] *)
}.

(** Calls that leave the shim. *)
Inductive event :=
| EvOpen (zName : option cstring) (f : real_file) (flags : Z) (rc : Z)
| EvDelete (zPath : option cstring) (dirSync : Z) (rc : Z)
| EvFile (f : real_file) (op : file_op) (rc : Z)
| EvSleep (ms : Z)
| EvMalloc (ok : bool)
| EvFree (m : option io_methods)
| EvDirExists (dirName : cstring) (r : bool)
| EvVfsFind (zVfsName : option cstring) (found : bool)
| EvVfsRegister (zName : cstring) (makeDefault : Z) (rc : Z)
| EvMprintf (ok : bool).

(** The answers of the root VFS ([pRoot]), of the real files and of the
    SQLite and OS services, over the world [W] they live in.
    [env_file] is [f->pMethods->x...(f, ...)]: [None] when the real file
    has no such method to call. *)
Record environment (W : Type) := {
  env_xOpen : option cstring -> real_file -> Z -> W -> Z * option sub_methods * W;
  env_xDelete : option cstring -> Z -> W -> Z * W;
  env_file : real_file -> file_op -> W -> option (Z * W);
  env_sleep : Z -> W -> W;
  env_malloc : W -> bool * W;
  env_free : option io_methods -> W -> W;
  env_dirExists : cstring -> W -> bool;
  env_vfs_find : option cstring -> W -> bool;
  env_vfs_register : cstring -> Z -> W -> Z * W;
  env_mprintf : W -> bool * W
}.
Arguments env_xOpen {W}.
Arguments env_xDelete {W}.
Arguments env_file {W}.
Arguments env_sleep {W}.
Arguments env_malloc {W}.
Arguments env_free {W}.
Arguments env_dirExists {W}.
Arguments env_vfs_find {W}.
Arguments env_vfs_register {W}.
Arguments env_mprintf {W}.

(** The statics of the file, the world and the calls made so far. *)
Record state (W : Type) := {
  zSlaveDir : list ascii;      (* static char zSlaveDir[NAME_MAX] *)
  registered : Z;              (* static int registered *)
  world : W;
  trace : list event
}.
Arguments zSlaveDir {W}.
Arguments registered {W}.
Arguments world {W}.
Arguments trace {W}.

(** The state after calls that moved the world to [w] and are recorded
    as [tr]. *)
Definition advance {W} (s : state W) (w : W) (tr : list event) : state W :=
  {| zSlaveDir := zSlaveDir s; registered := registered s;
     world := w; trace := trace s ++ tr |}.

Inductive outcome (W A : Type) :=
| Done (a : A) (s : state W)
| Crash (f : fault).
Arguments Done {W A} a s.
Arguments Crash {W A} f.

Definition M (W A : Type) : Type := state W -> outcome W A.

Definition ret {W A} (a : A) : M W A := fun s => Done a s.

Definition bind {W A B} (m : M W A) (k : A -> M W B) : M W B :=
  fun s => match m s with
           | Done a s' => k a s'
           | Crash f => Crash f
           end.

Definition lift {W A} (r : result A) : M W A :=
  fun s => match r with
           | Ok a => Done a s
           | Fault f => Crash f
           end.

Declare Scope shim_scope.
Delimit Scope shim_scope with shim.
Notation "x <-- m ;; k" := (bind m (fun x => k))
  (at level 61, m at next level, right associativity) : shim_scope.
Notation "m ;;; k" := (bind m (fun _ => k))
  (at level 61, right associativity) : shim_scope.

Local Open Scope shim_scope.

Section Shim.

Context {W : Type}.
Variable E : environment W.
(** [NAME_MAX] comes from limits.h or, failing that, is [FILENAME_MAX] or
    260: it is the size of [zSlaveDir], [zFname2] and [tmpPath]. *)
Variable NAME_MAX : nat.

(** *** Primitive steps *)

Definition crash {A} (f : fault) : M W A := fun _ => Crash f.

Definition get_zSlaveDir : M W (list ascii) := fun s => Done (zSlaveDir s) s.

Definition set_zSlaveDir (b : list ascii) : M W unit :=
  fun s => Done tt {| zSlaveDir := b; registered := registered s;
                      world := world s; trace := trace s |}.

Definition get_registered : M W Z := fun s => Done (registered s) s.

Definition set_registered (v : Z) : M W unit :=
  fun s => Done tt {| zSlaveDir := zSlaveDir s; registered := v;
                      world := world s; trace := trace s |}.

(** A call that leaves the shim: the environment answers and moves the
    world, and the call is appended to the trace. *)
Definition call {A} (f : W -> A * W) (ev : A -> event) : M W A :=
  fun s => let (a, w) := f (world s) in Done a (advance s w [ev a]).

(** [pRoot->xOpen(pRoot, zName, f, flags, pOutFlags)]: the status and the
    [pMethods] left in [f]. *)
Definition root_xOpen (zName : option cstring) (f : real_file) (flags : Z)
  : M W (Z * option sub_methods) :=
  call (env_xOpen E zName f flags) (fun r => EvOpen zName f flags (fst r)).

(** [pRoot->xDelete(pRoot, zPath, dirSync)]. *)
Definition root_xDelete (zPath : option cstring) (dirSync : Z) : M W Z :=
  call (env_xDelete E zPath dirSync) (EvDelete zPath dirSync).

(** [f->pMethods->x...(f, ...)] on a real file. *)
Definition real_call (f : option real_file) (op : file_op) : M W Z :=
  match f with
  | None => crash NullDeref
  | Some rf =>
      fun s => match env_file E rf op (world s) with
               | None => Crash NullDeref
               | Some (rc, w) => Done rc (advance s w [EvFile rf op rc])
               end
  end.

Definition sqlite3_sleep (ms : Z) : M W unit :=
  call (fun w => (tt, env_sleep E ms w)) (fun _ => EvSleep ms).

(** [sqlite3_malloc]: whether a block was returned. *)
Definition sqlite3_malloc : M W bool := call (env_malloc E) EvMalloc.

Definition sqlite3_free (m : option io_methods) : M W unit :=
  call (fun w => (tt, env_free E m w)) (fun _ => EvFree m).

Definition dirExists (dirName : cstring) : M W bool :=
  call (fun w => (env_dirExists E dirName w, w)) (EvDirExists dirName).

Definition sqlite3_vfs_find (zVfsName : option cstring) : M W bool :=
  call (fun w => (env_vfs_find E zVfsName w, w)) (EvVfsFind zVfsName).

Definition sqlite3_vfs_register (zName : cstring) (makeDefault : Z) : M W Z :=
  call (env_vfs_register E zName makeDefault) (EvVfsRegister zName makeDefault).

(** [sqlite3_mprintf]: whether a string was returned. *)
Definition sqlite3_mprintf : M W bool := call (env_mprintf E) EvMprintf.

(** *** Methods of a vfsmirror_file *)

(** The second half of the dual dispatch,
    [if (p->pReal[1]) { rc1 = p->pReal[1]->pMethods->x...(p->pReal[1], ...); }],
    [rc1] having been initialised to [SQLITE_OK]. *)
Definition replica_call (p : vfsmirror_file) (op : file_op) : M W Z :=
  match pReal1 p with
  | Some _ => real_call (pReal1 p) op
  | None => ret SQLITE_OK
  end.

Definition set_pMethods (p : vfsmirror_file) (m : option io_methods) : vfsmirror_file :=
  {| pMethods := m; zFName := zFName p; zFname2 := zFname2 p;
     pReal0 := pReal0 p; pReal1 := pReal1 p |}.

(** [static int vfsmirrorClose(sqlite3_file* pFile)]: the status and the
    file as it is left. *)
Definition vfsmirrorClose (p : vfsmirror_file) : M W (Z * vfsmirror_file) :=
  rc <-- real_call (pReal0 p) xClose ;;
  rc1 <-- replica_call p xClose ;;
  if rc =? SQLITE_OK then
    sqlite3_free (pMethods p) ;;;
    ret (RETURN_CODE rc rc1, set_pMethods p None)
  else ret (RETURN_CODE rc rc1, p).

Definition vfsmirrorRead (p : vfsmirror_file) (iAmt iOfst : Z) : M W Z :=
  rc <-- real_call (pReal0 p) (xRead iAmt iOfst) ;;
  ret rc.

Definition vfsmirrorWrite (p : vfsmirror_file) (iAmt iOfst : Z) : M W Z :=
  rc <-- real_call (pReal0 p) (xWrite iAmt iOfst) ;;
  rc1 <-- replica_call p (xWrite iAmt iOfst) ;;
  ret (RETURN_CODE rc rc1).

Definition vfsmirrorTruncate (p : vfsmirror_file) (size : Z) : M W Z :=
  rc <-- real_call (pReal0 p) (xTruncate size) ;;
  rc1 <-- replica_call p (xTruncate size) ;;
  ret (RETURN_CODE rc rc1).

Definition vfsmirrorSync (p : vfsmirror_file) (flags : Z) : M W Z :=
  rc <-- real_call (pReal0 p) (xSync flags) ;;
  rc1 <-- replica_call p (xSync flags) ;;
  ret (RETURN_CODE rc rc1).

Definition vfsmirrorFileSize (p : vfsmirror_file) : M W Z :=
  rc <-- real_call (pReal0 p) xFileSize ;;
  ret rc.

Definition vfsmirrorLock (p : vfsmirror_file) (eLock : Z) : M W Z :=
  rc <-- real_call (pReal0 p) (xLock eLock) ;;
  ret rc.

Definition vfsmirrorUnlock (p : vfsmirror_file) (eLock : Z) : M W Z :=
  rc <-- real_call (pReal0 p) (xUnlock eLock) ;;
  ret rc.

Definition vfsmirrorCheckReservedLock (p : vfsmirror_file) : M W Z :=
  rc <-- real_call (pReal0 p) xCheckReservedLock ;;
  ret rc.

(** [vfsmirrorFileControl]: the status. After the two calls,
    [if (op == SQLITE_FCNTL_VFSNAME && rc == SQLITE_OK)
       *(char** )pArg = sqlite3_mprintf("vfsmirror.%s/%z", ...);]
    calls [sqlite3_mprintf]; the string it returns goes to the caller's
    out-parameter, which is no part of the state. *)
Definition vfsmirrorFileControl (p : vfsmirror_file) (op : Z) : M W Z :=
  rc <-- real_call (pReal0 p) (xFileControl op) ;;
  rc1 <-- replica_call p (xFileControl op) ;;
  (if (op =? SQLITE_FCNTL_VFSNAME) && (rc =? SQLITE_OK)
   then sqlite3_mprintf ;;; ret tt
   else ret tt) ;;;
  ret (RETURN_CODE rc rc1).

Definition vfsmirrorSectorSize (p : vfsmirror_file) : M W Z :=
  rc <-- real_call (pReal0 p) xSectorSize ;;
  ret rc.

Definition vfsmirrorDeviceCharacteristics (p : vfsmirror_file) : M W Z :=
  rc <-- real_call (pReal0 p) xDeviceCharacteristics ;;
  ret rc.

Definition vfsmirrorShmLock (p : vfsmirror_file) (ofst n flags : Z) : M W Z :=
  rc <-- real_call (pReal0 p) (xShmLock ofst n flags) ;;
  ret rc.

Definition vfsmirrorShmMap (p : vfsmirror_file) (iRegion szRegion isWrite : Z) : M W Z :=
  rc <-- real_call (pReal0 p) (xShmMap iRegion szRegion isWrite) ;;
  ret rc.

Definition vfsmirrorShmBarrier (p : vfsmirror_file) : M W unit :=
  real_call (pReal0 p) xShmBarrier ;;;
  ret tt.

Definition vfsmirrorShmUnmap (p : vfsmirror_file) (delFlag : Z) : M W Z :=
  rc <-- real_call (pReal0 p) (xShmUnmap delFlag) ;;
  ret rc.

(** The table [pNew] of [vfsmirrorOpen]: which shim function an entry of
    the file's [sqlite3_io_methods] runs. The [void] of xShmBarrier is
    reported as 0. *)
Definition vfsmirror_method (op : file_op) (p : vfsmirror_file) : M W (Z * vfsmirror_file) :=
  match op with
  | xClose => vfsmirrorClose p
  | xRead iAmt iOfst => rc <-- vfsmirrorRead p iAmt iOfst ;; ret (rc, p)
  | xWrite iAmt iOfst => rc <-- vfsmirrorWrite p iAmt iOfst ;; ret (rc, p)
  | xTruncate size => rc <-- vfsmirrorTruncate p size ;; ret (rc, p)
  | xSync flags => rc <-- vfsmirrorSync p flags ;; ret (rc, p)
  | xFileSize => rc <-- vfsmirrorFileSize p ;; ret (rc, p)
  | xLock eLock => rc <-- vfsmirrorLock p eLock ;; ret (rc, p)
  | xUnlock eLock => rc <-- vfsmirrorUnlock p eLock ;; ret (rc, p)
  | xCheckReservedLock => rc <-- vfsmirrorCheckReservedLock p ;; ret (rc, p)
  | xFileControl op' => rc <-- vfsmirrorFileControl p op' ;; ret (rc, p)
  | xSectorSize => rc <-- vfsmirrorSectorSize p ;; ret (rc, p)
  | xDeviceCharacteristics => rc <-- vfsmirrorDeviceCharacteristics p ;; ret (rc, p)
  | xShmMap a b c => rc <-- vfsmirrorShmMap p a b c ;; ret (rc, p)
  | xShmLock a b c => rc <-- vfsmirrorShmLock p a b c ;; ret (rc, p)
  | xShmBarrier => vfsmirrorShmBarrier p ;;; ret (0, p)
  | xShmUnmap delFlag => rc <-- vfsmirrorShmUnmap p delFlag ;; ret (rc, p)
  end.

(** *** Methods of the shim VFS *)

(** The loop of [vfsmirrorOpen],
    [while (retry > 0 && (rc1 = pRoot->xOpen(pRoot, p->zFname2, p->pReal[1], flags, pOutFlags)) != SQLITE_OK)
       { sqlite3_sleep(5); retry--; }],
    by recursion on [retry]; the result is the final [rc1]. *)
Fixpoint replica_open_loop (retry : nat) (rc1 : Z) (zFname2 : cstring)
    (f : real_file) (flags : Z) : M W Z :=
  match retry with
  | O => ret rc1
  | S retry' =>
      r <-- root_xOpen (Some zFname2) f flags ;;
      if negb (fst r =? SQLITE_OK) then
        sqlite3_sleep 5 ;;;
        replica_open_loop retry' (fst r) zFname2 f flags
      else ret (fst r)
  end.

(** The condition [zName && rc == SQLITE_OK && (flags & (SQLITE_OPEN_MAIN_DB | SQLITE_OPEN_MAIN_JOURNAL))]. *)
Definition mirror_condition (zName : option cstring) (rc flags : Z) : bool :=
  match zName with Some _ => true | None => false end
  && (rc =? SQLITE_OK)
  && negb (Z.land flags (Z.lor SQLITE_OPEN_MAIN_DB SQLITE_OPEN_MAIN_JOURNAL) =? 0).

(** The block [if (p->pReal[0]->pMethods) { ... pFile->pMethods = pNew; }]
    of [vfsmirrorOpen], [sub] being [p->pReal[0]->pMethods]: the value of
    [pFile->pMethods] after it. The table is allocated with
    [sqlite3_malloc] and cleared with [memset] without a check, its
    version is set to 2, and the shared-memory entries are filled under
    [if (pNew->iVersion >= 2)] where the real file has them. *)
Definition new_methods (p : vfsmirror_file) (sub : option sub_methods)
  : M W (option io_methods) :=
  match sub with
  | Some pSub =>
      ok <-- sqlite3_malloc ;;
      if ok then
        let v := 2 in
        ret (Some {| iVersion := v;
                     has_xShmMap := (2 <=? v) && sub_xShmMap pSub;
                     has_xShmLock := (2 <=? v) && sub_xShmLock pSub;
                     has_xShmBarrier := (2 <=? v) && sub_xShmBarrier pSub;
                     has_xShmUnmap := (2 <=? v) && sub_xShmUnmap pSub |})
      else crash NullDeref
  | None => ret (pMethods p)
  end.

(** [static int vfsmirrorOpen(sqlite3_vfs* pVfs, const char* zName, sqlite3_file* pFile, int flags, int* pOutFlags)].
    [blk] names the block [pFile] points to and [p] is what the block
    holds on entry; the result is the status and the block on return. *)
Definition vfsmirrorOpen (blk : nat) (p : vfsmirror_file)
    (zName : option cstring) (flags : Z) : M W (Z * vfsmirror_file) :=
  zf <-- lift (match zName with
               | Some z => fileTail (Some (ptr_to z))
               | None => Ok (Some (ptr_to (C "<temp>")))
               end) ;;
  let r0 := (blk, PrimaryArea) in
  r <-- root_xOpen zName r0 flags ;;
  let rc := fst r in
  pm <-- new_methods p (snd r) ;;
  if mirror_condition zName rc flags then
    dir <-- get_zSlaveDir ;;
    z2 <-- lift (vfsmirrorReplicaPath dir zf NAME_MAX) ;;
    let r1 := (blk, ReplicaArea) in
    rc1 <-- replica_open_loop 10 SQLITE_OK z2 r1 flags ;;
    ret (RETURN_CODE rc rc1,
         {| pMethods := pm; zFName := zf; zFname2 := Some z2;
            pReal0 := Some r0; pReal1 := Some r1 |})
  else
    ret (RETURN_CODE rc SQLITE_OK,
         {| pMethods := pm; zFName := zf; zFname2 := zFname2 p;
            pReal0 := Some r0; pReal1 := None |}).

(** [static int vfsmirrorDelete(sqlite3_vfs* pVfs, const char* zPath, int dirSync)]. *)
Definition vfsmirrorDelete (zPath : option cstring) (dirSync : Z) : M W Z :=
  rc <-- root_xDelete zPath dirSync ;;
  dir <-- get_zSlaveDir ;;
  tmpPath <-- lift (vfsmirrorReplicaPath dir (option_map ptr_to zPath) NAME_MAX) ;;
  rc1 <-- root_xDelete (Some tmpPath) dirSync ;;
  ret (RETURN_CODE rc rc1).

(** *** Registration and configuration *)

(** [vfsmirror_register(zTraceName, zOldVfsName, xOut, pOutArg, makeDefault)];
    the output routine is only stored in the new VFS. *)
Definition vfsmirror_register (zTraceName : cstring) (zOldVfsName : option cstring)
    (makeDefault : Z) : M W Z :=
  found <-- sqlite3_vfs_find zOldVfsName ;;
  if negb found then ret SQLITE_NOTFOUND
  else
    ok <-- sqlite3_malloc ;;
    if negb ok then ret SQLITE_NOMEM
    else sqlite3_vfs_register zTraceName makeDefault.

(** [int set_mirror_directory(const char* slave_dir)]. *)
Definition set_mirror_directory (slave_dir : option cstring) : M W Z :=
  reg <-- get_registered ;;
  if negb (reg =? 0) then ret 0
  else
    z <-- lift (match slave_dir with Some z => Ok z | None => Fault NullDeref end) ;;
    let converted := List.length z in
    if (NAME_MAX <=? converted)%nat then ret 0
    else
      b0 <-- get_zSlaveDir ;;
      b1 <-- lift (snprintf b0 NAME_MAX z) ;;
      set_zSlaveDir b1 ;;;
      t <-- lift (trim_loop b1 converted) ;;
      set_zSlaveDir (fst t) ;;;
      if (snd t <? 2)%nat then ret 0
      else
        d <-- lift (match c_str (fst t) with
                    | Some d => Ok d
                    | None => Fault (OobRead (len (fst t)))
                    end) ;;
        ex <-- dirExists d ;;
        if negb ex then ret 0
        else
          set_registered 1 ;;;
          vfsmirror_register (C "trace") None 1 ;;;
          ret 1.

End Shim.

Arguments crash {W A} f.
Arguments call {W A} f ev.

(** ** A small environment to run the shim in

    The world counts the replica opens made so far. The primary open
    answers [primary_rc]; the replica open number [k], counted from 0,
    answers [replica_rc k]; a method of a real file answers [file_rc] of
    its area; deleting answers [delete_rc] of the path; [mirror_dir] is
    the one directory that exists. *)
Definition shm_capable : sub_methods :=
  {| sub_xShmMap := true; sub_xShmLock := true;
     sub_xShmBarrier := true; sub_xShmUnmap := true |}.

Definition opened (rc : Z) : option sub_methods :=
  if rc =? SQLITE_OK then Some shm_capable else None.

Definition sample_env (primary_rc : Z) (replica_rc : nat -> Z)
    (file_rc : area -> Z) (delete_rc : option cstring -> Z)
    (mirror_dir : string) : environment nat :=
  {| env_xOpen := fun _ f _ w =>
       match snd f with
       | PrimaryArea => (primary_rc, opened primary_rc, w)
       | ReplicaArea => (replica_rc w, opened (replica_rc w), S w)
       end;
     env_xDelete := fun z _ w => (delete_rc z, w);
     env_file := fun f _ w => Some (file_rc (snd f), w);
     env_sleep := fun _ w => w;
     env_malloc := fun w => (true, w);
     env_free := fun _ w => w;
     env_dirExists := fun d _ => String.eqb (string_of_list_ascii d) mirror_dir;
     env_vfs_find := fun _ _ => true;
     env_vfs_register := fun _ _ w => (SQLITE_OK, w);
     env_mprintf := fun w => (true, w) |}.

(** Every call succeeds. *)
Definition healthy_env : environment nat :=
  sample_env SQLITE_OK (fun _ => SQLITE_OK) (fun _ => SQLITE_OK)
    (fun _ => SQLITE_OK) "/mirror".

(** The primary side succeeds and the replica side fails: every replica
    open answers [SQLITE_CANTOPEN], and the methods of a replica file
    answer [SQLITE_IOERR]. *)
Definition broken_replica_env : environment nat :=
  sample_env SQLITE_OK (fun _ => SQLITE_CANTOPEN)
    (fun a => match a with PrimaryArea => SQLITE_OK | ReplicaArea => SQLITE_IOERR end)
    (fun _ => SQLITE_OK) "/mirror".

(** The primary side succeeds; every replica open answers
    [SQLITE_CANTOPEN] and, as a failed open of the root VFS does, leaves
    no methods in the replica file: it has no method to call. *)
Definition unopened_replica_env : environment nat :=
  {| env_xOpen := env_xOpen broken_replica_env;
     env_xDelete := env_xDelete broken_replica_env;
     env_file := fun f _ w =>
       match snd f with
       | PrimaryArea => Some (SQLITE_OK, w)
       | ReplicaArea => None
       end;
     env_sleep := env_sleep broken_replica_env;
     env_malloc := env_malloc broken_replica_env;
     env_free := env_free broken_replica_env;
     env_dirExists := env_dirExists broken_replica_env;
     env_vfs_find := env_vfs_find broken_replica_env;
     env_vfs_register := env_vfs_register broken_replica_env;
     env_mprintf := env_mprintf broken_replica_env |}.

(** The primary open fails with [SQLITE_CANTOPEN]. *)
Definition broken_primary_env : environment nat :=
  sample_env SQLITE_CANTOPEN (fun _ => SQLITE_OK) (fun _ => SQLITE_OK)
    (fun _ => SQLITE_OK) "/mirror".

(** The statics at program start: [zSlaveDir] all NUL, nothing registered. *)
Definition initial_state (NAME_MAX : nat) : state nat :=
  {| zSlaveDir := repeat NUL NAME_MAX; registered := 0; world := O; trace := [] |}.

(** The statics once [dir] has been configured. *)
Definition configured_state (NAME_MAX : nat) (dir : string) : state nat :=
  {| zSlaveDir := C dir ++ repeat NUL (NAME_MAX - List.length (C dir));
     registered := 1; world := O; trace := [] |}.

(** A block as SQLite hands it to [xOpen]: zeroed. *)
Definition blank_file : vfsmirror_file :=
  {| pMethods := None; zFName := None; zFname2 := None;
     pReal0 := None; pReal1 := None |}.

(** Block 7 after a mirrored open of [/a/b/test.db]. *)
Definition mirrored_file : vfsmirror_file :=
  {| pMethods := Some {| iVersion := 2; has_xShmMap := true; has_xShmLock := true;
                         has_xShmBarrier := true; has_xShmUnmap := true |};
     zFName := Some {| base := C "/a/b/test.db"; ofs := 5 |};
     zFname2 := Some (C "/mirror\test.db");
     pReal0 := Some (7%nat, PrimaryArea);
     pReal1 := Some (7%nat, ReplicaArea) |}.

(** The flags SQLite opens a main database with. *)
Definition main_db_flags : Z :=
  Z.lor SQLITE_OPEN_MAIN_DB (Z.lor SQLITE_OPEN_READWRITE SQLITE_OPEN_CREATE).

(** * Vocabulary of the properties *)

(** The base name as the spec words it, the final path component: the
    longest end of the path that holds no separator. *)
Fixpoint basename (z : cstring) : cstring :=
  match z with
  | [] => []
  | _ :: r => if existsb is_sep z then basename r else z
  end.

(** A pointer inside its object, and the string it points to. *)
Definition valid_ptr (p : char_ptr) : Prop := 0 <= ofs p <= len (base p).

Definition pointee (p : char_ptr) : cstring := skipn (Z.to_nat (ofs p)) (base p).

(** Where the tail starts in a non-empty string. *)
Definition tail_start (s : cstring) : nat :=
  (List.length s - 1 - List.length (basename (removelast s)))%nat.

(** The real file an event is a method call on, if it is one. *)
Definition event_file (ev : event) : option real_file :=
  match ev with
  | EvFile f _ _ => Some f
  | _ => None
  end.

(** The operations the spec lists as read-only or concurrency control. *)
Definition primary_only (op : file_op) : bool :=
  match op with
  | xRead _ _ | xFileSize | xLock _ | xUnlock _ | xCheckReservedLock
  | xSectorSize | xDeviceCharacteristics
  | xShmMap _ _ _ | xShmLock _ _ _ | xShmBarrier | xShmUnmap _ => true
  | xClose | xWrite _ _ | xTruncate _ | xSync _ | xFileControl _ => false
  end.

(** The operations that are dispatched to both files without more. *)
Definition mutating (op : file_op) : bool :=
  match op with
  | xWrite _ _ | xTruncate _ | xSync _ | xFileControl _ => true
  | _ => false
  end.

Definition area_eqb (a b : area) : bool :=
  match a, b with
  | PrimaryArea, PrimaryArea | ReplicaArea, ReplicaArea => true
  | _, _ => false
  end.

Definition real_file_eqb (f g : real_file) : bool :=
  (fst f =? fst g)%nat && area_eqb (snd f) (snd g).

(** Is the event an [xOpen] of the root VFS on the real file [f]? *)
Definition is_open_of (f : real_file) (ev : event) : bool :=
  match ev with
  | EvOpen _ g _ _ => real_file_eqb f g
  | _ => false
  end.

Definition is_sleep (ev : event) : bool :=
  match ev with
  | EvSleep _ => true
  | _ => false
  end.

(** How many times [xOpen] was called on [f], and how many sleeps were
    made, in a list of calls. *)
Definition open_attempts (f : real_file) (tr : list event) : nat :=
  List.length (filter (is_open_of f) tr).

Definition sleeps (tr : list event) : nat :=
  List.length (filter is_sleep tr).

(** ** Further functions of the file and words for their properties *)

(** [static void strappend(char* z, int* pI, const char* zAppend)]:
    [int i = *pI; while (zAppend[0]) { z[i++] = *(zAppend++); } z[i] = 0; *pI = i;]
    on the array [z], by recursion on what is left of [zAppend]. The
    result is the array and the value stored in [*pI]. *)
Fixpoint strappend (z : list ascii) (i : Z) (zAppend : cstring)
  : result (list ascii * Z) :=
  match zAppend with
  | [] => z' <- buf_write z i NUL ;; Ok (z', i)
  | c :: r => z' <- buf_write z i c ;; strappend z' (to_int (i + 1)) r
  end.

(** The flags of [xSync] and of [xShmLock], as [sqlite3.h] has them. *)
Definition SQLITE_SYNC_NORMAL : Z := 2.
Definition SQLITE_SYNC_FULL : Z := 3.
Definition SQLITE_SYNC_DATAONLY : Z := 16.
Definition SQLITE_SHM_UNLOCK : Z := 1.
Definition SQLITE_SHM_LOCK : Z := 2.
Definition SQLITE_SHM_SHARED : Z := 4.
Definition SQLITE_SHM_EXCLUSIVE : Z := 8.

(** The test [if (flags & mask)]. *)
Definition flag_set (flags mask : Z) : bool := negb (Z.land flags mask =? 0).

(** [memcpy(zBuf, "|0", 3)] on a local array of at least 3 characters,
    whose content before the copy is whatever the stack held. *)
Definition memcpy_bar_zero (zBuf : list ascii) : list ascii :=
  C "|0" ++ NUL :: skipn 3 zBuf.

(** The flag names of [vfsmirrorSync], built when [FULL_TRACE] is
    defined: [memcpy(zBuf, "|0", 3); i = 0;] and the three conditional
    calls of [strappend], up to the test of the remaining bits. The
    result is [zBuf] and [i]. *)
Definition sync_flag_names (zBuf : list ascii) (flags : Z)
    : result (list ascii * Z) :=
  let zBuf := memcpy_bar_zero zBuf in
  st <- (if flag_set flags SQLITE_SYNC_FULL then strappend zBuf 0 (C "|FULL")
         else if flag_set flags SQLITE_SYNC_NORMAL
              then strappend zBuf 0 (C "|NORMAL")
              else Ok (zBuf, 0)) ;;
  if flag_set flags SQLITE_SYNC_DATAONLY
  then strappend (fst st) (snd st) (C "|DATAONLY")
  else Ok st.

(** The flag names of [vfsmirrorShmLock], built when [FULL_TRACE] is
    defined: [int i = 0; memcpy(zLck, "|0", 3);] and the four conditional
    calls of [strappend], up to the test of the remaining bits. *)
Definition shm_lock_flag_names (zLck : list ascii) (flags : Z)
    : result (list ascii * Z) :=
  let zLck := memcpy_bar_zero zLck in
  st <- (if flag_set flags SQLITE_SHM_UNLOCK
         then strappend zLck 0 (C "|UNLOCK") else Ok (zLck, 0)) ;;
  st <- (if flag_set flags SQLITE_SHM_LOCK
         then strappend (fst st) (snd st) (C "|LOCK") else Ok st) ;;
  st <- (if flag_set flags SQLITE_SHM_SHARED
         then strappend (fst st) (snd st) (C "|SHARED") else Ok st) ;;
  if flag_set flags SQLITE_SHM_EXCLUSIVE
  then strappend (fst st) (snd st) (C "|EXCLUSIVE")
  else Ok st.

(** The names joined, and what the array reads as: ["|0"] when no name
    was appended. *)
Definition named (on : bool) (name : string) : cstring :=
  if on then C name else [].

Definition or_bar_zero (names : cstring) : cstring :=
  match names with [] => C "|0" | _ => names end.

(** The table of [lockName]. *)
Definition azLockNames : list string :=
  ["NONE"; "SHARED"; "RESERVED"; "PENDING"; "EXCLUSIVE"]%string.

(** [static const char* lockName(int eLock)]: the test
    [eLock < 0 || eLock >= sizeof(azLockNames) / sizeof(azLockNames[0])]
    compares [eLock], converted to [size_t], with the number of entries;
    the table is then read at [eLock]. *)
Definition lockName (eLock : Z) : result cstring :=
  if (eLock <? 0) || (Z.of_nat (List.length azLockNames) <=? eLock mod 2 ^ 64)
  then Ok (C "???")
  else match nth_error azLockNames (Z.to_nat eLock) with
       | Some name => Ok (C name)
       | None => Fault (OobRead eLock)
       end.

(** What [fileTail] returns for a non-empty string, as a string: the
    final character and, before it, what follows the last separator. *)
Definition file_tail (z : cstring) : cstring :=
  basename (removelast z) ++ [last z NUL].

(** A path without its trailing separators. *)
Fixpoint rstrip (z : cstring) : cstring :=
  match z with
  | [] => []
  | c :: r =>
      match rstrip r with
      | [] => if is_sep c then [] else [c]
      | _ :: _ => c :: rstrip r
      end
  end.

(** A string as C has them and free of printf conversions: no NUL and
    no [%] in it. *)
Definition plain (z : cstring) : Prop :=
  Forall (fun c => c <> NUL /\ c <> "%"%char) z.

(** The array [zSlaveDir] has its [NAME_MAX] characters and holds a
    terminated string. *)
Definition dir_terminated {W} (NAME_MAX : nat) (s : state W) : Prop :=
  List.length (zSlaveDir s) = NAME_MAX /\ In NUL (zSlaveDir s).

(** The calls [vfsmirror_register] makes in the world [w]. *)
Definition registration_events {W} (E : environment W) (zTraceName : cstring)
    (zOldVfsName : option cstring) (makeDefault : Z) (w : W) : list event :=
  let found := env_vfs_find E zOldVfsName w in
  EvVfsFind zOldVfsName found ::
  (if found then
     let ok := fst (env_malloc E w) in
     EvMalloc ok ::
     (if ok then
        [EvVfsRegister zTraceName makeDefault
           (fst (env_vfs_register E zTraceName makeDefault (snd (env_malloc E w))))]
      else [])
   else []).

(** Is the event a registration of a VFS? *)
Definition is_vfs_register (ev : event) : bool :=
  match ev with
  | EvVfsRegister _ _ _ => true
  | _ => false
  end.

(** The state [s'] comes from [s] by calls that left the shim: the
    statics are the same and the trace has grown. *)
Definition advances {W} (s s' : state W) : Prop :=
  exists w tr, s' = advance s w tr.

(** The size [vfsmirror_register] announces for a file of the shim,
    [pNew->szOsFile = (2 * pRoot->szOsFile) + sizeof(vfsmirror_file)]:
    the product is an [int], the sum is made in [size_t] and stored in an
    [int]. [sizeof_file] stands for [sizeof(vfsmirror_file)]. *)
Definition shim_szOsFile (root_szOsFile sizeof_file : Z) : Z :=
  to_int ((to_int (2 * root_szOsFile) mod 2 ^ 64 + sizeof_file) mod 2 ^ 64).

(** The byte offsets in the block of [p->pReal[0] = (sqlite3_file* )&p[1]]
    and of [p->pReal[1] = (sqlite3_file* )(((char* )&(p[1])) + pRoot->szOsFile)],
    as [vfsmirrorOpen] sets them. *)
Definition pReal0_offset (sizeof_file : Z) : Z := sizeof_file.

Definition pReal1_offset (root_szOsFile sizeof_file : Z) : Z :=
  sizeof_file + root_szOsFile.

(** Whether [vfsmirrorFileControl] goes on to [sqlite3_mprintf]: the
    operation is fileControl with [SQLITE_FCNTL_VFSNAME] and the status of
    the primary file is [SQLITE_OK]. Then the call that follows the calls
    on the real files, and the world after it. *)
Definition names_vfs (op : file_op) (rc : Z) : bool :=
  match op with
  | xFileControl o => (o =? SQLITE_FCNTL_VFSNAME) && (rc =? SQLITE_OK)
  | _ => false
  end.

Definition vfsname_events {W} (E : environment W) (op : file_op) (rc : Z) (w : W)
    : list event :=
  if names_vfs op rc then [EvMprintf (fst (env_mprintf E w))] else [].

Definition vfsname_world {W} (E : environment W) (op : file_op) (rc : Z) (w : W)
    : W :=
  if names_vfs op rc then snd (env_mprintf E w) else w.

(** The conversion specifiers of [printf] that take an argument. *)
Definition takes_argument (c : ascii) : bool :=
  existsb (Ascii.eqb c) (C "diouxXeEfFgGaAcspn").

(** An environment whose allocator answers [ok], and one whose
    [sqlite3_vfs_find] answers [found]; all else as in [E]. *)
Definition with_malloc {W} (E : environment W) (ok : bool) : environment W :=
  {| env_xOpen := env_xOpen E; env_xDelete := env_xDelete E;
     env_file := env_file E; env_sleep := env_sleep E;
     env_malloc := fun w => (ok, w); env_free := env_free E;
     env_dirExists := env_dirExists E; env_vfs_find := env_vfs_find E;
     env_vfs_register := env_vfs_register E;
     env_mprintf := env_mprintf E |}.

Definition with_vfs_find {W} (E : environment W) (found : bool) : environment W :=
  {| env_xOpen := env_xOpen E; env_xDelete := env_xDelete E;
     env_file := env_file E; env_sleep := env_sleep E;
     env_malloc := env_malloc E; env_free := env_free E;
     env_dirExists := env_dirExists E; env_vfs_find := fun _ _ => found;
     env_vfs_register := env_vfs_register E;
     env_mprintf := env_mprintf E |}.

(** A computation that only makes calls: whenever it completes, the
    state has advanced. *)
Definition steady {W A} (m : M W A) : Prop :=
  forall s a s', m s = Done a s' -> advances s s'.

(** Every method call among the events is on the real file [f]. *)
Definition only_on (f : real_file) (tr : list event) : Prop :=
  Forall (fun ev => event_file ev = None \/ event_file ev = Some f) tr.

(** * Properties *)

(** ** Base names *)

Lemma basename_snoc (l : cstring) (c : ascii) :
  basename (l ++ [c]) = if is_sep c then [] else basename l ++ [c].
Proof.
  induction l as [|a l IH].
  - simpl. destruct (is_sep c); reflexivity.
  - change (basename ((a :: l) ++ [c]))
      with (if existsb is_sep (a :: (l ++ [c])) then basename (l ++ [c])
            else a :: (l ++ [c])).
    change (basename (a :: l))
      with (if existsb is_sep (a :: l) then basename l else a :: l).
    simpl existsb. rewrite existsb_app. simpl existsb.
    rewrite IH. destruct (is_sep c).
    + rewrite !orb_true_r. reflexivity.
    + rewrite !orb_false_r.
      destruct (is_sep a || existsb is_sep l); reflexivity.
Qed.

Lemma basename_no_sep (z : cstring) : existsb is_sep (basename z) = false.
Proof.
  induction z as [|a z IH]; [reflexivity|].
  change (basename (a :: z))
    with (if existsb is_sep (a :: z) then basename z else a :: z).
  destruct (existsb is_sep (a :: z)) eqn:Hs; [exact IH | exact Hs].
Qed.

Lemma basename_fixed (z : cstring) :
  existsb is_sep z = false -> basename z = z.
Proof.
  destruct z as [|a z]; [reflexivity|]. intros H.
  change (basename (a :: z))
    with (if existsb is_sep (a :: z) then basename z else a :: z).
  rewrite H. reflexivity.
Qed.

Lemma basename_split (z : cstring) :
  exists pre, z = pre ++ basename z.
Proof.
  induction z as [|a z [pre IH]].
  - exists []. reflexivity.
  - change (basename (a :: z))
      with (if existsb is_sep (a :: z) then basename z else a :: z).
    destruct (existsb is_sep (a :: z)).
    + exists (a :: pre). simpl. f_equal. exact IH.
    + exists []. reflexivity.
Qed.

Lemma basename_length (z : cstring) :
  (List.length (basename z) <= List.length z)%nat.
Proof.
  destruct (basename_split z) as [pre H].
  rewrite H at 2. rewrite length_app. lia.
Qed.

Lemma skipn_to_basename (z : cstring) :
  skipn (List.length z - List.length (basename z)) z = basename z.
Proof.
  destruct (basename_split z) as [pre H].
  assert (Hl : (List.length z - List.length (basename z))%nat = List.length pre).
  { rewrite H at 1. rewrite length_app. lia. }
  rewrite Hl. rewrite H at 1.
  rewrite skipn_app, Nat.sub_diag, skipn_all. reflexivity.
Qed.

(** The two base names agree on a path that does not end in a separator. *)
Lemma basename_last (z : cstring) :
  z <> [] -> is_sep (last z NUL) = false ->
  basename z = basename (removelast z) ++ [last z NUL].
Proof.
  intros Hz Hl.
  rewrite (app_removelast_last NUL Hz) at 1.
  rewrite basename_snoc, Hl. reflexivity.
Qed.

(** ** fileTail *)

Lemma firstn_snoc_nth {A} (d : A) (l : list A) (n : nat) :
  (n < List.length l)%nat -> firstn (S n) l = firstn n l ++ [nth n l d].
Proof.
  revert n. induction l as [|a l IH]; intros n Hn; simpl in Hn; [lia|].
  destruct n as [|n]; [reflexivity|].
  change (firstn (S (S n)) (a :: l)) with (a :: firstn (S n) l).
  rewrite (IH n) by lia. reflexivity.
Qed.

Lemma nth_skipn {A} (d : A) (l : list A) (k n : nat) :
  nth n (skipn k l) d = nth (k + n) l d.
Proof.
  revert l. induction k as [|k IH]; intros l; [reflexivity|].
  destruct l as [|a l]; [destruct n; reflexivity|]. simpl. apply IH.
Qed.

Lemma pointee_length (p : char_ptr) :
  valid_ptr p -> len (pointee p) = len (base p) - ofs p.
Proof.
  unfold valid_ptr, pointee, len. intros H. rewrite length_skipn. lia.
Qed.

Lemma c_string_valid (p : char_ptr) : valid_ptr p -> c_string p = Ok (pointee p).
Proof.
  unfold valid_ptr, c_string, pointee. intros [H1 H2].
  destruct (Z.leb_spec 0 (ofs p)); [|lia].
  destruct (Z.leb_spec (ofs p) (len (base p))); [|lia]. reflexivity.
Qed.

Lemma c_strlen_valid (p : char_ptr) :
  valid_ptr p -> c_strlen p = Ok (len (pointee p)).
Proof.
  intros H. rewrite (pointee_length p H). unfold valid_ptr, c_strlen in *.
  destruct (Z.leb_spec 0 (ofs p)); [|lia].
  destruct (Z.leb_spec (ofs p) (len (base p))); [|lia]. reflexivity.
Qed.

Lemma read_char_valid (p : char_ptr) (k : nat) :
  valid_ptr p -> (k < List.length (pointee p))%nat ->
  read_char p (Z.of_nat k) = Ok (nth k (pointee p) NUL).
Proof.
  intros Hv Hk. pose proof (pointee_length p Hv) as Hl.
  unfold valid_ptr, read_char, len in *.
  destruct (Z.leb_spec 0 (ofs p + Z.of_nat k)); [|lia].
  destruct (Z.ltb_spec (ofs p + Z.of_nat k) (Z.of_nat (List.length (base p)))); [|lia].
  simpl. unfold pointee. rewrite nth_skipn. do 2 f_equal. lia.
Qed.

(** The scan stops right after the last separator among the first [n]
    characters, or at 0 when there is none. *)
Lemma fileTail_scan_spec (p : char_ptr) (n : nat) :
  valid_ptr p -> (n <= List.length (pointee p))%nat ->
  fileTail_scan p n
  = Ok (Z.of_nat (n - List.length (basename (firstn n (pointee p))))).
Proof.
  intros Hv. induction n as [|n IH]; intros Hn; [reflexivity|].
  simpl fileTail_scan. rewrite (read_char_valid p n Hv) by lia. simpl rbind.
  rewrite (firstn_snoc_nth NUL) by lia. rewrite basename_snoc.
  destruct (is_sep (nth n (pointee p) NUL)).
  - simpl List.length. rewrite Nat.sub_0_r. reflexivity.
  - rewrite IH by lia. rewrite length_app. simpl List.length.
    do 2 f_equal. lia.
Qed.

Lemma to_int_small (x : Z) : - 2 ^ 31 <= x < 2 ^ 31 -> to_int x = x.
Proof.
  intros H. unfold to_int. rewrite Z.mod_small; lia.
Qed.

Lemma fileTail_index_spec (p : char_ptr) :
  valid_ptr p -> pointee p <> [] -> len (pointee p) < 2 ^ 31 ->
  fileTail_index p = Ok (Z.of_nat (tail_start (pointee p))).
Proof.
  intros Hv Hne Hlen. unfold fileTail_index.
  rewrite (c_strlen_valid p Hv). simpl rbind.
  assert (Hpos : (0 < List.length (pointee p))%nat).
  { destruct (pointee p); [congruence | simpl; lia]. }
  unfold len in *. rewrite to_int_small by lia.
  unfold tail_start.
  destruct (Z.ltb_spec 0 (Z.of_nat (List.length (pointee p)) - 1)) as [Hi|Hi].
  - rewrite fileTail_scan_spec by (trivial; lia).
    replace (Z.to_nat (Z.of_nat (List.length (pointee p)) - 1))
      with (List.length (pointee p) - 1)%nat by lia.
    rewrite removelast_firstn_len.
    replace (pred (List.length (pointee p))) with (List.length (pointee p) - 1)%nat by lia.
    reflexivity.
  - replace (List.length (pointee p) - 1)%nat with 0%nat by lia.
    simpl. f_equal. lia.
Qed.

Lemma skipn_tail_start (s : cstring) :
  s <> [] ->
  skipn (tail_start s) s = basename (removelast s) ++ [last s NUL].
Proof.
  intros Hs. unfold tail_start.
  pose proof (app_removelast_last NUL Hs) as Hsplit.
  remember (removelast s) as r eqn:Hr. remember (last s NUL) as c eqn:Hc.
  clear Hr Hc. subst s. clear Hs.
  pose proof (basename_length r) as Hb.
  rewrite length_app. simpl List.length.
  replace (List.length r + 1 - 1 - List.length (basename r))%nat
    with (List.length r - List.length (basename r))%nat by lia.
  rewrite skipn_app.
  replace (List.length r - List.length (basename r) - List.length r)%nat
    with 0%nat by lia.
  rewrite skipn_to_basename. reflexivity.
Qed.

Lemma tail_start_lt (s : cstring) :
  s <> [] -> (tail_start s < List.length s)%nat.
Proof.
  intros Hs. unfold tail_start.
  destruct s; [congruence | simpl List.length; lia].
Qed.

(** On a non-empty string [fileTail] stays inside it and returns the part
    that follows the last separator before the final character. *)
Lemma fileTail_spec (p : char_ptr) :
  valid_ptr p -> pointee p <> [] -> len (pointee p) < 2 ^ 31 ->
  exists q, fileTail (Some p) = Ok (Some q)
    /\ base q = base p
    /\ ofs p <= ofs q < ofs p + len (pointee p)
    /\ pointee q = basename (removelast (pointee p)) ++ [last (pointee p) NUL].
Proof.
  intros Hv Hne Hlen.
  exists (ptr_add p (Z.of_nat (tail_start (pointee p)))).
  pose proof (tail_start_lt _ Hne) as Hlt.
  unfold fileTail. rewrite (fileTail_index_spec p Hv Hne Hlen). simpl rbind.
  split; [reflexivity|]. split; [reflexivity|].
  split; [unfold ptr_add, len; simpl; lia|].
  rewrite <- (skipn_tail_start _ Hne).
  unfold ptr_add, pointee. simpl base. simpl ofs.
  rewrite skipn_skipn. f_equal. destruct Hv. lia.
Qed.

(** For a non-empty string the returned pointer is at an offset within
    [0, length) of the string, and no read leaves the string. *)
Lemma fileTail_in_bounds (z : cstring) :
  z <> [] -> len z < 2 ^ 31 ->
  exists q, fileTail (Some (ptr_to z)) = Ok (Some q)
    /\ base q = z /\ 0 <= ofs q < len z.
Proof.
  intros Hz Hl.
  assert (Hv : valid_ptr (ptr_to z)) by (unfold valid_ptr, ptr_to, len; simpl; lia).
  destruct (fileTail_spec (ptr_to z) Hv Hz Hl) as (q & Hq & Hb & Ho & _).
  exists q. split; [exact Hq|]. split; [exact Hb|]. exact Ho.
Qed.

(** Whatever the string, the scan itself reads inside it: [fileTail]
    never faults on a pointer to the start of a string. *)
Lemma fileTail_scan_no_fault (z : cstring) (n : nat) :
  (n <= List.length z)%nat -> exists i, fileTail_scan (ptr_to z) n = Ok i /\ 0 <= i <= Z.of_nat n.
Proof.
  induction n as [|n IH]; intros Hn.
  - exists 0. split; [reflexivity | lia].
  - assert (Hv : valid_ptr (ptr_to z)) by (unfold valid_ptr, ptr_to, len; simpl; lia).
    simpl fileTail_scan. rewrite (read_char_valid (ptr_to z) n Hv) by exact Hn.
    simpl rbind. destruct (is_sep _).
    + exists (Z.of_nat (S n)). split; [reflexivity | lia].
    + destruct IH as (i & Hi & Hb); [lia|]. exists i. split; [exact Hi | lia].
Qed.

Lemma to_int_le (x : Z) : 0 <= x -> to_int x <= x.
Proof.
  intros H. unfold to_int.
  pose proof (Z.mod_le (x + 2 ^ 31) (2 ^ 32)). lia.
Qed.

Lemma fileTail_no_fault (z : cstring) :
  exists q, fileTail (Some (ptr_to z)) = Ok (Some q) /\ base q = z.
Proof.
  unfold fileTail, fileTail_index, c_strlen, ptr_to. simpl ofs. simpl base.
  assert (H0 : 0 <= len z) by (unfold len; lia).
  destruct (Z.leb_spec 0 (len z)); [|lia]. simpl rbind.
  destruct (Z.ltb_spec 0 (to_int (len z - 0 - 1))) as [Hi|Hi].
  - destruct (fileTail_scan_no_fault z (Z.to_nat (to_int (len z - 0 - 1))))
      as (i & Hs & Hb).
    { destruct (Z.eq_dec (len z) 0) as [Hz|Hz].
      - rewrite Hz in Hi. vm_compute in Hi. discriminate.
      - pose proof (to_int_le (len z - 0 - 1)). unfold len in *. lia. }
    unfold ptr_to in Hs. rewrite Hs. simpl rbind.
    eexists. split; reflexivity.
  - eexists. split; reflexivity.
Qed.

(** ** The replica path *)

Lemma rbind_ok {A B} (a : A) (k : A -> result B) : rbind (Ok a) k = k a.
Proof. reflexivity. Qed.

Lemma firstn_exact {A} (l : list A) (n : nat) :
  (List.length l <= n)%nat -> firstn n l = l.
Proof. intros H. apply firstn_all2. exact H. Qed.

Lemma strncat_fits (cap : nat) (dest src : cstring) :
  (List.length dest + List.length src < cap)%nat ->
  strncat cap dest src cap = Ok (dest ++ src).
Proof.
  intros H. unfold strncat. rewrite firstn_exact by lia.
  destruct (Nat.ltb_spec (List.length dest + List.length src) cap); [reflexivity | lia].
Qed.

(** The string [vfsmirrorReplicaPath] leaves in [dest] when it fits. *)
Lemma vfsmirrorReplicaPath_spec (N : nat) (dirbuf : list ascii) (dir : cstring)
    (p : char_ptr) :
  c_str (firstn N dirbuf) = Some dir ->
  valid_ptr p -> pointee p <> [] -> len (pointee p) < 2 ^ 31 ->
  let t := basename (removelast (pointee p)) ++ [last (pointee p) NUL] in
  (List.length dir + 1 + List.length t < N)%nat ->
  vfsmirrorReplicaPath dirbuf (Some p) N = Ok (dir ++ C "\" ++ t).
Proof.
  intros Hdir Hv Hne Hlen t Hfit.
  destruct (fileTail_spec p Hv Hne Hlen) as (q & Hq & Hb & Ho & Hp).
  unfold vfsmirrorReplicaPath, strncpy. rewrite Hdir, rbind_ok.
  rewrite strncat_fits by (simpl; lia). rewrite rbind_ok.
  rewrite Hq, rbind_ok.
  assert (Hvq : valid_ptr q).
  { pose proof (pointee_length p Hv). unfold valid_ptr in *. rewrite Hb. lia. }
  rewrite (c_string_valid q Hvq), rbind_ok. rewrite Hp. fold t.
  rewrite strncat_fits by (rewrite length_app; simpl; lia).
  rewrite <- app_assoc. reflexivity.
Qed.

(** ** The claims on the pure functions *)

(** C2. The reconciliation macro [RETURN_CODE], applied to the primary's
    status first and the replica's second, yields: OK for (OK, OK); E for
    (E, OK) and for (OK, E) when E is not OK; E1 for (E1, E2) when neither
    is OK; and E for (E, E). *)
Theorem RETURN_CODE_reconciles (E E1 E2 : Z) :
  E <> SQLITE_OK -> E1 <> SQLITE_OK -> E2 <> SQLITE_OK ->
  RETURN_CODE SQLITE_OK SQLITE_OK = SQLITE_OK
  /\ RETURN_CODE E SQLITE_OK = E
  /\ RETURN_CODE SQLITE_OK E = E
  /\ RETURN_CODE E1 E2 = E1
  /\ RETURN_CODE E E = E.
Proof.
  intros HE HE1 HE2. unfold RETURN_CODE.
  rewrite !Z.eqb_refl.
  destruct (Z.eqb_spec E SQLITE_OK); [contradiction|].
  destruct (Z.eqb_spec SQLITE_OK E); [congruence|].
  destruct (Z.eqb_spec E1 SQLITE_OK); [contradiction|].
  destruct (Z.eqb_spec E1 E2); repeat split; reflexivity.
Qed.

Lemma RETURN_CODE_reconciles_witness :
  (SQLITE_CANTOPEN <> SQLITE_OK /\ SQLITE_IOERR <> SQLITE_OK /\ SQLITE_FULL <> SQLITE_OK)
  /\ RETURN_CODE SQLITE_OK SQLITE_OK = SQLITE_OK
  /\ RETURN_CODE SQLITE_CANTOPEN SQLITE_OK = SQLITE_CANTOPEN
  /\ RETURN_CODE SQLITE_OK SQLITE_CANTOPEN = SQLITE_CANTOPEN
  /\ RETURN_CODE SQLITE_IOERR SQLITE_FULL = SQLITE_IOERR
  /\ RETURN_CODE SQLITE_CANTOPEN SQLITE_CANTOPEN = SQLITE_CANTOPEN.
Proof.
  split.
  - repeat split; discriminate.
  - apply (RETURN_CODE_reconciles SQLITE_CANTOPEN SQLITE_IOERR SQLITE_FULL);
      discriminate.
Defined.

(** A primary failure is reported whatever the replica did, and a replica
    failure is reported when the primary succeeded. *)
Lemma RETURN_CODE_primary_dominates (rc rc1 : Z) :
  RETURN_CODE rc rc1 = if rc =? SQLITE_OK then rc1 else rc.
Proof.
  unfold RETURN_CODE.
  destruct (Z.eqb_spec rc rc1), (Z.eqb_spec rc SQLITE_OK); congruence.
Qed.

(** C4 (amended). For a non-empty primary path that does not end in a
    separator and whose replica path fits the array of [NAME_MAX]
    characters, the resolved replica path is the configured replica
    directory, followed by one backslash, followed by the base name of the
    primary path; this holds for the path itself (as [vfsmirrorDelete]
    passes it) and for the pointer [fileTail] returned for it (as
    [vfsmirrorOpen] passes it); the base name holds no separator, so
    nothing of the primary path's directory is in the result. *)
Theorem replica_path_of_base_name (N : nat) (dirbuf : list ascii) (dir z : cstring) :
  c_str (firstn N dirbuf) = Some dir ->
  z <> [] -> is_sep (last z NUL) = false -> len z < 2 ^ 31 ->
  (List.length dir + 1 + List.length (basename z) < N)%nat ->
  vfsmirrorReplicaPath dirbuf (Some (ptr_to z)) N = Ok (dir ++ C "\" ++ basename z)
  /\ (exists q, fileTail (Some (ptr_to z)) = Ok (Some q)
        /\ vfsmirrorReplicaPath dirbuf (Some q) N = Ok (dir ++ C "\" ++ basename z))
  /\ existsb is_sep (basename z) = false.
Proof.
  intros Hdir Hz Hlast Hlen Hfit.
  assert (Hv : valid_ptr (ptr_to z)) by (unfold valid_ptr, ptr_to, len; simpl; lia).
  assert (Hp : pointee (ptr_to z) = z) by reflexivity.
  pose proof (basename_last z Hz Hlast) as Hb.
  split; [|split].
  - rewrite Hb.
    apply (vfsmirrorReplicaPath_spec N dirbuf dir (ptr_to z) Hdir Hv);
      rewrite ?Hp; trivial. rewrite <- Hb. exact Hfit.
  - destruct (fileTail_spec (ptr_to z) Hv) as (q & Hq & Hbase & Hofs & Hpq);
      rewrite ?Hp; trivial.
    rewrite Hp, <- Hb in Hpq. rewrite Hp in Hofs. simpl ofs in Hofs.
    change (base (ptr_to z)) with z in Hbase.
    exists q. split; [exact Hq|].
    assert (Hvq : valid_ptr q) by (unfold valid_ptr; rewrite Hbase; lia).
    assert (Hne : pointee q <> []).
    { rewrite Hpq, Hb. intros H. apply app_eq_nil in H. destruct H; discriminate. }
    assert (Hlq : len (pointee q) < 2 ^ 31).
    { rewrite Hpq. pose proof (basename_length z). unfold len in *. lia. }
    assert (Hself : basename (removelast (pointee q)) ++ [last (pointee q) NUL]
                    = basename z).
    { rewrite Hpq. rewrite Hb at 1 2. rewrite removelast_last, last_last.
      rewrite (basename_fixed _ (basename_no_sep _)). symmetry. exact Hb. }
    rewrite <- Hself at 1.
    apply (vfsmirrorReplicaPath_spec N dirbuf dir q Hdir Hvq Hne Hlq).
    rewrite Hself. exact Hfit.
  - apply basename_no_sep.
Qed.

Lemma replica_path_of_base_name_witness :
  vfsmirrorReplicaPath (zSlaveDir (configured_state 260 "/mirror"))
    (Some (ptr_to (C "/a/b/test.db"))) 260 = Ok (C "/mirror\test.db")
  /\ (exists q, fileTail (Some (ptr_to (C "/a/b/test.db"))) = Ok (Some q)
        /\ vfsmirrorReplicaPath (zSlaveDir (configured_state 260 "/mirror")) (Some q) 260
           = Ok (C "/mirror\test.db"))
  /\ existsb is_sep (C "test.db") = false.
Proof.
  apply (replica_path_of_base_name 260 (zSlaveDir (configured_state 260 "/mirror"))
           (C "/mirror") (C "/a/b/test.db")).
  - reflexivity.
  - discriminate.
  - reflexivity.
  - reflexivity.
  - vm_compute. lia.
Defined.

(** C4, the claim as stated fails. With the replica directory [/mirror]
    configured, the replica path resolved for [/a/b/test.db] is
    [/mirror\test.db] and not [/mirror/test.db]. Nor does the claim hold
    for every primary path: for [/a/b/] the result keeps a separator after
    the last component, for the empty path [fileTail] points before the
    string and no path is resolved, and a base name that does not fit
    makes [strncat] write past the array. *)
Lemma replica_path_counterexample :
  (vfsmirrorReplicaPath (zSlaveDir (configured_state 260 "/mirror"))
     (Some (ptr_to (C "/a/b/test.db"))) 260 = Ok (C "/mirror\test.db")
   /\ vfsmirrorReplicaPath (zSlaveDir (configured_state 260 "/mirror"))
        (Some (ptr_to (C "/a/b/test.db"))) 260 <> Ok (C "/mirror/test.db"))
  /\ vfsmirrorReplicaPath (zSlaveDir (configured_state 260 "/mirror"))
       (Some (ptr_to (C "/a/b/"))) 260 = Ok (C "/mirror\b/")
  /\ vfsmirrorReplicaPath (zSlaveDir (configured_state 260 "/mirror"))
       (Some (ptr_to (C ""))) 260 = Fault (OobRead (-1))
  /\ vfsmirrorReplicaPath (zSlaveDir (configured_state 16 "/mnt/mirror"))
       (Some (ptr_to (C "/a/b/test.db"))) 16 = Fault (OobWrite 16).
Proof.
  split; [split|].
  - vm_compute. reflexivity.
  - vm_compute. intros H. discriminate H.
  - repeat split; vm_compute; reflexivity.
Qed.

(** C10, at the empty string: [fileTail] returns the pointer one before
    the string, offset -1. [vfsmirrorOpen] called with the empty name
    keeps that pointer in [zFName], and for a main database it reads
    through it when the replica path is resolved. *)
Theorem fileTail_empty_string :
  fileTail (Some (ptr_to (C ""))) = Ok (Some {| base := C ""; ofs := -1 |})
  /\ (exists p' s',
        vfsmirrorOpen healthy_env 260 0 blank_file (Some (C "")) SQLITE_OPEN_READWRITE
          (configured_state 260 "/mirror") = Done (SQLITE_OK, p') s'
        /\ zFName p' = Some {| base := C ""; ofs := -1 |})
  /\ vfsmirrorOpen healthy_env 260 0 blank_file (Some (C "")) (Z.lor SQLITE_OPEN_MAIN_DB SQLITE_OPEN_READWRITE)
       (configured_state 260 "/mirror") = Crash (OobRead (-1)).
Proof.
  split; [reflexivity|]. split.
  - eexists. eexists. split; vm_compute; reflexivity.
  - vm_compute. reflexivity.
Qed.

(** ** The claims on the methods *)

Lemma advance_advance {W} (s : state W) (w w' : W) (tr tr' : list event) :
  advance (advance s w tr) w' tr' = advance s w' (tr ++ tr').
Proof. unfold advance. simpl. rewrite app_assoc. reflexivity. Qed.

Section Methods.

Context {W : Type}.
Variable E : environment W.
Variable NAME_MAX : nat.

Lemma real_call_some (rf : real_file) (op : file_op) (s : state W) :
  real_call E (Some rf) op s
  = match env_file E rf op (world s) with
    | Some (rc, w) => Done rc (advance s w [EvFile rf op rc])
    | None => Crash NullDeref
    end.
Proof.
  unfold real_call. destruct (env_file E rf op (world s)) as [[rc w]|]; reflexivity.
Qed.

(** C5. A read, fileSize, lock, unlock, checkReservedLock, sectorSize,
    deviceCharacteristics or shared-memory operation on a mirrored file,
    with or without a replica, is exactly one call of that method on the
    primary file [pReal[0]], whose status is returned; the file is left as
    it was and no call on any other real file, the replica included, is
    made. *)
Theorem primary_only_dispatch (op : file_op) (p : vfsmirror_file)
    (s : state W) (rf : real_file) :
  primary_only op = true -> pReal0 p = Some rf ->
  vfsmirror_method E op p s
  = match env_file E rf op (world s) with
    | Some (rc, w) =>
        Done (match op with xShmBarrier => 0 | _ => rc end, p)
             (advance s w [EvFile rf op rc])
    | None => Crash NullDeref
    end
  /\ (forall r s', vfsmirror_method E op p s = Done r s' ->
        exists ev, trace s' = trace s ++ [ev] /\ event_file ev = Some rf).
Proof.
  intros Hop H0.
  assert (Heq : vfsmirror_method E op p s
    = match env_file E rf op (world s) with
      | Some (rc, w) =>
          Done (match op with xShmBarrier => 0 | _ => rc end, p)
               (advance s w [EvFile rf op rc])
      | None => Crash NullDeref
      end).
  { destruct op; try discriminate Hop;
      unfold vfsmirror_method, vfsmirrorRead, vfsmirrorFileSize, vfsmirrorLock,
        vfsmirrorUnlock, vfsmirrorCheckReservedLock, vfsmirrorSectorSize,
        vfsmirrorDeviceCharacteristics, vfsmirrorShmMap, vfsmirrorShmLock,
        vfsmirrorShmBarrier, vfsmirrorShmUnmap, bind, ret;
      rewrite H0, real_call_some;
      match goal with
      | |- context [env_file E rf ?o (world s)] =>
          destruct (env_file E rf o (world s)) as [[rc w]|]; reflexivity
      end. }
  split; [exact Heq|].
  intros r s' Hrun. rewrite Heq in Hrun.
  destruct (env_file E rf op (world s)) as [[rc w]|]; [|discriminate].
  injection Hrun as _ Hs. subst s'.
  exists (EvFile rf op rc). split; reflexivity.
Qed.

Lemma replica_call_none (p : vfsmirror_file) (op : file_op) (s : state W) :
  pReal1 p = None -> replica_call E p op s = Done SQLITE_OK s.
Proof. intros H. unfold replica_call. rewrite H. reflexivity. Qed.

Lemma replica_call_some (p : vfsmirror_file) (rf1 : real_file) (op : file_op)
    (s : state W) :
  pReal1 p = Some rf1 ->
  replica_call E p op s
  = match env_file E rf1 op (world s) with
    | Some (rc, w) => Done rc (advance s w [EvFile rf1 op rc])
    | None => Crash NullDeref
    end.
Proof.
  intros H. unfold replica_call. rewrite H. apply real_call_some.
Qed.

(** Write, truncate, sync and fileControl call the primary file and then,
    when there is one, the replica file, and return the two statuses
    reconciled; without a replica the primary's status is returned.
    FileControl with [SQLITE_FCNTL_VFSNAME] then calls [sqlite3_mprintf]
    when the primary's status is [SQLITE_OK]. *)
Lemma mutating_dispatch (op : file_op) (p : vfsmirror_file) (s : state W)
    (rf : real_file) (rc : Z) (w : W) :
  mutating op = true -> pReal0 p = Some rf ->
  env_file E rf op (world s) = Some (rc, w) ->
  (pReal1 p = None ->
     vfsmirror_method E op p s
     = Done (rc, p) (advance s (vfsname_world E op rc w)
                       (EvFile rf op rc :: vfsname_events E op rc w)))
  /\ (forall rf1 rc1 w1, pReal1 p = Some rf1 ->
        env_file E rf1 op w = Some (rc1, w1) ->
        vfsmirror_method E op p s
        = Done (RETURN_CODE rc rc1, p)
               (advance s (vfsname_world E op rc w1)
                  (EvFile rf op rc :: EvFile rf1 op rc1
                     :: vfsname_events E op rc w1))).
Proof.
  intros Hop H0 Hc.
  assert (Hright : RETURN_CODE rc SQLITE_OK = rc).
  { rewrite RETURN_CODE_primary_dominates.
    destruct (Z.eqb_spec rc SQLITE_OK) as [->|]; reflexivity. }
  split.
  - intros H1.
    destruct op; try discriminate Hop;
      unfold vfsmirror_method, vfsmirrorWrite, vfsmirrorTruncate, vfsmirrorSync,
        vfsmirrorFileControl, bind, ret;
      rewrite H0, real_call_some, Hc, (replica_call_none _ _ _ H1), Hright;
      try reflexivity.
    unfold vfsname_world, vfsname_events, names_vfs.
    destruct ((op =? SQLITE_FCNTL_VFSNAME) && (rc =? SQLITE_OK)); [|reflexivity].
    unfold sqlite3_mprintf, call. cbn [world advance].
    destruct (env_mprintf E w) as [ok w']. cbn [fst snd].
    rewrite advance_advance. reflexivity.
  - intros rf1 rc1 w1 H1 Hc1.
    destruct op; try discriminate Hop;
      unfold vfsmirror_method, vfsmirrorWrite, vfsmirrorTruncate, vfsmirrorSync,
        vfsmirrorFileControl, bind, ret;
      rewrite H0, real_call_some, Hc, (replica_call_some _ _ _ _ H1);
      simpl world; rewrite Hc1, advance_advance; try reflexivity.
    unfold vfsname_world, vfsname_events, names_vfs.
    destruct ((op =? SQLITE_FCNTL_VFSNAME) && (rc =? SQLITE_OK)); [|reflexivity].
    unfold sqlite3_mprintf, call. cbn [world advance].
    destruct (env_mprintf E w1) as [ok w']. cbn [fst snd].
    rewrite advance_advance. reflexivity.
Qed.

(** X24. [vfsmirrorClose] on a file whose real files have an [xClose]
    to call: it closes the primary file first and, when the replica slot is
    set, the replica file next; it returns the two statuses reconciled by
    [RETURN_CODE]; and exactly when the primary close returned
    [SQLITE_OK], whatever the replica close returned, it frees the method
    table and leaves the file with [pMethods] NULL and its other fields
    as they were; otherwise the file is left as it was. *)
Theorem vfsmirrorClose_spec (p : vfsmirror_file) (s : state W)
    (rf : real_file) (rc : Z) (w : W) :
  pReal0 p = Some rf ->
  env_file E rf xClose (world s) = Some (rc, w) ->
  let cleared := {| pMethods := None; zFName := zFName p; zFname2 := zFname2 p;
                    pReal0 := pReal0 p; pReal1 := pReal1 p |} in
  (pReal1 p = None ->
     vfsmirrorClose E p s
     = if rc =? SQLITE_OK
       then Done (RETURN_CODE rc SQLITE_OK, cleared)
                 (advance s (env_free E (pMethods p) w)
                    [EvFile rf xClose rc; EvFree (pMethods p)])
       else Done (RETURN_CODE rc SQLITE_OK, p)
                 (advance s w [EvFile rf xClose rc]))
  /\ (forall rf1 rc1 w1, pReal1 p = Some rf1 ->
        env_file E rf1 xClose w = Some (rc1, w1) ->
        vfsmirrorClose E p s
        = if rc =? SQLITE_OK
          then Done (RETURN_CODE rc rc1, cleared)
                    (advance s (env_free E (pMethods p) w1)
                       [EvFile rf xClose rc; EvFile rf1 xClose rc1;
                        EvFree (pMethods p)])
          else Done (RETURN_CODE rc rc1, p)
                    (advance s w1 [EvFile rf xClose rc; EvFile rf1 xClose rc1])).
Proof.
  intros H0 Hc cleared. change cleared with (set_pMethods p None). clear cleared.
  split.
  - intros H1. unfold vfsmirrorClose, bind.
    rewrite H0, real_call_some, Hc, (replica_call_none _ _ _ H1).
    destruct (rc =? SQLITE_OK); [|reflexivity].
    unfold sqlite3_free, call, ret. simpl world.
    rewrite advance_advance. reflexivity.
  - intros rf1 rc1 w1 H1 Hc1. unfold vfsmirrorClose, bind.
    rewrite H0, real_call_some, Hc, (replica_call_some _ _ _ _ H1).
    simpl world. rewrite Hc1, advance_advance.
    destruct (rc =? SQLITE_OK); [|reflexivity].
    unfold sqlite3_free, call, ret. simpl world.
    rewrite advance_advance. reflexivity.
Qed.

(** [vfsmirrorClose] on a file whose replica slot is set while the
    replica file has no methods: the primary file is closed, and the call
    of [xClose] through the replica file's [pMethods] goes through NULL. *)
Lemma vfsmirrorClose_without_replica_methods (p : vfsmirror_file) (s : state W)
    (rf rf1 : real_file) (rc : Z) (w : W) :
  pReal0 p = Some rf -> pReal1 p = Some rf1 ->
  env_file E rf xClose (world s) = Some (rc, w) ->
  env_file E rf1 xClose w = None ->
  vfsmirrorClose E p s = Crash NullDeref.
Proof.
  intros H0 H1 Hc Hc1. unfold vfsmirrorClose, bind.
  rewrite H0, real_call_some, Hc, (replica_call_some _ _ _ _ H1).
  simpl world. rewrite Hc1. reflexivity.
Qed.



End Methods.

(** ** Configuration of the mirror directory *)

Lemma is_sep_cases (c : ascii) :
  is_sep c = true -> c = "/"%char \/ c = "\"%char.
Proof.
  unfold is_sep. intros H. apply orb_true_iff in H.
  destruct H as [H|H]; apply Ascii.eqb_eq in H; auto.
Qed.

Lemma printf_noargs_separators (z : cstring) :
  Forall (fun c => is_sep c = true) z -> printf_noargs z = Ok z.
Proof.
  induction 1 as [|c z Hc Hz IH]; [reflexivity|].
  simpl printf_noargs.
  assert (Hp : (c =? "%")%char = false).
  { destruct (is_sep_cases c Hc); subst c; reflexivity. }
  rewrite Hp, IH. reflexivity.
Qed.

Lemma size_t_index_small (x : Z) : 0 <= x < 2 ^ 63 -> size_t_index x = x.
Proof.
  intros H. unfold size_t_index. rewrite Z.mod_small by lia.
  destruct (Z.ltb_spec x (2 ^ 63)); [reflexivity | lia].
Qed.

Lemma trim_loop_eq (b : list ascii) (converted : nat) :
  trim_loop b converted
  = (c <- buf_read b (size_t_index (Z.of_nat converted - 1)) ;;
     if (c =? "/")%char || ((c =? "\")%char && (0 <? Z.of_nat converted)) then
       match converted with
       | O => Fault (OobWrite (size_t_index (0 - 1)))
       | S c' => b' <- buf_write b (Z.of_nat c') NUL ;; trim_loop b' c'
       end
     else Ok (b, converted)).
Proof. destruct converted; reflexivity. Qed.

(** With [converted] at 0 the loop condition reads [zSlaveDir[-1]]. *)
Lemma trim_loop_at_zero (b : list ascii) :
  trim_loop b 0 = Fault (OobRead (-1)).
Proof. reflexivity. Qed.

Lemma nth_after_write (b : list ascii) (i k : nat) (c : ascii) :
  (k < i)%nat -> (i < List.length b)%nat ->
  nth k (firstn i b ++ c :: skipn (S i) b) NUL = nth k b NUL.
Proof.
  intros Hk Hi. rewrite app_nth1 by (rewrite length_firstn; lia).
  rewrite nth_firstn. destruct (Nat.ltb_spec k i); [reflexivity | lia].
Qed.

Lemma length_after_write (b : list ascii) (i : nat) (c : ascii) :
  (i < List.length b)%nat ->
  List.length (firstn i b ++ c :: skipn (S i) b) = List.length b.
Proof.
  intros Hi. rewrite length_app, length_firstn. cbn [List.length].
  rewrite length_skipn. lia.
Qed.

Lemma buf_read_in (b : list ascii) (i : Z) :
  0 <= i < len b -> buf_read b i = Ok (nth (Z.to_nat i) b NUL).
Proof.
  intros H. unfold buf_read.
  destruct (Z.leb_spec 0 i); [|lia]. destruct (Z.ltb_spec i (len b)); [|lia].
  reflexivity.
Qed.

Lemma buf_write_in (b : list ascii) (i : Z) (c : ascii) :
  0 <= i < len b ->
  buf_write b i c = Ok (firstn (Z.to_nat i) b ++ c :: skipn (S (Z.to_nat i)) b).
Proof.
  intros H. unfold buf_write.
  destruct (Z.leb_spec 0 i); [|lia]. destruct (Z.ltb_spec i (len b)); [|lia].
  reflexivity.
Qed.

(** When all that is left of the string are separators, the loop strips
    them one by one and then reads the array at index -1. *)
Lemma trim_loop_separators (n : nat) (b : list ascii) :
  (n <= List.length b)%nat -> Z.of_nat (List.length b) <= 2 ^ 63 ->
  (forall k, (k < n)%nat -> is_sep (nth k b NUL) = true) ->
  trim_loop b n = Fault (OobRead (-1)).
Proof.
  revert b. induction n as [|n IH]; intros b Hn Hb Hsep.
  - apply trim_loop_at_zero.
  - rewrite trim_loop_eq.
    replace (Z.of_nat (S n) - 1) with (Z.of_nat n) by lia.
    rewrite size_t_index_small by lia.
    rewrite buf_read_in by (unfold len; lia). rewrite rbind_ok, Nat2Z.id.
    assert (Hc : is_sep (nth n b NUL) = true) by (apply Hsep; lia).
    assert (Hcond : ((nth n b NUL =? "/")%char
                     || ((nth n b NUL =? "\")%char && (0 <? Z.of_nat (S n)))) = true).
    { destruct (is_sep_cases _ Hc) as [-> | ->]; reflexivity. }
    rewrite Hcond.
    rewrite buf_write_in by (unfold len; lia). rewrite rbind_ok, Nat2Z.id.
    apply IH.
    + rewrite length_after_write by lia. lia.
    + rewrite length_after_write by lia. exact Hb.
    + intros k Hk. rewrite nth_after_write by lia. apply Hsep. lia.
Qed.

Lemma snprintf_separators (b : list ascii) (N : nat) (z : cstring) :
  Forall (fun c => is_sep c = true) z ->
  (List.length z < N)%nat -> List.length b = N ->
  snprintf b N z = Ok ((z ++ [NUL]) ++ skipn (List.length (z ++ [NUL])) b).
Proof.
  intros Hz Hl Hb. unfold snprintf. rewrite (printf_noargs_separators z Hz), rbind_ok.
  destruct N as [|m]; [lia|].
  rewrite firstn_exact by lia. unfold buf_fill.
  destruct (Nat.leb_spec (List.length (z ++ [NUL])) (List.length b)) as [_|Hf];
    [reflexivity|].
  rewrite length_app in Hf. simpl in Hf. lia.
Qed.

Lemma bind_inv {W A B} (m : M W A) (k : A -> M W B) (s s' : state W) (b : B) :
  bind m k s = Done b s' ->
  exists a s1, m s = Done a s1 /\ k a s1 = Done b s'.
Proof.
  unfold bind. destruct (m s) as [a s1|f]; [|discriminate].
  intros H. exists a, s1. split; [reflexivity | exact H].
Qed.

Lemma bind_done {W A B} (m : M W A) (k : A -> M W B) (s s1 : state W) (a : A) :
  m s = Done a s1 -> bind m k s = k a s1.
Proof. unfold bind. intros ->. reflexivity. Qed.

Section Configuration.

Context {W : Type}.
Variable E : environment W.
Variable NAME_MAX : nat.

(** C8. For a configured path made of separators only, the empty path
    and the root path [/] among them, the trim loop of
    [set_mirror_directory] ends up evaluating [zSlaveDir[converted - 1]]
    with [converted] at 0: a read of the array at index -1, made before
    the test [converted > 0] is reached. *)
Theorem set_mirror_directory_trim_reads_out_of_bounds (z : cstring) (s : state W) :
  registered s = 0 ->
  Forall (fun c => is_sep c = true) z ->
  (List.length z < NAME_MAX)%nat ->
  List.length (zSlaveDir s) = NAME_MAX ->
  Z.of_nat NAME_MAX <= 2 ^ 63 ->
  set_mirror_directory E NAME_MAX (Some z) s = Crash (OobRead (-1)).
Proof.
  intros Hreg Hz Hl Hb HN.
  unfold set_mirror_directory, bind, get_registered, lift, get_zSlaveDir,
    set_zSlaveDir.
  rewrite Hreg. change (negb (0 =? 0)) with false. cbv beta iota.
  destruct (Nat.leb_spec NAME_MAX (List.length z)) as [Hbad|_]; [lia|].
  rewrite (snprintf_separators (zSlaveDir s) NAME_MAX z Hz Hl Hb).
  assert (Hlen1 : List.length ((z ++ [NUL]) ++ skipn (List.length (z ++ [NUL])) (zSlaveDir s))
                  = NAME_MAX).
  { rewrite length_app, length_skipn, Hb. rewrite length_app. simpl. lia. }
  cbv beta iota. rewrite trim_loop_separators; [reflexivity | | | ].
  - rewrite Hlen1. lia.
  - rewrite Hlen1. exact HN.
  - intros k Hk. rewrite <- app_assoc. rewrite app_nth1 by exact Hk.
    exact (proj1 (Forall_nth (fun c => is_sep c = true) z) Hz k NUL Hk).
Qed.

Lemma set_mirror_directory_when_registered (q : option cstring) (s : state W) :
  registered s <> 0 -> set_mirror_directory E NAME_MAX q s = Done 0 s.
Proof.
  intros H. unfold set_mirror_directory, bind, get_registered, ret.
  destruct (Z.eqb_spec (registered s) 0); [contradiction | reflexivity].
Qed.

Lemma vfsmirror_register_keeps_statics (n : cstring) (o : option cstring) (d : Z)
    (s s' : state W) (rc : Z) :
  vfsmirror_register E n o d s = Done rc s' ->
  registered s' = registered s /\ zSlaveDir s' = zSlaveDir s.
Proof.
  unfold vfsmirror_register, bind, sqlite3_vfs_find, sqlite3_malloc,
    sqlite3_vfs_register, call, ret.
  destruct (env_vfs_find E o (world s)); simpl.
  - destruct (env_malloc E (world s)) as [ok w1]. destruct ok; simpl.
    + destruct (env_vfs_register E n d w1) as [r w2].
      intros H. injection H as _ Hs. subst s'. split; reflexivity.
    + intros H. injection H as _ Hs. subst s'. split; reflexivity.
  - intros H. injection H as _ Hs. subst s'. split; reflexivity.
Qed.

(** A call that reports success leaves the one-shot flag set. *)
Lemma set_mirror_directory_success (p : option cstring) (s s' : state W) :
  set_mirror_directory E NAME_MAX p s = Done 1 s' -> registered s' = 1.
Proof.
  unfold set_mirror_directory. intros H.
  apply bind_inv in H as (reg & s0 & _ & H).
  destruct (negb (reg =? 0)); [discriminate H|].
  apply bind_inv in H as (z & s1 & _ & H).
  destruct (NAME_MAX <=? List.length z)%nat; [discriminate H|].
  apply bind_inv in H as (b0 & s2 & _ & H).
  apply bind_inv in H as (b1 & s3 & _ & H).
  apply bind_inv in H as (u1 & s4 & _ & H).
  apply bind_inv in H as (t & s5 & _ & H).
  apply bind_inv in H as (u2 & s6 & _ & H).
  destruct (snd t <? 2)%nat; [discriminate H|].
  apply bind_inv in H as (d & s7 & _ & H).
  apply bind_inv in H as (ex & s8 & _ & H).
  destruct (negb ex); [discriminate H|].
  apply bind_inv in H as (u3 & s9 & Hset & H).
  apply bind_inv in H as (rc & s10 & Hreg & H).
  unfold set_registered in Hset. injection Hset as _ Hs9.
  apply vfsmirror_register_keeps_statics in Hreg. destruct Hreg as [Hr _].
  unfold ret in H. injection H as Hs. subst s' s9. rewrite Hr. reflexivity.
Qed.

(** C9. After a call of [set_mirror_directory] that returned 1, every
    call made in a state where the one-shot flag is as that call left it
    returns 0 and changes nothing: the stored directory, the flag, the
    world and the list of calls made, registrations included, are the
    same before and after. *)
Theorem set_mirror_directory_one_shot (p : option cstring) (s s' : state W) :
  set_mirror_directory E NAME_MAX p s = Done 1 s' ->
  forall (q : option cstring) (s'' : state W),
    registered s'' = registered s' ->
    set_mirror_directory E NAME_MAX q s'' = Done 0 s''.
Proof.
  intros H q s'' Hsame.
  apply set_mirror_directory_when_registered.
  rewrite Hsame, (set_mirror_directory_success p s s' H). discriminate.
Qed.

End Configuration.

(** ** Opening *)

Lemma real_file_eqb_refl (f : real_file) : real_file_eqb f f = true.
Proof.
  unfold real_file_eqb. rewrite Nat.eqb_refl. destruct (snd f); reflexivity.
Qed.

Lemma open_attempts_app (f : real_file) (tr1 tr2 : list event) :
  open_attempts f (tr1 ++ tr2) = (open_attempts f tr1 + open_attempts f tr2)%nat.
Proof. unfold open_attempts. rewrite filter_app, length_app. reflexivity. Qed.

Lemma sleeps_app (tr1 tr2 : list event) :
  sleeps (tr1 ++ tr2) = (sleeps tr1 + sleeps tr2)%nat.
Proof. unfold sleeps. rewrite filter_app, length_app. reflexivity. Qed.

Lemma advance_nil {W} (s : state W) : advance s (world s) [] = s.
Proof. destruct s. unfold advance. simpl. rewrite app_nil_r. reflexivity. Qed.

Lemma lift_inv {W A} (r : result A) (s s' : state W) (a : A) :
  lift r s = Done a s' -> r = Ok a /\ s' = s.
Proof.
  unfold lift. destruct r; [|discriminate].
  intros H. injection H as -> ->. split; reflexivity.
Qed.

Lemma lift_ok {W A} (r : result A) (a : A) (s : state W) :
  r = Ok a -> lift r s = Done a s.
Proof. intros ->. reflexivity. Qed.

Section Opening.

Context {W : Type}.
Variable E : environment W.
Variable NAME_MAX : nat.

(** The retry loop never faults; it calls [xOpen] on the replica file at
    least once and at most [retry] times, a sleep following every failed
    call. When every call fails, it makes all [retry] calls and ends,
    after the last sleep, with the status of the last call. *)
Lemma replica_open_loop_run (retry : nat) (rc1 : Z) (z2 : cstring)
    (f : real_file) (flags : Z) (s : state W) :
  exists rc' w' tr,
    replica_open_loop E retry rc1 z2 f flags s = Done rc' (advance s w' tr)
    /\ (open_attempts f tr <= retry)%nat
    /\ ((0 < retry)%nat -> (0 < open_attempts f tr)%nat)
    /\ ((forall w, fst (fst (env_xOpen E (Some z2) f flags w)) <> SQLITE_OK) ->
        open_attempts f tr = retry /\ sleeps tr = retry
        /\ ((0 < retry)%nat ->
            rc' <> SQLITE_OK
            /\ exists tr0, tr = tr0 ++ [EvOpen (Some z2) f flags rc'; EvSleep 5])).
Proof.
  revert rc1 s. induction retry as [|n IH]; intros rc1 s.
  - exists rc1, (world s), []. simpl replica_open_loop. unfold ret.
    rewrite advance_nil. split; [reflexivity|]. split; [apply Nat.le_refl|].
    split; [intros H; inversion H|]. intros _. split; [reflexivity|].
    split; [reflexivity|]. intros H; inversion H.
  - simpl replica_open_loop. unfold bind at 1. unfold root_xOpen, call.
    destruct (env_xOpen E (Some z2) f flags (world s)) as [[rc sub] w] eqn:Hopen.
    cbv beta. cbn [fst].
    assert (Hone : open_attempts f [EvOpen (Some z2) f flags rc] = 1%nat).
    { unfold open_attempts. simpl. rewrite real_file_eqb_refl. reflexivity. }
    destruct (Z.eqb_spec rc SQLITE_OK) as [Hok|Hko]; cbn [negb]; cbv beta iota.
    + exists rc, w, [EvOpen (Some z2) f flags rc]. unfold ret.
      split; [reflexivity|]. rewrite Hone.
      split; [lia|]. split; [lia|].
      intros Hall. exfalso. apply (Hall (world s)). rewrite Hopen. exact Hok.
    + unfold bind at 1. unfold sqlite3_sleep, call. cbn [world advance].
      rewrite advance_advance.
      destruct (IH rc (advance s (env_sleep E 5 w)
                         ([EvOpen (Some z2) f flags rc] ++ [EvSleep 5])))
        as (rc' & w' & tr & Hrun & Hle & Hpos & Hall).
      exists rc', w', (([EvOpen (Some z2) f flags rc] ++ [EvSleep 5]) ++ tr).
      rewrite Hrun, advance_advance. split; [reflexivity|].
      rewrite !open_attempts_app, Hone.
      change (open_attempts f [EvSleep 5]) with 0%nat.
      split; [lia|]. split; [lia|].
      intros Hfail. destruct (Hall Hfail) as (Ha & Hs & Hlast).
      rewrite !sleeps_app.
      change (sleeps [EvOpen (Some z2) f flags rc]) with 0%nat.
      change (sleeps [EvSleep 5]) with 1%nat.
      split; [lia|]. split; [lia|]. intros _.
      destruct n as [|n].
      * simpl in Hrun. unfold ret in Hrun. injection Hrun as Hrc _ Hst.
        subst rc'. split; [exact Hko|].
        assert (Htr : tr = []).
        { apply (f_equal (@List.length event)) in Hst.
          rewrite !length_app in Hst.
          destruct tr; [reflexivity | simpl in Hst; lia]. }
        subst tr. exists []. reflexivity.
      * destruct Hlast as (Hne & tr0 & Htr); [lia|]. split; [exact Hne|].
        exists (([EvOpen (Some z2) f flags rc] ++ [EvSleep 5]) ++ tr0).
        rewrite Htr, <- !app_assoc. reflexivity.
Qed.

Lemma new_methods_run (p : vfsmirror_file) (sub : option sub_methods) (s : state W) :
  (sub <> None -> fst (env_malloc E (world s)) = true) ->
  exists pm w tr,
    new_methods E p sub s = Done pm (advance s w tr)
    /\ (forall f, open_attempts f tr = 0%nat) /\ sleeps tr = 0%nat.
Proof.
  intros Hm. destruct sub as [pSub|].
  - unfold new_methods, bind, sqlite3_malloc, call.
    destruct (env_malloc E (world s)) as [ok w] eqn:Hmal.
    assert (Hok : ok = true) by (apply Hm; discriminate). subst ok.
    eexists. exists w, [EvMalloc true]. unfold ret.
    split; [reflexivity|]. split; [intros f|]; reflexivity.
  - exists (pMethods p), (world s), []. unfold new_methods, ret.
    rewrite advance_nil. split; [reflexivity|]. split; [intros f|]; reflexivity.
Qed.

Lemma new_methods_inv (p : vfsmirror_file) (sub : option sub_methods)
    (s s' : state W) (pm : option io_methods) :
  new_methods E p sub s = Done pm s' ->
  exists w tr, s' = advance s w tr
    /\ (forall f, open_attempts f tr = 0%nat) /\ sleeps tr = 0%nat.
Proof.
  destruct sub as [pSub|].
  - unfold new_methods, bind, sqlite3_malloc, call.
    destruct (env_malloc E (world s)) as [ok w]. destruct ok; [|discriminate].
    unfold ret. intros H. injection H as _ Hs. subst s'.
    exists w, [EvMalloc true]. split; [reflexivity|].
    split; [intros f|]; reflexivity.
  - unfold new_methods, ret. intros H. injection H as _ Hs. subst s'.
    exists (world s), []. rewrite advance_nil. split; [reflexivity|].
    split; [intros f|]; reflexivity.
Qed.

Lemma mirror_condition_iff (zName : option cstring) (rc flags : Z) :
  mirror_condition zName rc flags = true
  <-> zName <> None /\ rc = SQLITE_OK
      /\ Z.land flags (Z.lor SQLITE_OPEN_MAIN_DB SQLITE_OPEN_MAIN_JOURNAL) <> 0.
Proof.
  unfold mirror_condition. rewrite !andb_true_iff, negb_true_iff, Z.eqb_eq, Z.eqb_neq.
  destruct zName; split; intros [[H1 H2] H3] || intros [H1 [H2 H3]];
    repeat split; trivial; try discriminate. contradiction.
Qed.

(** What a completed [vfsmirrorOpen] has done, by the condition on the
    name, the primary status and the flags. *)
Lemma vfsmirrorOpen_inv (blk : nat) (p : vfsmirror_file) (zName : option cstring)
    (flags : Z) (s s' : state W) (r : Z) (p' : vfsmirror_file)
    (rc : Z) (sub : option sub_methods) (w1 : W) :
  env_xOpen E zName (blk, PrimaryArea) flags (world s) = (rc, sub, w1) ->
  vfsmirrorOpen E NAME_MAX blk p zName flags s = Done (r, p') s' ->
  exists w' tr, s' = advance s w' tr
    /\ pReal0 p' = Some (blk, PrimaryArea)
    /\ if mirror_condition zName rc flags
       then pReal1 p' = Some (blk, ReplicaArea)
            /\ (1 <= open_attempts (blk, ReplicaArea) tr <= 10)%nat
            /\ exists rc1, r = RETURN_CODE rc rc1
       else pReal1 p' = None
            /\ open_attempts (blk, ReplicaArea) tr = 0%nat
            /\ r = rc.
Proof.
  intros Hopen H. unfold vfsmirrorOpen in H.
  apply bind_inv in H as (zf & s0 & Hzf & H).
  apply lift_inv in Hzf as [_ ->].
  apply bind_inv in H as (ro & s1 & Hro & H).
  unfold root_xOpen, call in Hro. rewrite Hopen in Hro.
  injection Hro as <- <-. cbn [fst snd] in H.
  apply bind_inv in H as (pm & s2 & Hpm & H).
  apply new_methods_inv in Hpm as (w2 & tr2 & -> & Hno2 & _).
  rewrite advance_advance in H.
  assert (Hprim : forall tr0,
            open_attempts (blk, ReplicaArea)
              (EvOpen zName (blk, PrimaryArea) flags rc :: tr0)
            = open_attempts (blk, ReplicaArea) tr0).
  { intros tr0. unfold open_attempts. simpl. unfold real_file_eqb. simpl.
    rewrite andb_false_r. reflexivity. }
  cbn [app] in H.
  destruct (mirror_condition zName rc flags).
  - apply bind_inv in H as (dir & s3 & Hdir & H).
    unfold get_zSlaveDir in Hdir. injection Hdir as <- <-.
    apply bind_inv in H as (z2 & s4 & Hz2 & H).
    apply lift_inv in Hz2 as [_ ->].
    apply bind_inv in H as (rc1 & s5 & Hloop & H).
    destruct (replica_open_loop_run 10 SQLITE_OK z2 (blk, ReplicaArea) flags
                (advance s w2 (EvOpen zName (blk, PrimaryArea) flags rc :: tr2)))
      as (rc' & w' & tr & Hrun & Hle & Hpos & _).
    rewrite Hrun in Hloop. injection Hloop as <- <-.
    unfold ret in H. injection H as <- <- <-.
    rewrite advance_advance.
    eexists. eexists. split; [reflexivity|]. split; [reflexivity|].
    split; [reflexivity|]. split.
    + cbn [app]. rewrite Hprim, open_attempts_app, Hno2.
      assert (H10 : (0 < 10)%nat) by lia. specialize (Hpos H10). lia.
    + exists rc'. reflexivity.
  - unfold ret in H. injection H as <- <- <-.
    eexists. eexists. split; [reflexivity|]. split; [reflexivity|].
    split; [reflexivity|]. split.
    + rewrite Hprim. apply Hno2.
    + rewrite RETURN_CODE_primary_dominates.
      destruct (Z.eqb_spec rc SQLITE_OK); congruence.
Qed.

(** [vfsmirrorOpen] completes whenever the table of methods can be
    allocated and, for a mirrored file, the replica path is resolved. *)
Lemma vfsmirrorOpen_completes (blk : nat) (p : vfsmirror_file)
    (zName : option cstring) (flags : Z) (s : state W)
    (rc : Z) (sub : option sub_methods) (w1 : W) :
  env_xOpen E zName (blk, PrimaryArea) flags (world s) = (rc, sub, w1) ->
  (sub <> None -> fst (env_malloc E w1) = true) ->
  (mirror_condition zName rc flags = true ->
   forall q, fileTail (option_map ptr_to zName) = Ok q ->
   exists z2, vfsmirrorReplicaPath (zSlaveDir s) q NAME_MAX = Ok z2) ->
  exists r p' s', vfsmirrorOpen E NAME_MAX blk p zName flags s = Done (r, p') s'.
Proof.
  intros Hopen Hmal Hpath. unfold vfsmirrorOpen.
  assert (Hzf : exists zf,
            match zName with
            | Some z => fileTail (Some (ptr_to z))
            | None => Ok (Some (ptr_to (C "<temp>")))
            end = Ok zf
            /\ (zName <> None -> fileTail (option_map ptr_to zName) = Ok zf)).
  { destruct zName as [z|].
    - destruct (fileTail_no_fault z) as (q & Hq & _).
      exists (Some q). split; [exact Hq | intros _; exact Hq].
    - eexists. split; [reflexivity | intros H; contradiction]. }
  destruct Hzf as (zf & Hzf & Hzf').
  rewrite (bind_done _ _ s s zf) by (apply lift_ok; exact Hzf).
  erewrite bind_done by (unfold root_xOpen, call; rewrite Hopen; reflexivity).
  cbn [fst snd].
  destruct (new_methods_run p sub
              (advance s w1 [EvOpen zName (blk, PrimaryArea) flags rc]))
    as (pm & w2 & tr2 & Hpm & _ & _); [exact Hmal|].
  erewrite bind_done by exact Hpm.
  destruct (mirror_condition zName rc flags) eqn:Hc.
  - assert (Hn : zName <> None) by (apply mirror_condition_iff in Hc; tauto).
    destruct (Hpath eq_refl zf (Hzf' Hn)) as (z2 & Hz2).
    erewrite bind_done by reflexivity.
    erewrite bind_done by (apply lift_ok; cbn [zSlaveDir advance]; exact Hz2).
    match goal with
    | |- context [replica_open_loop E 10 SQLITE_OK z2 ?f flags] =>
        destruct (replica_open_loop_run 10 SQLITE_OK z2 f flags
                    (advance (advance s w1 [EvOpen zName (blk, PrimaryArea) flags rc])
                       w2 tr2)) as (rc' & w' & tr & Hrun & _)
    end.
    erewrite bind_done by exact Hrun. unfold ret.
    eexists. eexists. eexists. reflexivity.
  - unfold ret. eexists. eexists. eexists. reflexivity.
Qed.

(** The kinds of files other than the main database and the main
    journal do not meet the condition, whatever the name and the status
    of the primary open. *)
Lemma other_kinds_not_mirrored (kind : Z) (zName : option cstring) (rc : Z) :
  In kind [SQLITE_OPEN_TEMP_DB; SQLITE_OPEN_TRANSIENT_DB; SQLITE_OPEN_TEMP_JOURNAL;
           SQLITE_OPEN_SUBJOURNAL; SQLITE_OPEN_MASTER_JOURNAL; SQLITE_OPEN_WAL] ->
  mirror_condition zName rc
    (Z.lor kind (Z.lor SQLITE_OPEN_READWRITE SQLITE_OPEN_CREATE)) = false.
Proof.
  intros Hk. unfold mirror_condition.
  assert (Hz : Z.land (Z.lor kind (Z.lor SQLITE_OPEN_READWRITE SQLITE_OPEN_CREATE))
                 (Z.lor SQLITE_OPEN_MAIN_DB SQLITE_OPEN_MAIN_JOURNAL) = 0).
  { simpl in Hk. repeat (destruct Hk as [<-|Hk]; [reflexivity|]). contradiction. }
  rewrite Hz. simpl. apply andb_false_r.
Qed.


(** C1 (amended). When the primary open of a mirrored file succeeds and
    every open of the replica path fails, [vfsmirrorOpen] completes after
    exactly 10 replica opens, each followed by a sleep; it returns the
    status of the last replica open, which is not [SQLITE_OK]. *)
Theorem open_after_exhausted_retries (blk : nat) (p : vfsmirror_file)
    (z z2 : cstring) (q : option char_ptr) (flags : Z) (s : state W)
    (sub : option sub_methods) (w1 : W) :
  env_xOpen E (Some z) (blk, PrimaryArea) flags (world s) = (SQLITE_OK, sub, w1) ->
  (sub <> None -> fst (env_malloc E w1) = true) ->
  Z.land flags (Z.lor SQLITE_OPEN_MAIN_DB SQLITE_OPEN_MAIN_JOURNAL) <> 0 ->
  fileTail (Some (ptr_to z)) = Ok q ->
  vfsmirrorReplicaPath (zSlaveDir s) q NAME_MAX = Ok z2 ->
  (forall w, fst (fst (env_xOpen E (Some z2) (blk, ReplicaArea) flags w)) <> SQLITE_OK) ->
  exists rc1 p' w' tr tr0,
    vfsmirrorOpen E NAME_MAX blk p (Some z) flags s
    = Done (rc1, p') (advance s w' tr)
    /\ open_attempts (blk, ReplicaArea) tr = 10%nat
    /\ sleeps tr = 10%nat
    /\ tr = tr0 ++ [EvOpen (Some z2) (blk, ReplicaArea) flags rc1; EvSleep 5]
    /\ rc1 <> SQLITE_OK.
Proof.
  intros Hopen Hmal Hflags Hq Hz2 Hfail.
  unfold vfsmirrorOpen.
  rewrite (bind_done _ _ s s q) by (apply lift_ok; exact Hq).
  erewrite bind_done by (unfold root_xOpen, call; rewrite Hopen; reflexivity).
  cbn [fst snd].
  destruct (new_methods_run p sub
              (advance s w1 [EvOpen (Some z) (blk, PrimaryArea) flags SQLITE_OK]))
    as (pm & w2 & tr2 & Hpm & Hno2 & Hsl2); [exact Hmal|].
  erewrite bind_done by exact Hpm. rewrite advance_advance.
  assert (Hc : mirror_condition (Some z) SQLITE_OK flags = true).
  { apply mirror_condition_iff. repeat split; trivial. discriminate. }
  rewrite Hc.
  erewrite bind_done by reflexivity.
  erewrite bind_done by (apply lift_ok; cbn [zSlaveDir advance]; exact Hz2).
  destruct (replica_open_loop_run 10 SQLITE_OK z2 (blk, ReplicaArea) flags
              (advance s w2 ([EvOpen (Some z) (blk, PrimaryArea) flags SQLITE_OK] ++ tr2)))
    as (rc' & w' & tr & Hrun & _ & _ & Hall).
  destruct (Hall Hfail) as (Hatt & Hsl & Hlast).
  destruct Hlast as (Hne & tr0 & Htr); [lia|].
  erewrite bind_done by exact Hrun. unfold ret. rewrite advance_advance.
  rewrite RETURN_CODE_primary_dominates. change (SQLITE_OK =? SQLITE_OK) with true.
  cbv iota.
  eexists rc', _, w', _,
    (([EvOpen (Some z) (blk, PrimaryArea) flags SQLITE_OK] ++ tr2) ++ tr0).
  split; [reflexivity|].
  assert (Hprim : open_attempts (blk, ReplicaArea)
                    [EvOpen (Some z) (blk, PrimaryArea) flags SQLITE_OK] = 0%nat).
  { unfold open_attempts. simpl. unfold real_file_eqb. simpl.
    rewrite andb_false_r. reflexivity. }
  split; [rewrite !open_attempts_app, Hprim, Hno2, Hatt; reflexivity|].
  split; [rewrite !sleeps_app, Hsl2, Hsl; reflexivity|].
  split; [rewrite Htr, <- !app_assoc; reflexivity|].
  exact Hne.
Qed.

(** Whatever the replica opens answer, a mirrored open makes between one
    and ten of them. *)
Lemma replica_attempts_bounded (blk : nat) (p : vfsmirror_file)
    (zName : option cstring) (flags : Z) (s s' : state W) (r : Z)
    (p' : vfsmirror_file) :
  vfsmirrorOpen E NAME_MAX blk p zName flags s = Done (r, p') s' ->
  exists w' tr, s' = advance s w' tr
    /\ (open_attempts (blk, ReplicaArea) tr <= 10)%nat.
Proof.
  intros Hrun.
  destruct (env_xOpen E zName (blk, PrimaryArea) flags (world s))
    as [[rc sub] w1] eqn:Hopen.
  destruct (vfsmirrorOpen_inv blk p zName flags s s' r p' rc sub w1 Hopen Hrun)
    as (w' & tr & Hs & _ & Hcase).
  exists w', tr. split; [exact Hs|].
  destruct (mirror_condition zName rc flags).
  - destruct Hcase as (_ & Hatt & _). lia.
  - destruct Hcase as (_ & Hatt & _). lia.
Qed.

End Opening.

(** ** The theorems at work on the sample environments *)

Lemma primary_only_dispatch_witness :
  vfsmirror_method broken_replica_env (xRead 4096 0) mirrored_file
    (configured_state 260 "/mirror")
  = Done (SQLITE_OK, mirrored_file)
      (advance (configured_state 260 "/mirror") O
         [EvFile (7%nat, PrimaryArea) (xRead 4096 0) SQLITE_OK]).
Proof.
  exact (proj1 (primary_only_dispatch broken_replica_env (xRead 4096 0)
                  mirrored_file (configured_state 260 "/mirror") (7%nat, PrimaryArea)
                  eq_refl eq_refl)).
Defined.

Lemma vfsmirrorClose_spec_witness :
  vfsmirrorClose broken_replica_env mirrored_file (configured_state 260 "/mirror")
  = Done (SQLITE_IOERR,
          {| pMethods := None;
             zFName := Some {| base := C "/a/b/test.db"; ofs := 5 |};
             zFname2 := Some (C "/mirror\test.db");
             pReal0 := Some (7%nat, PrimaryArea);
             pReal1 := Some (7%nat, ReplicaArea) |})
      (advance (configured_state 260 "/mirror") O
         [EvFile (7%nat, PrimaryArea) xClose SQLITE_OK;
          EvFile (7%nat, ReplicaArea) xClose SQLITE_IOERR;
          EvFree (pMethods mirrored_file)]).
Proof.
  exact (proj2 (vfsmirrorClose_spec broken_replica_env mirrored_file
                  (configured_state 260 "/mirror") (7%nat, PrimaryArea) SQLITE_OK O
                  eq_refl eq_refl)
           (7%nat, ReplicaArea) SQLITE_IOERR O eq_refl eq_refl).
Defined.



Lemma set_mirror_directory_trim_reads_out_of_bounds_witness :
  set_mirror_directory healthy_env 260 (Some (C "")) (initial_state 260)
  = Crash (OobRead (-1))
  /\ set_mirror_directory healthy_env 260 (Some (C "/")) (initial_state 260)
     = Crash (OobRead (-1)).
Proof.
  split.
  - apply (set_mirror_directory_trim_reads_out_of_bounds healthy_env 260 (C "")
             (initial_state 260)).
    + reflexivity.
    + constructor.
    + simpl. lia.
    + reflexivity.
    + vm_compute. discriminate.
  - apply (set_mirror_directory_trim_reads_out_of_bounds healthy_env 260 (C "/")
             (initial_state 260)).
    + reflexivity.
    + repeat constructor.
    + simpl. lia.
    + reflexivity.
    + vm_compute. discriminate.
Defined.

Lemma set_mirror_directory_one_shot_witness :
  exists s',
    set_mirror_directory healthy_env 260 (Some (C "/mirror//")) (initial_state 260)
    = Done 1 s'
    /\ set_mirror_directory healthy_env 260 (Some (C "/mnt/other")) s' = Done 0 s'.
Proof.
  eexists. split.
  - vm_compute. reflexivity.
  - eapply (set_mirror_directory_one_shot healthy_env 260 (Some (C "/mirror//"))
              (initial_state 260)).
    + vm_compute. reflexivity.
    + reflexivity.
Defined.



Lemma open_after_exhausted_retries_witness :
  exists rc1 p' w' tr tr0,
    vfsmirrorOpen broken_replica_env 260 7 blank_file (Some (C "/a/b/test.db"))
      main_db_flags (configured_state 260 "/mirror")
    = Done (rc1, p') (advance (configured_state 260 "/mirror") w' tr)
    /\ open_attempts (7%nat, ReplicaArea) tr = 10%nat
    /\ sleeps tr = 10%nat
    /\ tr = tr0 ++ [EvOpen (Some (C "/mirror\test.db")) (7%nat, ReplicaArea)
                      main_db_flags rc1; EvSleep 5]
    /\ rc1 <> SQLITE_OK.
Proof.
  apply (open_after_exhausted_retries broken_replica_env 260 7 blank_file
           (C "/a/b/test.db") (C "/mirror\test.db")
           (Some {| base := C "/a/b/test.db"; ofs := 5 |})
           main_db_flags (configured_state 260 "/mirror") (Some shm_capable) O).
  - reflexivity.
  - intros _. reflexivity.
  - vm_compute. discriminate.
  - reflexivity.
  - vm_compute. reflexivity.
  - intros w. simpl. discriminate.
Defined.

(** C1, the claim as stated fails: the primary open succeeds, all ten
    replica opens fail with [SQLITE_CANTOPEN], and [vfsmirrorOpen] returns
    [SQLITE_CANTOPEN], not [SQLITE_OK]; the replica slot is not NULL. *)
Lemma open_after_exhausted_retries_counterexample :
  exists p' s',
    vfsmirrorOpen broken_replica_env 260 7 blank_file (Some (C "/a/b/test.db"))
      main_db_flags (configured_state 260 "/mirror") = Done (SQLITE_CANTOPEN, p') s'
    /\ SQLITE_CANTOPEN <> SQLITE_OK
    /\ pReal1 p' = Some (7%nat, ReplicaArea)
    /\ pReal1 p' <> None
    /\ open_attempts (7%nat, ReplicaArea) (trace s') = 10%nat.
Proof.
  eexists. eexists. split; [vm_compute; reflexivity|].
  split; [discriminate|]. split; [reflexivity|].
  split; [discriminate | reflexivity].
Qed.

(** C6, on the file that [vfsmirrorOpen] leaves after ten failed replica
    opens: the open returns [SQLITE_CANTOPEN], the file has its method
    table, so that [xClose] will be called on it, and the replica slot is
    set although the replica file was never opened. [vfsmirrorClose]
    closes the primary file and then calls [xClose] through the [pMethods]
    of the replica file, which is NULL: it neither returns a status nor
    frees the method table. *)
Theorem vfsmirrorClose_after_exhausted_retries :
  exists p' s',
    vfsmirrorOpen unopened_replica_env 260 7 blank_file (Some (C "/a/b/test.db"))
      main_db_flags (configured_state 260 "/mirror") = Done (SQLITE_CANTOPEN, p') s'
    /\ open_attempts (7%nat, ReplicaArea) (trace s') = 10%nat
    /\ pMethods p' <> None
    /\ pReal1 p' = Some (7%nat, ReplicaArea)
    /\ env_file unopened_replica_env (7%nat, PrimaryArea) xClose (world s')
       = Some (SQLITE_OK, world s')
    /\ vfsmirrorClose unopened_replica_env p' s' = Crash NullDeref.
Proof.
  eexists. eexists. split; [vm_compute; reflexivity|].
  split; [reflexivity|]. split; [discriminate|]. split; [reflexivity|].
  split; [reflexivity|].
  apply (vfsmirrorClose_without_replica_methods unopened_replica_env _ _
           (7%nat, PrimaryArea) (7%nat, ReplicaArea) SQLITE_OK 10%nat);
    reflexivity.
Qed.

(** * Further properties *)

(** ** fileTail and the replica path *)

Lemma basename_split_sep (z : cstring) :
  exists pre, z = pre ++ basename z
    /\ (pre = [] \/ is_sep (last pre NUL) = true).
Proof.
  induction z as [|a z (pre & IH & Hpre)].
  - exists []. split; [reflexivity | left; reflexivity].
  - change (basename (a :: z))
      with (if existsb is_sep (a :: z) then basename z else a :: z).
    destruct (existsb is_sep (a :: z)) eqn:Hs.
    + exists (a :: pre). split; [simpl; f_equal; exact IH|]. right.
      destruct Hpre as [-> | Hl].
      * simpl in IH. rewrite IH in Hs. simpl in Hs.
        rewrite basename_no_sep, orb_false_r in Hs. exact Hs.
      * destruct pre as [|b pre]; [discriminate Hl|]. exact Hl.
    + exists []. split; [reflexivity | left; reflexivity].
Qed.

Lemma file_tail_skipn (z : cstring) :
  z <> [] -> skipn (tail_start z) z = file_tail z.
Proof. apply skipn_tail_start. Qed.

Lemma fileTail_pointer (z : cstring) :
  z <> [] -> len z < 2 ^ 31 ->
  fileTail (Some (ptr_to z))
  = Ok (Some {| base := z; ofs := Z.of_nat (tail_start z) |}).
Proof.
  intros Hz Hl.
  assert (Hv : valid_ptr (ptr_to z)) by (unfold valid_ptr, ptr_to, len; simpl; lia).
  unfold fileTail. rewrite (fileTail_index_spec (ptr_to z) Hv Hz Hl), rbind_ok.
  reflexivity.
Qed.

Lemma tail_pointer_valid (z : cstring) :
  z <> [] ->
  valid_ptr {| base := z; ofs := Z.of_nat (tail_start z) |}
  /\ pointee {| base := z; ofs := Z.of_nat (tail_start z) |} = file_tail z.
Proof.
  intros Hz. pose proof (tail_start_lt z Hz) as Hlt. split.
  - unfold valid_ptr, len. simpl. lia.
  - unfold pointee. simpl. rewrite Nat2Z.id. apply file_tail_skipn. exact Hz.
Qed.

Lemma file_tail_length (z : cstring) :
  z <> [] -> (0 < List.length (file_tail z) <= List.length z)%nat.
Proof.
  intros Hz. unfold file_tail. rewrite length_app. simpl.
  pose proof (basename_length (removelast z)) as Hb.
  pose proof (app_removelast_last NUL Hz) as Hs.
  apply (f_equal (@List.length ascii)) in Hs. rewrite length_app in Hs.
  simpl in Hs. lia.
Qed.

(** X1. For every non-empty string (shorter than 2^31), [fileTail]
    returns a pointer into the string that splits it as [pre ++ t ++ [c]]:
    the pointer stands after [pre], the string it denotes is [t ++ [c]]
    with [c] the final character, [t] holds no separator, and [pre] is
    empty or ends in a separator. So the tail starts right after the last
    [/] or [\] that precedes the final character, and is never empty. *)
Theorem fileTail_returns_last_component (z : cstring) :
  z <> [] -> len z < 2 ^ 31 ->
  exists q pre t c,
    fileTail (Some (ptr_to z)) = Ok (Some q)
    /\ base q = z /\ ofs q = len pre
    /\ z = pre ++ t ++ [c]
    /\ c_string q = Ok (t ++ [c])
    /\ existsb is_sep t = false
    /\ (pre = [] \/ is_sep (last pre NUL) = true).
Proof.
  intros Hz Hl.
  destruct (basename_split_sep (removelast z)) as (pre & Hsplit & Hpre).
  destruct (tail_pointer_valid z Hz) as [Hv Hp].
  exists {| base := z; ofs := Z.of_nat (tail_start z) |}, pre,
    (basename (removelast z)), (last z NUL).
  pose proof (app_removelast_last NUL Hz) as Hz'.
  split; [apply fileTail_pointer; assumption|].
  split; [reflexivity|]. split.
  - simpl. unfold len, tail_start. f_equal.
    apply (f_equal (@List.length ascii)) in Hz'. rewrite length_app in Hz'.
    apply (f_equal (@List.length ascii)) in Hsplit. rewrite length_app in Hsplit.
    simpl in Hz'. lia.
  - split; [rewrite app_assoc, <- Hsplit; exact Hz'|].
    split; [rewrite (c_string_valid _ Hv), Hp; reflexivity|].
    split; [apply basename_no_sep | exact Hpre].
Qed.

Lemma fileTail_returns_last_component_witness :
  exists q pre t c,
    fileTail (Some (ptr_to (C "C:\data\db/test.db"))) = Ok (Some q)
    /\ base q = C "C:\data\db/test.db" /\ ofs q = len pre
    /\ C "C:\data\db/test.db" = pre ++ t ++ [c]
    /\ c_string q = Ok (t ++ [c])
    /\ existsb is_sep t = false
    /\ (pre = [] \/ is_sep (last pre NUL) = true).
Proof.
  apply (fileTail_returns_last_component (C "C:\data\db/test.db")).
  - discriminate.
  - vm_compute. reflexivity.
Defined.

Lemma fileTail_on_tail (z : cstring) :
  z <> [] -> len z < 2 ^ 31 ->
  fileTail (Some {| base := z; ofs := Z.of_nat (tail_start z) |})
  = Ok (Some {| base := z; ofs := Z.of_nat (tail_start z) |}).
Proof.
  intros Hz Hl.
  destruct (tail_pointer_valid z Hz) as [Hv Hp].
  pose proof (file_tail_length z Hz) as Hlen.
  unfold fileTail. rewrite fileTail_index_spec; trivial.
  - rewrite rbind_ok, Hp. unfold ptr_add. simpl base. simpl ofs.
    assert (H0 : tail_start (file_tail z) = 0%nat).
    { unfold tail_start, file_tail. rewrite removelast_last, length_app.
      rewrite (basename_fixed _ (basename_no_sep _)). simpl. lia. }
    rewrite H0. simpl Z.of_nat. rewrite Z.add_0_r. reflexivity.
  - rewrite Hp. intros H. rewrite H in Hlen. simpl in Hlen. lia.
  - rewrite Hp. unfold len in *. lia.
Qed.

(** X2. [fileTail] is idempotent: applied to the pointer it returned
    for a non-empty string, it returns that same pointer. [vfsmirrorOpen]
    relies on it, since it keeps [fileTail(zName)] in [zFName] and
    [vfsmirrorReplicaPath] takes the tail of [zFName] once more. *)
Theorem fileTail_idempotent (z : cstring) :
  z <> [] -> len z < 2 ^ 31 ->
  exists q, fileTail (Some (ptr_to z)) = Ok (Some q)
    /\ fileTail (Some q) = Ok (Some q).
Proof.
  intros Hz Hl.
  exists {| base := z; ofs := Z.of_nat (tail_start z) |}.
  split; [apply fileTail_pointer | apply fileTail_on_tail]; assumption.
Qed.

Lemma fileTail_idempotent_witness :
  exists q, fileTail (Some (ptr_to (C "/a/b/test.db"))) = Ok (Some q)
    /\ fileTail (Some q) = Ok (Some q).
Proof.
  apply (fileTail_idempotent (C "/a/b/test.db")).
  - discriminate.
  - vm_compute. reflexivity.
Defined.

Lemma c_str_shorter (b : list ascii) (d : cstring) :
  c_str b = Some d -> (List.length d < List.length b)%nat.
Proof.
  revert d. induction b as [|c b IH]; intros d; simpl; [discriminate|].
  destruct (c =? NUL)%char.
  - intros H. injection H as <-. simpl. lia.
  - destruct (c_str b) as [s|]; [|discriminate].
    intros H. injection H as <-. specialize (IH s eq_refl). simpl. lia.
Qed.

(** [strncat] given the size of the whole array as its bound. *)
Lemma strncat_whole_size (N : nat) (d t : cstring) :
  strncat N d t N
  = if (List.length d + List.length t <? N)%nat then Ok (d ++ t)
    else Fault (OobWrite (Z.of_nat N)).
Proof.
  unfold strncat.
  destruct (Nat.le_gt_cases (List.length t) N) as [Ht|Ht].
  - rewrite firstn_exact by exact Ht. reflexivity.
  - rewrite length_firstn.
    replace (Nat.min N (List.length t)) with N by lia.
    destruct (Nat.ltb_spec (List.length d + N) N); [lia|].
    destruct (Nat.ltb_spec (List.length d + List.length t) N); [lia | reflexivity].
Qed.

(** What [vfsmirrorReplicaPath] computes for a non-empty path, the tail
    being spelled out. *)
Lemma vfsmirrorReplicaPath_tail (N : nat) (dirbuf : list ascii) (z : cstring) :
  z <> [] -> len z < 2 ^ 31 ->
  vfsmirrorReplicaPath dirbuf (Some (ptr_to z)) N
  = (d0 <- strncpy dirbuf N ;;
     d1 <- strncat N d0 (C "\") N ;;
     strncat N d1 (file_tail z) N).
Proof.
  intros Hz Hl. unfold vfsmirrorReplicaPath.
  destruct (strncpy dirbuf N) as [d0|f]; [|reflexivity]. rewrite !rbind_ok.
  destruct (strncat N d0 (C "\") N) as [d1|f]; [|reflexivity]. rewrite !rbind_ok.
  rewrite (fileTail_pointer z Hz Hl), rbind_ok.
  destruct (tail_pointer_valid z Hz) as [Hv Hp].
  rewrite (c_string_valid _ Hv), rbind_ok, Hp. reflexivity.
Qed.

(** X3. For a non-empty path and a terminated directory array,
    [vfsmirrorReplicaPath] yields directory, backslash and tail exactly
    when these and the terminator fit the [size] characters of the
    destination; otherwise [strncat], which is given the whole size and
    not the room that is left, writes past the end of the array. *)
Theorem replica_path_fits_or_overruns (N : nat) (dirbuf : list ascii)
    (dir z : cstring) :
  c_str (firstn N dirbuf) = Some dir ->
  z <> [] -> len z < 2 ^ 31 ->
  vfsmirrorReplicaPath dirbuf (Some (ptr_to z)) N
  = if (List.length dir + 1 + List.length (file_tail z) <? N)%nat
    then Ok (dir ++ C "\" ++ file_tail z)
    else Fault (OobWrite (Z.of_nat N)).
Proof.
  intros Hdir Hz Hl. rewrite (vfsmirrorReplicaPath_tail N dirbuf z Hz Hl).
  unfold strncpy. rewrite Hdir, rbind_ok.
  rewrite (strncat_whole_size N dir (C "\")).
  change (List.length (C "\")) with 1%nat.
  destruct (Nat.ltb_spec (List.length dir + 1) N) as [H1|H1].
  - rewrite rbind_ok, strncat_whole_size, length_app.
    change (List.length (C "\")) with 1%nat.
    destruct (Nat.ltb_spec (List.length dir + 1 + List.length (file_tail z)) N);
      [rewrite <- app_assoc|]; reflexivity.
  - simpl rbind.
    destruct (Nat.ltb_spec (List.length dir + 1 + List.length (file_tail z)) N);
      [lia | reflexivity].
Qed.

Lemma replica_path_fits_or_overruns_witness :
  vfsmirrorReplicaPath (zSlaveDir (configured_state 16 "/mirror"))
    (Some (ptr_to (C "/a/b/test.db"))) 16 = Ok (C "/mirror\test.db")
  /\ vfsmirrorReplicaPath (zSlaveDir (configured_state 16 "/mirror"))
       (Some (ptr_to (C "/a/b/test1.db"))) 16 = Fault (OobWrite 16).
Proof.
  split.
  - apply (replica_path_fits_or_overruns 16 (zSlaveDir (configured_state 16 "/mirror"))
             (C "/mirror") (C "/a/b/test.db")).
    + reflexivity.
    + discriminate.
    + vm_compute. reflexivity.
  - apply (replica_path_fits_or_overruns 16 (zSlaveDir (configured_state 16 "/mirror"))
             (C "/mirror") (C "/a/b/test1.db")).
    + reflexivity.
    + discriminate.
    + vm_compute. reflexivity.
Defined.

(** X4. The replica path does not depend on the directory of the
    primary path: two non-empty paths that do not end in a separator and
    have the same base name get the same result from
    [vfsmirrorReplicaPath], path or fault, so files of the same name in
    different directories share one replica file. *)
Theorem replica_path_same_for_same_name (N : nat) (dirbuf : list ascii)
    (z1 z2 : cstring) :
  z1 <> [] -> z2 <> [] -> len z1 < 2 ^ 31 -> len z2 < 2 ^ 31 ->
  is_sep (last z1 NUL) = false -> is_sep (last z2 NUL) = false ->
  basename z1 = basename z2 ->
  vfsmirrorReplicaPath dirbuf (Some (ptr_to z1)) N
  = vfsmirrorReplicaPath dirbuf (Some (ptr_to z2)) N.
Proof.
  intros H1 H2 Hl1 Hl2 Hs1 Hs2 Hb.
  rewrite !vfsmirrorReplicaPath_tail by assumption.
  unfold file_tail.
  rewrite <- (basename_last z1 H1 Hs1), <- (basename_last z2 H2 Hs2), Hb.
  reflexivity.
Qed.

Lemma replica_path_same_for_same_name_witness :
  vfsmirrorReplicaPath (zSlaveDir (configured_state 260 "/mirror"))
    (Some (ptr_to (C "/a/b/test.db"))) 260
  = vfsmirrorReplicaPath (zSlaveDir (configured_state 260 "/mirror"))
      (Some (ptr_to (C "C:\other\test.db"))) 260.
Proof.
  apply (replica_path_same_for_same_name 260
           (zSlaveDir (configured_state 260 "/mirror"))
           (C "/a/b/test.db") (C "C:\other\test.db"));
    try discriminate; vm_compute; reflexivity.
Defined.

(** ** Methods of a file *)

Lemma RETURN_CODE_ok_iff (rc rc1 : Z) :
  RETURN_CODE rc rc1 = SQLITE_OK <-> rc = SQLITE_OK /\ rc1 = SQLITE_OK.
Proof.
  rewrite RETURN_CODE_primary_dominates.
  destruct (Z.eqb_spec rc SQLITE_OK) as [->|Hn]; split.
  - intros H. split; [reflexivity | exact H].
  - intros [_ H]. exact H.
  - intros H. contradiction.
  - intros [H _]. contradiction.
Qed.

Lemma advances_refl {W} (s : state W) : advances s s.
Proof. exists (world s), []. symmetry. apply advance_nil. Qed.

Lemma advances_trans {W} (s1 s2 s3 : state W) :
  advances s1 s2 -> advances s2 s3 -> advances s1 s3.
Proof.
  intros (w & tr & ->) (w' & tr' & ->). rewrite advance_advance.
  exists w', (tr ++ tr'). reflexivity.
Qed.

Lemma advances_statics {W} (s s' : state W) :
  advances s s' ->
  registered s' = registered s /\ zSlaveDir s' = zSlaveDir s
  /\ exists tr, trace s' = trace s ++ tr.
Proof.
  intros (w & tr & ->). split; [reflexivity|]. split; [reflexivity|].
  exists tr. reflexivity.
Qed.

Lemma only_on_app (f : real_file) (tr1 tr2 : list event) :
  only_on f tr1 -> only_on f tr2 -> only_on f (tr1 ++ tr2).
Proof. unfold only_on. intros H1 H2. apply Forall_app. split; assumption. Qed.

Section MoreMethods.

Context {W : Type}.
Variable E : environment W.

Lemma call_advances {A} (f : W -> A * W) (ev : A -> event) (s s' : state W) (a : A) :
  call f ev s = Done a s' -> advances s s'.
Proof.
  unfold call. destruct (f (world s)) as [a0 w]. intros H.
  injection H as _ <-. exists w, [ev a0]. reflexivity.
Qed.

Lemma real_call_advances (f : option real_file) (op : file_op)
    (s s' : state W) (rc : Z) :
  real_call E f op s = Done rc s' -> advances s s'.
Proof.
  destruct f as [rf|]; [|discriminate].
  rewrite real_call_some. destruct (env_file E rf op (world s)) as [[r w]|];
    [|discriminate].
  intros H. injection H as _ <-. exists w, [EvFile rf op r]. reflexivity.
Qed.

Lemma replica_call_advances (p : vfsmirror_file) (op : file_op)
    (s s' : state W) (rc : Z) :
  replica_call E p op s = Done rc s' -> advances s s'.
Proof.
  unfold replica_call. destruct (pReal1 p).
  - apply real_call_advances.
  - unfold ret. intros H. injection H as _ <-. apply advances_refl.
Qed.

Lemma steady_ret {A} (a : A) : steady (@ret W A a).
Proof. intros s a0 s' H. injection H as _ <-. apply advances_refl. Qed.

Lemma steady_crash {A} (f : fault) : steady (@crash W A f).
Proof. intros s a s' H. discriminate H. Qed.

Lemma steady_lift {A} (r : result A) : steady (@lift W A r).
Proof.
  intros s a s' H. apply lift_inv in H as [_ ->]. apply advances_refl.
Qed.

Lemma steady_bind {A B} (m : M W A) (k : A -> M W B) :
  steady m -> (forall a, steady (k a)) -> steady (bind m k).
Proof.
  intros Hm Hk s b s' H. apply bind_inv in H as (a & s1 & H1 & H2).
  eapply advances_trans; [eapply Hm | eapply Hk]; eassumption.
Qed.

Lemma steady_call {A} (f : W -> A * W) (ev : A -> event) : steady (call f ev).
Proof. intros s a s' H. eapply call_advances. exact H. Qed.

Lemma steady_real_call (f : option real_file) (op : file_op) :
  steady (real_call E f op).
Proof. intros s a s' H. eapply real_call_advances. exact H. Qed.

Lemma steady_replica_call (p : vfsmirror_file) (op : file_op) :
  steady (replica_call E p op).
Proof. intros s a s' H. eapply replica_call_advances. exact H. Qed.

Lemma steady_get_zSlaveDir : steady (@get_zSlaveDir W).
Proof. intros s a s' H. injection H as _ <-. apply advances_refl. Qed.

Lemma steady_if {A} (c : bool) (m1 m2 : M W A) :
  steady m1 -> steady m2 -> steady (if c then m1 else m2).
Proof. destruct c; trivial. Qed.

Lemma steady_vfsmirror_method (op : file_op) (p : vfsmirror_file) :
  steady (vfsmirror_method E op p).
Proof.
  destruct op; unfold vfsmirror_method, vfsmirrorClose, vfsmirrorRead,
    vfsmirrorWrite, vfsmirrorTruncate, vfsmirrorSync, vfsmirrorFileSize,
    vfsmirrorLock, vfsmirrorUnlock, vfsmirrorCheckReservedLock,
    vfsmirrorFileControl, vfsmirrorSectorSize, vfsmirrorDeviceCharacteristics,
    vfsmirrorShmMap, vfsmirrorShmLock, vfsmirrorShmBarrier, vfsmirrorShmUnmap,
    sqlite3_free;
    repeat first [ apply steady_bind; [|intros ?]
                 | apply steady_if
                 | apply steady_real_call
                 | apply steady_replica_call
                 | apply steady_call
                 | apply steady_ret ].
Qed.

Lemma real_call_only_on (rf : real_file) (op : file_op) (s s' : state W) (rc : Z) :
  real_call E (Some rf) op s = Done rc s' ->
  exists w, env_file E rf op (world s) = Some (rc, w)
    /\ s' = advance s w [EvFile rf op rc].
Proof.
  rewrite real_call_some. destruct (env_file E rf op (world s)) as [[r w]|];
    [|discriminate].
  intros H. injection H as <- <-. exists w. split; reflexivity.
Qed.

(** X5. Write, truncate, sync and fileControl on a file with a replica
    call the primary file first and then the replica file, also when the
    primary call failed; the status returned is [SQLITE_OK] exactly when
    both calls returned [SQLITE_OK], it is the primary's status when that
    is a failure, and the replica's status otherwise. These are all the
    calls made, but for fileControl with [SQLITE_FCNTL_VFSNAME], which
    goes on to call [sqlite3_mprintf] when the primary call returned
    [SQLITE_OK], whatever the replica call returned ([vfsname_events] and
    [vfsname_world] are that call and the world after it, and nothing
    for every other operation). *)
Theorem mirrored_operation_status (op : file_op) (p : vfsmirror_file)
    (s : state W) (rf rf1 : real_file) (rc rc1 : Z) (w w1 : W) :
  mutating op = true ->
  pReal0 p = Some rf -> pReal1 p = Some rf1 ->
  env_file E rf op (world s) = Some (rc, w) ->
  env_file E rf1 op w = Some (rc1, w1) ->
  exists r,
    vfsmirror_method E op p s
    = Done (r, p) (advance s (vfsname_world E op rc w1)
                     (EvFile rf op rc :: EvFile rf1 op rc1
                        :: vfsname_events E op rc w1))
    /\ (r = SQLITE_OK <-> rc = SQLITE_OK /\ rc1 = SQLITE_OK)
    /\ (rc <> SQLITE_OK -> r = rc)
    /\ (rc = SQLITE_OK -> r = rc1).
Proof.
  intros Hop H0 H1 Hc Hc1.
  exists (RETURN_CODE rc rc1).
  split; [exact (proj2 (mutating_dispatch E op p s rf rc w Hop H0 Hc) rf1 rc1 w1 H1 Hc1)|].
  split; [apply RETURN_CODE_ok_iff|].
  rewrite RETURN_CODE_primary_dominates.
  split; intros H; destruct (Z.eqb_spec rc SQLITE_OK); congruence.
Qed.

Lemma RETURN_CODE_ok_right (rc : Z) : RETURN_CODE rc SQLITE_OK = rc.
Proof.
  rewrite RETURN_CODE_primary_dominates.
  destruct (Z.eqb_spec rc SQLITE_OK); congruence.
Qed.

(** What any method does on a file without a replica. *)
Lemma unmirrored_method_eq (op : file_op) (p : vfsmirror_file)
    (s : state W) (rf : real_file) :
  pReal0 p = Some rf -> pReal1 p = None ->
  vfsmirror_method E op p s
  = match env_file E rf op (world s) with
    | None => Crash NullDeref
    | Some (rc, w) =>
        match op with
        | xClose =>
            if rc =? SQLITE_OK
            then Done (rc, set_pMethods p None)
                   (advance s (env_free E (pMethods p) w)
                      [EvFile rf op rc; EvFree (pMethods p)])
            else Done (rc, p) (advance s w [EvFile rf op rc])
        | xShmBarrier => Done (0, p) (advance s w [EvFile rf op rc])
        | _ => Done (rc, p) (advance s (vfsname_world E op rc w)
                               (EvFile rf op rc :: vfsname_events E op rc w))
        end
    end.
Proof.
  intros H0 H1.
  destruct op; unfold vfsmirror_method, vfsmirrorClose, vfsmirrorRead,
    vfsmirrorWrite, vfsmirrorTruncate, vfsmirrorSync, vfsmirrorFileSize,
    vfsmirrorLock, vfsmirrorUnlock, vfsmirrorCheckReservedLock,
    vfsmirrorFileControl, vfsmirrorSectorSize, vfsmirrorDeviceCharacteristics,
    vfsmirrorShmMap, vfsmirrorShmLock, vfsmirrorShmBarrier, vfsmirrorShmUnmap,
    bind, ret;
    rewrite H0, real_call_some;
    match goal with
    | |- context [env_file E rf ?o (world s)] =>
        destruct (env_file E rf o (world s)) as [[rc w]|]; [|reflexivity]
    end;
    rewrite ?(replica_call_none E p _ _ H1), ?RETURN_CODE_ok_right;
    try reflexivity.
  - destruct (rc =? SQLITE_OK); [|reflexivity].
    unfold sqlite3_free, call. cbn [world advance].
    rewrite advance_advance. reflexivity.
  - unfold vfsname_world, vfsname_events, names_vfs.
    destruct ((op =? SQLITE_FCNTL_VFSNAME) && (rc =? SQLITE_OK)); [|reflexivity].
    unfold sqlite3_mprintf, call. cbn [world advance].
    destruct (env_mprintf E w) as [ok w']. cbn [fst snd].
    rewrite advance_advance. reflexivity.
Qed.

End MoreMethods.

(** ** Opening, once more *)

Lemma no_open_when_no_attempt (f : real_file) (tr : list event)
    (zn : option cstring) (fl rc : Z) :
  open_attempts f tr = 0%nat -> ~ In (EvOpen zn f fl rc) tr.
Proof.
  unfold open_attempts. intros H Hin.
  assert (Hf : In (EvOpen zn f fl rc) (filter (is_open_of f) tr)).
  { apply filter_In. split; [exact Hin|]. simpl. apply real_file_eqb_refl. }
  destruct (filter (is_open_of f) tr); [contradiction | discriminate].
Qed.

Section MoreOpening.

Context {W : Type}.
Variable E : environment W.
Variable NAME_MAX : nat.

(** The calls of the retry loop: opens of the replica path on the
    replica file with the flags given, and sleeps of 5; when the loop
    ends on a success, the success is the last call and every call before
    it was followed by a sleep; when it ends on a failure, all [retry]
    opens and as many sleeps were made. *)
Lemma replica_open_loop_shape (retry : nat) (rc1 : Z) (z2 : cstring)
    (f : real_file) (flags : Z) (s : state W) :
  exists rc' w' tr,
    replica_open_loop E retry rc1 z2 f flags s = Done rc' (advance s w' tr)
    /\ Forall (fun ev => ev = EvSleep 5
                         \/ exists rc, ev = EvOpen (Some z2) f flags rc) tr
    /\ (open_attempts f tr <= retry)%nat
    /\ (retry = 0%nat -> rc' = rc1 /\ tr = [])
    /\ ((0 < retry)%nat ->
        (rc' = SQLITE_OK ->
         open_attempts f tr = S (sleeps tr)
         /\ exists tr0, tr = tr0 ++ [EvOpen (Some z2) f flags SQLITE_OK])
        /\ (rc' <> SQLITE_OK ->
            open_attempts f tr = retry /\ sleeps tr = retry)).
Proof.
  revert rc1 s. induction retry as [|n IH]; intros rc1 s.
  - exists rc1, (world s), []. simpl replica_open_loop. unfold ret.
    rewrite advance_nil. split; [reflexivity|]. split; [constructor|].
    split; [apply Nat.le_refl|]. split; [intros _; split; reflexivity|].
    intros H; inversion H.
  - simpl replica_open_loop. unfold bind at 1. unfold root_xOpen, call.
    destruct (env_xOpen E (Some z2) f flags (world s)) as [[rc sub] w] eqn:Hopen.
    cbv beta. cbn [fst].
    assert (Hone : open_attempts f [EvOpen (Some z2) f flags rc] = 1%nat).
    { unfold open_attempts. simpl. rewrite real_file_eqb_refl. reflexivity. }
    destruct (Z.eqb_spec rc SQLITE_OK) as [Hok|Hko]; cbn [negb]; cbv beta iota.
    + exists rc, w, [EvOpen (Some z2) f flags rc]. unfold ret.
      split; [reflexivity|].
      split; [constructor; [right; exists rc; reflexivity | constructor]|].
      rewrite Hone. split; [lia|]. split; [intros H; discriminate H|].
      intros _. split.
      * intros _. split; [reflexivity|]. exists []. rewrite Hok. reflexivity.
      * intros H. contradiction.
    + unfold bind at 1. unfold sqlite3_sleep, call. cbn [world advance].
      rewrite advance_advance.
      destruct (IH rc (advance s (env_sleep E 5 w)
                         ([EvOpen (Some z2) f flags rc] ++ [EvSleep 5])))
        as (rc' & w' & tr & Hrun & Hall & Hle & Hzero & Hpos).
      exists rc', w', (([EvOpen (Some z2) f flags rc] ++ [EvSleep 5]) ++ tr).
      rewrite Hrun, advance_advance. split; [reflexivity|].
      split.
      { apply Forall_app. split; [|exact Hall].
        constructor; [right; exists rc; reflexivity|].
        constructor; [left; reflexivity | constructor]. }
      rewrite !open_attempts_app, !sleeps_app, Hone.
      change (open_attempts f [EvSleep 5]) with 0%nat.
      change (sleeps [EvOpen (Some z2) f flags rc]) with 0%nat.
      change (sleeps [EvSleep 5]) with 1%nat.
      split; [lia|]. split; [intros H; discriminate H|]. intros _.
      destruct n as [|m].
      * destruct (Hzero eq_refl) as [-> ->]. split.
        -- intros H. contradiction.
        -- intros _. split; reflexivity.
      * destruct Hpos as [HA HB]; [lia|]. split.
        -- intros Hr. destruct (HA Hr) as (Hatt & tr0 & Htr).
           split; [lia|].
           exists (([EvOpen (Some z2) f flags rc] ++ [EvSleep 5]) ++ tr0).
           rewrite Htr, <- !app_assoc. reflexivity.
        -- intros Hr. destruct (HB Hr) as (Hatt & Hsl). split; lia.
Qed.

Lemma steady_vfsmirrorOpen (blk : nat) (p : vfsmirror_file)
    (zName : option cstring) (flags : Z) :
  steady (vfsmirrorOpen E NAME_MAX blk p zName flags).
Proof.
  intros s [r p'] s' H.
  destruct (env_xOpen E zName (blk, PrimaryArea) flags (world s))
    as [[rc sub] w1] eqn:Hopen.
  destruct (vfsmirrorOpen_inv E NAME_MAX blk p zName flags s s' r p' rc sub w1 Hopen H)
    as (w' & tr & Hs & _).
  exists w', tr. exact Hs.
Qed.

Lemma steady_vfsmirrorDelete (zPath : option cstring) (dirSync : Z) :
  steady (vfsmirrorDelete E NAME_MAX zPath dirSync).
Proof.
  unfold vfsmirrorDelete, root_xDelete.
  repeat first [ apply steady_bind; [|intros ?]
               | apply steady_call
               | apply steady_get_zSlaveDir
               | apply steady_lift
               | apply steady_ret ].
Qed.

(** X6. No method of a file, [vfsmirrorOpen] or [vfsmirrorDelete]
    ever changes the configuration: when such a call completes, the
    one-shot flag and the stored replica directory are what they were,
    and the calls made before it are still the beginning of the trace. *)
Theorem shim_calls_keep_configuration (s s' : state W) :
  (exists op p r, vfsmirror_method E op p s = Done r s')
  \/ (exists blk p zName flags r,
        vfsmirrorOpen E NAME_MAX blk p zName flags s = Done r s')
  \/ (exists zPath dirSync r,
        vfsmirrorDelete E NAME_MAX zPath dirSync s = Done r s') ->
  registered s' = registered s
  /\ zSlaveDir s' = zSlaveDir s
  /\ exists tr, trace s' = trace s ++ tr.
Proof.
  intros H. apply advances_statics.
  destruct H as [(op & p & r & H) | [(blk & p & zName & flags & r & H)
                                    | (zPath & dirSync & r & H)]].
  - eapply steady_vfsmirror_method. exact H.
  - eapply steady_vfsmirrorOpen. exact H.
  - eapply steady_vfsmirrorDelete. exact H.
Qed.

(** X7. A mirrored open, one with a name, a successful primary open
    and main-database or main-journal flags, that completes: every open
    on the replica file names the path kept in [zFname2] and carries the
    flags of the primary open. If the open returns [SQLITE_OK], its last
    call is a successful replica open and it slept once for every failed
    attempt before it, at most 9 times; if not, it made all 10 attempts
    and slept 10 times. *)
Theorem mirrored_open_outcome (blk : nat) (p : vfsmirror_file) (z : cstring)
    (flags : Z) (s s' : state W) (r : Z) (p' : vfsmirror_file)
    (sub : option sub_methods) (w1 : W) :
  env_xOpen E (Some z) (blk, PrimaryArea) flags (world s) = (SQLITE_OK, sub, w1) ->
  Z.land flags (Z.lor SQLITE_OPEN_MAIN_DB SQLITE_OPEN_MAIN_JOURNAL) <> 0 ->
  vfsmirrorOpen E NAME_MAX blk p (Some z) flags s = Done (r, p') s' ->
  exists w' tr z2,
    s' = advance s w' tr
    /\ zFname2 p' = Some z2
    /\ (forall zn fl rc, In (EvOpen zn (blk, ReplicaArea) fl rc) tr ->
          zn = Some z2 /\ fl = flags)
    /\ (r = SQLITE_OK ->
        open_attempts (blk, ReplicaArea) tr = S (sleeps tr)
        /\ (sleeps tr <= 9)%nat
        /\ exists tr0, tr = tr0 ++ [EvOpen (Some z2) (blk, ReplicaArea) flags SQLITE_OK])
    /\ (r <> SQLITE_OK ->
        open_attempts (blk, ReplicaArea) tr = 10%nat /\ sleeps tr = 10%nat).
Proof.
  intros Hopen Hflags H. unfold vfsmirrorOpen in H.
  apply bind_inv in H as (zf & s0 & Hzf & H).
  apply lift_inv in Hzf as [_ ->].
  apply bind_inv in H as (ro & s1 & Hro & H).
  unfold root_xOpen, call in Hro. rewrite Hopen in Hro.
  injection Hro as <- <-. cbn [fst snd] in H.
  apply bind_inv in H as (pm & s2 & Hpm & H).
  apply new_methods_inv in Hpm as (w2 & tr2 & -> & Hno2 & Hsl2).
  rewrite advance_advance in H. cbn [app] in H.
  assert (Hc : mirror_condition (Some z) SQLITE_OK flags = true).
  { apply mirror_condition_iff. repeat split; trivial. discriminate. }
  rewrite Hc in H.
  apply bind_inv in H as (dir & s3 & Hdir & H).
  unfold get_zSlaveDir in Hdir. injection Hdir as <- <-.
  apply bind_inv in H as (z2 & s4 & Hz2 & H).
  apply lift_inv in Hz2 as [_ ->].
  apply bind_inv in H as (rc1 & s5 & Hloop & H).
  destruct (replica_open_loop_shape 10 SQLITE_OK z2 (blk, ReplicaArea) flags
              (advance s w2 (EvOpen (Some z) (blk, PrimaryArea) flags SQLITE_OK :: tr2)))
    as (rc' & w' & tr & Hrun & Hall & Hle & _ & Hpos).
  rewrite Hrun in Hloop. injection Hloop as <- <-.
  unfold ret in H. injection H as <- <- <-.
  rewrite advance_advance. rewrite RETURN_CODE_primary_dominates.
  change (SQLITE_OK =? SQLITE_OK) with true. cbv iota.
  destruct Hpos as [HA HB]; [lia|].
  assert (Hprim : forall tr0,
            open_attempts (blk, ReplicaArea)
              (EvOpen (Some z) (blk, PrimaryArea) flags SQLITE_OK :: tr0)
            = open_attempts (blk, ReplicaArea) tr0).
  { intros tr0. unfold open_attempts. simpl. unfold real_file_eqb. simpl.
    rewrite andb_false_r. reflexivity. }
  assert (Hsprim : forall tr0,
            sleeps (EvOpen (Some z) (blk, PrimaryArea) flags SQLITE_OK :: tr0)
            = sleeps tr0) by reflexivity.
  eexists w', _, z2. split; [reflexivity|]. split; [reflexivity|].
  split; [|split].
  - intros zn fl rc Hin. cbn [app] in Hin. destruct Hin as [Hin|Hin].
    + injection Hin as _ Hf _ _. discriminate Hf.
    + apply in_app_or in Hin. destruct Hin as [Hin|Hin].
      * exfalso. exact (no_open_when_no_attempt _ _ _ _ _ (Hno2 _) Hin).
      * rewrite Forall_forall in Hall. destruct (Hall _ Hin) as [Hs|[rc0 Ho]].
        -- discriminate Hs.
        -- injection Ho as -> -> _. split; reflexivity.
  - intros Hr. destruct (HA Hr) as (Hatt & tr0 & Htr).
    cbn [app]. rewrite Hprim, Hsprim, open_attempts_app, sleeps_app, Hno2, Hsl2.
    split; [simpl; exact Hatt|]. split; [simpl; lia|].
    exists ((EvOpen (Some z) (blk, PrimaryArea) flags SQLITE_OK :: tr2) ++ tr0).
    rewrite Htr, <- app_assoc. reflexivity.
  - intros Hr. destruct (HB Hr) as (Hatt & Hsl).
    cbn [app]. rewrite Hprim, Hsprim, open_attempts_app, sleeps_app, Hno2, Hsl2.
    split; simpl; assumption.
Qed.

End MoreOpening.

Lemma bind_crash {W A B} (m : M W A) (k : A -> M W B) (s : state W) (f : fault) :
  m s = Crash f -> bind m k s = Crash f.
Proof. unfold bind. intros ->. reflexivity. Qed.

Section OpenedFiles.

Context {W : Type}.
Variable E : environment W.
Variable NAME_MAX : nat.

(** The two ways [new_methods] completes. *)
Lemma new_methods_cases (p : vfsmirror_file) (sub : option sub_methods)
    (s s' : state W) (pm : option io_methods) :
  new_methods E p sub s = Done pm s' ->
  (sub = None /\ pm = pMethods p /\ s' = s)
  \/ (exists pSub w,
        sub = Some pSub /\ env_malloc E (world s) = (true, w)
        /\ s' = advance s w [EvMalloc true]
        /\ pm = Some {| iVersion := 2;
                        has_xShmMap := sub_xShmMap pSub;
                        has_xShmLock := sub_xShmLock pSub;
                        has_xShmBarrier := sub_xShmBarrier pSub;
                        has_xShmUnmap := sub_xShmUnmap pSub |}).
Proof.
  destruct sub as [pSub|].
  - unfold new_methods, bind, sqlite3_malloc, call.
    destruct (env_malloc E (world s)) as [ok w] eqn:Hm.
    destruct ok; [|discriminate]. unfold ret. intros H. injection H as <- <-.
    right. exists pSub, w. repeat split; reflexivity.
  - unfold new_methods, ret. intros H. injection H as <- <-.
    left. repeat split; reflexivity.
Qed.

(** The first steps of [vfsmirrorOpen], up to the decision on the
    replica. *)
Lemma vfsmirrorOpen_prefix (blk : nat) (p : vfsmirror_file)
    (zName : option cstring) (flags : Z) (s s' : state W) (r : Z)
    (p' : vfsmirror_file) (rc : Z) (sub : option sub_methods) (w1 : W) :
  env_xOpen E zName (blk, PrimaryArea) flags (world s) = (rc, sub, w1) ->
  vfsmirrorOpen E NAME_MAX blk p zName flags s = Done (r, p') s' ->
  exists pm s2,
    new_methods E p sub (advance s w1 [EvOpen zName (blk, PrimaryArea) flags rc])
    = Done pm s2
    /\ pMethods p' = pm
    /\ (zName = None -> zFName p' = Some (ptr_to (C "<temp>")))
    /\ (mirror_condition zName rc flags = false ->
        s' = s2 /\ r = rc /\ zFname2 p' = zFname2 p).
Proof.
  intros Hopen H. unfold vfsmirrorOpen in H.
  apply bind_inv in H as (zf & s0 & Hzf & H).
  apply lift_inv in Hzf as [Hzf ->].
  apply bind_inv in H as (ro & s1 & Hro & H).
  unfold root_xOpen, call in Hro. rewrite Hopen in Hro.
  injection Hro as <- <-. cbn [fst snd] in H.
  apply bind_inv in H as (pm & s2 & Hpm & H).
  exists pm, s2. split; [exact Hpm|].
  destruct (mirror_condition zName rc flags).
  - apply bind_inv in H as (dir & s3 & Hdir & H).
    apply bind_inv in H as (z2 & s4 & Hz2 & H).
    apply bind_inv in H as (rc1 & s5 & Hloop & H).
    unfold ret in H. injection H as <- <- <-. cbn [pMethods zFName].
    split; [reflexivity|]. split; [|intros Hf; discriminate Hf].
    intros ->. injection Hzf as <-. reflexivity.
  - unfold ret in H. injection H as <- <- <-. cbn [pMethods zFName zFname2].
    split; [reflexivity|]. split.
    + intros ->. injection Hzf as <-. reflexivity.
    + intros _. split; [reflexivity|]. split; [apply RETURN_CODE_ok_right | reflexivity].
Qed.

(** X8. An open that is not mirrored, because no name was given, the
    primary open failed or the flags name another kind of file, is a
    plain pass-through: it returns the status of the primary open, makes
    no other call than that open and the allocation of the method table,
    never sleeps, leaves [zFname2] as it was and [pReal[1]] NULL; without
    a name, [zFName] is the literal [<temp>]. *)
Theorem unmirrored_open_passes_through (blk : nat) (p : vfsmirror_file)
    (zName : option cstring) (flags : Z) (s s' : state W) (r : Z)
    (p' : vfsmirror_file) (rc : Z) (sub : option sub_methods) (w1 : W) :
  env_xOpen E zName (blk, PrimaryArea) flags (world s) = (rc, sub, w1) ->
  zName = None \/ rc <> SQLITE_OK
  \/ Z.land flags (Z.lor SQLITE_OPEN_MAIN_DB SQLITE_OPEN_MAIN_JOURNAL) = 0 ->
  vfsmirrorOpen E NAME_MAX blk p zName flags s = Done (r, p') s' ->
  r = rc
  /\ pReal0 p' = Some (blk, PrimaryArea) /\ pReal1 p' = None
  /\ zFname2 p' = zFname2 p
  /\ (zName = None -> zFName p' = Some (ptr_to (C "<temp>")))
  /\ exists w',
       s' = advance s w' [EvOpen zName (blk, PrimaryArea) flags rc]
       \/ s' = advance s w' [EvOpen zName (blk, PrimaryArea) flags rc; EvMalloc true].
Proof.
  intros Hopen Hnot H.
  assert (Hc : mirror_condition zName rc flags = false).
  { destruct (mirror_condition zName rc flags) eqn:Hc; [|reflexivity].
    apply mirror_condition_iff in Hc. destruct Hc as (H1 & H2 & H3).
    destruct Hnot as [Hn | [Hn | Hn]]; contradiction. }
  destruct (vfsmirrorOpen_inv E NAME_MAX blk p zName flags s s' r p' rc sub w1 Hopen H)
    as (wx & trx & _ & H0 & Hcase).
  rewrite Hc in Hcase. destruct Hcase as (H1 & _ & _).
  destruct (vfsmirrorOpen_prefix blk p zName flags s s' r p' rc sub w1 Hopen H)
    as (pm & s2 & Hpm & _ & Htemp & Hrest).
  destruct (Hrest Hc) as (-> & -> & Hz2).
  split; [reflexivity|]. split; [exact H0|]. split; [exact H1|].
  split; [exact Hz2|]. split; [exact Htemp|].
  apply new_methods_cases in Hpm.
  destruct Hpm as [(_ & _ & ->) | (pSub & w & _ & _ & -> & _)].
  - exists w1. left. reflexivity.
  - exists w. right. rewrite advance_advance. reflexivity.
Qed.

(** X9. The method table [vfsmirrorOpen] installs promises no more
    than the real file can do: when the primary open left methods in the
    real file, whatever its status, the file gets a table of version 2
    whose four shared-memory entries are present exactly where the real
    file has them; when it left none, [pMethods] of the file is what it
    was on entry. *)
Theorem open_installs_matching_methods (blk : nat) (p : vfsmirror_file)
    (zName : option cstring) (flags : Z) (s s' : state W) (r : Z)
    (p' : vfsmirror_file) (rc : Z) (sub : option sub_methods) (w1 : W) :
  env_xOpen E zName (blk, PrimaryArea) flags (world s) = (rc, sub, w1) ->
  vfsmirrorOpen E NAME_MAX blk p zName flags s = Done (r, p') s' ->
  match sub with
  | Some pSub =>
      exists m, pMethods p' = Some m /\ iVersion m = 2
        /\ has_xShmMap m = sub_xShmMap pSub
        /\ has_xShmLock m = sub_xShmLock pSub
        /\ has_xShmBarrier m = sub_xShmBarrier pSub
        /\ has_xShmUnmap m = sub_xShmUnmap pSub
  | None => pMethods p' = pMethods p
  end.
Proof.
  intros Hopen H.
  destruct (vfsmirrorOpen_prefix blk p zName flags s s' r p' rc sub w1 Hopen H)
    as (pm & s2 & Hpm & Hp & _).
  apply new_methods_cases in Hpm.
  destruct Hpm as [(-> & -> & _) | (pSub & w & -> & _ & _ & ->)].
  - exact Hp.
  - eexists. split; [exact Hp|]. repeat split; reflexivity.
Qed.

(** X10. [vfsmirrorOpen] does not check the result of
    [sqlite3_malloc]: when the primary open left methods in the real file
    and the allocation of the method table fails, the [memset] that
    follows goes through the NULL pointer. *)
Theorem open_crashes_when_allocation_fails (blk : nat) (p : vfsmirror_file)
    (zName : option cstring) (flags : Z) (s : state W) (rc : Z)
    (pSub : sub_methods) (w1 : W) :
  env_xOpen E zName (blk, PrimaryArea) flags (world s) = (rc, Some pSub, w1) ->
  fst (env_malloc E w1) = false ->
  vfsmirrorOpen E NAME_MAX blk p zName flags s = Crash NullDeref.
Proof.
  intros Hopen Hmal. unfold vfsmirrorOpen.
  assert (Hzf : exists zf,
            match zName with
            | Some z => fileTail (Some (ptr_to z))
            | None => Ok (Some (ptr_to (C "<temp>")))
            end = Ok zf).
  { destruct zName as [z|].
    - destruct (fileTail_no_fault z) as (q & Hq & _). exists (Some q). exact Hq.
    - eexists. reflexivity. }
  destruct Hzf as (zf & Hzf).
  rewrite (bind_done _ _ s s zf) by (apply lift_ok; exact Hzf).
  erewrite bind_done by (unfold root_xOpen, call; rewrite Hopen; reflexivity).
  cbn [fst snd]. apply bind_crash.
  unfold new_methods, bind, sqlite3_malloc, call. cbn [world advance].
  destruct (env_malloc E w1) as [ok w2]. simpl in Hmal. subst ok. reflexivity.
Qed.

(** X11. How open and the methods compose, mirrored side: on the file
    that a successful open of a named main-database or main-journal file
    has set up, every write, truncate, sync and fileControl calls the
    primary area of the block and then its replica area, and returns the
    two statuses reconciled. These are all the calls it makes, but for
    fileControl with [SQLITE_FCNTL_VFSNAME], which goes on to call
    [sqlite3_mprintf] when the primary call returned [SQLITE_OK]
    ([vfsname_events] and [vfsname_world] are that call and the world
    after it, and nothing for every other operation). *)
Theorem opened_mirror_file_reaches_both (blk : nat) (p p' : vfsmirror_file)
    (z : cstring) (flags : Z) (s s1 s2 : state W) (op : file_op)
    (rc rc1 : Z) (w w1 : W) :
  vfsmirrorOpen E NAME_MAX blk p (Some z) flags s = Done (SQLITE_OK, p') s1 ->
  Z.land flags (Z.lor SQLITE_OPEN_MAIN_DB SQLITE_OPEN_MAIN_JOURNAL) <> 0 ->
  mutating op = true ->
  env_file E (blk, PrimaryArea) op (world s2) = Some (rc, w) ->
  env_file E (blk, ReplicaArea) op w = Some (rc1, w1) ->
  vfsmirror_method E op p' s2
  = Done (RETURN_CODE rc rc1, p')
      (advance s2 (vfsname_world E op rc w1)
         (EvFile (blk, PrimaryArea) op rc
            :: EvFile (blk, ReplicaArea) op rc1
            :: vfsname_events E op rc w1)).
Proof.
  intros Hrun Hflags Hop Hc Hc1.
  destruct (env_xOpen E (Some z) (blk, PrimaryArea) flags (world s))
    as [[rc0 sub] w0] eqn:Hopen.
  destruct (vfsmirrorOpen_inv E NAME_MAX blk p (Some z) flags s s1 SQLITE_OK p'
              rc0 sub w0 Hopen Hrun) as (wx & trx & _ & H0 & Hcase).
  destruct (mirror_condition (Some z) rc0 flags) eqn:Hm.
  - destruct Hcase as (H1 & _ & _).
    exact (proj2 (mutating_dispatch E op p' s2 (blk, PrimaryArea) rc w Hop H0 Hc)
             (blk, ReplicaArea) rc1 w1 H1 Hc1).
  - destruct Hcase as (_ & _ & Hr). exfalso.
    assert (Ht : mirror_condition (Some z) rc0 flags = true).
    { apply mirror_condition_iff. repeat split; trivial; [discriminate | congruence]. }
    congruence.
Qed.

(** X12. How open and the methods compose, plain side: on the file
    that an open without a name, or with flags of another kind than main
    database and main journal, has set up, every one of the sixteen
    methods calls the primary area of the block only, returns its status,
    and leaves the replica slot NULL. *)
Theorem opened_plain_file_stays_on_primary (blk : nat) (p p' : vfsmirror_file)
    (zName : option cstring) (flags : Z) (s s1 s2 s3 : state W) (r r2 : Z)
    (op : file_op) (p2 : vfsmirror_file) :
  vfsmirrorOpen E NAME_MAX blk p zName flags s = Done (r, p') s1 ->
  zName = None
  \/ Z.land flags (Z.lor SQLITE_OPEN_MAIN_DB SQLITE_OPEN_MAIN_JOURNAL) = 0 ->
  vfsmirror_method E op p' s2 = Done (r2, p2) s3 ->
  exists rc w tr,
    env_file E (blk, PrimaryArea) op (world s2) = Some (rc, w)
    /\ s3 = advance s2 (world s3) (EvFile (blk, PrimaryArea) op rc :: tr)
    /\ only_on (blk, PrimaryArea) (EvFile (blk, PrimaryArea) op rc :: tr)
    /\ (op <> xShmBarrier -> r2 = rc)
    /\ pReal1 p2 = None.
Proof.
  intros Hrun Hkind Hm.
  destruct (env_xOpen E zName (blk, PrimaryArea) flags (world s))
    as [[rc0 sub] w0] eqn:Hopen.
  destruct (vfsmirrorOpen_inv E NAME_MAX blk p zName flags s s1 r p'
              rc0 sub w0 Hopen Hrun) as (wx & trx & _ & H0 & Hcase).
  assert (Hc : mirror_condition zName rc0 flags = false).
  { destruct (mirror_condition zName rc0 flags) eqn:Hc; [|reflexivity].
    apply mirror_condition_iff in Hc. destruct Hc as (H1 & H2 & H3).
    destruct Hkind as [Hn | Hn]; contradiction. }
  rewrite Hc in Hcase. destruct Hcase as (H1 & _ & _).
  rewrite (unmirrored_method_eq E op p' s2 (blk, PrimaryArea) H0 H1) in Hm.
  destruct (env_file E (blk, PrimaryArea) op (world s2)) as [[rc w]|];
    [|discriminate].
  assert (Hon : forall tr, Forall (fun ev => event_file ev = None) tr ->
            only_on (blk, PrimaryArea) (EvFile (blk, PrimaryArea) op rc :: tr)).
  { intros tr Htr. unfold only_on. constructor; [right; reflexivity|].
    apply Forall_impl with (2 := Htr). intros ev Hev. left. exact Hev. }
  assert (Hvfs : Forall (fun ev => event_file ev = None)
                   (vfsname_events E op rc w)).
  { unfold vfsname_events. destruct (names_vfs op rc); repeat constructor. }
  destruct op;
    try (injection Hm as <- <- <-; eexists rc, _, _;
         split; [reflexivity|]; split; [reflexivity|];
         split; [apply Hon; exact Hvfs|];
         split; [intros _; reflexivity | exact H1]).
  - destruct (rc =? SQLITE_OK).
    + injection Hm as <- <- <-. exists rc, w, [EvFree (pMethods p')].
      split; [reflexivity|]. split; [reflexivity|].
      split; [apply Hon; repeat constructor|].
      split; [intros _; reflexivity | exact H1].
    + injection Hm as <- <- <-. exists rc, w, [].
      split; [reflexivity|]. split; [reflexivity|].
      split; [apply Hon; constructor|].
      split; [intros _; reflexivity | exact H1].
  - injection Hm as <- <- <-. exists rc, w, [].
    split; [reflexivity|]. split; [reflexivity|].
    split; [apply Hon; constructor|].
    split; [intros Hn; contradiction | exact H1].
Qed.

End OpenedFiles.

(** ** Configuration, once more *)

Lemma rstrip_snoc (z : cstring) (c : ascii) :
  rstrip (z ++ [c]) = if is_sep c then rstrip z else z ++ [c].
Proof.
  induction z as [|a z IH].
  - simpl. destruct (is_sep c); reflexivity.
  - change (rstrip ((a :: z) ++ [c]))
      with (match rstrip (z ++ [c]) with
            | [] => if is_sep a then [] else [a]
            | _ :: _ => a :: rstrip (z ++ [c])
            end).
    rewrite IH. destruct (is_sep c).
    + reflexivity.
    + destruct z; reflexivity.
Qed.

Lemma rstrip_prefix (z : cstring) :
  exists t, z = rstrip z ++ t.
Proof.
  induction z as [|c z IH] using rev_ind.
  - exists []. reflexivity.
  - rewrite rstrip_snoc. destruct (is_sep c).
    + destruct IH as (t & Ht). exists (t ++ [c]).
      rewrite app_assoc, <- Ht. reflexivity.
    + exists []. rewrite app_nil_r. reflexivity.
Qed.

Lemma rstrip_length (z : cstring) :
  (List.length (rstrip z) <= List.length z)%nat.
Proof.
  destruct (rstrip_prefix z) as (t & Ht). rewrite Ht at 2.
  rewrite length_app. lia.
Qed.

Lemma plain_rstrip (z : cstring) : plain z -> plain (rstrip z).
Proof.
  unfold plain. intros H. destruct (rstrip_prefix z) as (t & Ht).
  rewrite Ht in H. apply Forall_app in H. exact (proj1 H).
Qed.

Lemma printf_noargs_plain (z : cstring) : plain z -> printf_noargs z = Ok z.
Proof.
  induction 1 as [|c z [_ Hc] Hz IH]; [reflexivity|].
  simpl printf_noargs.
  destruct (Ascii.eqb_spec c "%"%char) as [He|_]; [contradiction|].
  rewrite IH. reflexivity.
Qed.

Lemma snprintf_plain (b : list ascii) (N : nat) (z : cstring) :
  plain z -> (List.length z < N)%nat -> List.length b = N ->
  snprintf b N z = Ok (z ++ NUL :: skipn (S (List.length z)) b).
Proof.
  intros Hz Hl Hb. unfold snprintf. rewrite (printf_noargs_plain z Hz), rbind_ok.
  destruct N as [|m]; [lia|].
  rewrite firstn_exact by lia. unfold buf_fill.
  rewrite length_app. simpl List.length.
  destruct (Nat.leb_spec (List.length z + 1) (List.length b)) as [_|Hf]; [|lia].
  rewrite <- app_assoc. simpl.
  replace (List.length z + 1)%nat with (S (List.length z)) by lia. reflexivity.
Qed.

Lemma c_str_terminated (a r : list ascii) :
  Forall (fun c => c <> NUL) a -> c_str (a ++ NUL :: r) = Some a.
Proof.
  induction 1 as [|c a Hc Ha IH]; [reflexivity|].
  simpl. destruct (Ascii.eqb_spec c NUL) as [He|_]; [contradiction|].
  simpl in IH. rewrite IH. reflexivity.
Qed.

Lemma not_sep_cond (c : ascii) (n : nat) :
  is_sep c = false ->
  ((c =? "/")%char || ((c =? "\")%char && (0 <? Z.of_nat n))) = false.
Proof.
  unfold is_sep. intros H. apply orb_false_iff in H. destruct H as [-> ->].
  reflexivity.
Qed.

Lemma firstn_prefix {A} (a b : list A) : firstn (List.length a) (a ++ b) = a.
Proof.
  rewrite firstn_app, Nat.sub_diag, firstn_all. simpl. apply app_nil_r.
Qed.

Lemma skipn_past {A} (a b : list A) (c : A) :
  skipn (S (List.length a)) (a ++ c :: b) = b.
Proof.
  rewrite skipn_app, skipn_all2 by lia.
  replace (S (List.length a) - List.length a)%nat with 1%nat by lia.
  reflexivity.
Qed.

(** On an array that starts with a string with something other than
    separators in it, the loop clears the trailing separators and stops
    with [converted] on the length of what is left. *)
Lemma trim_loop_strip (z : cstring) :
  forall rest,
    rstrip z <> [] ->
    Z.of_nat (List.length (z ++ rest)) <= 2 ^ 63 ->
    trim_loop (z ++ rest) (List.length z)
    = Ok (rstrip z ++ repeat NUL (List.length z - List.length (rstrip z)) ++ rest,
          List.length (rstrip z)).
Proof.
  induction z as [|c z IH] using rev_ind; intros rest Hne Hlen.
  - contradiction.
  - assert (Hlz : List.length (z ++ [c]) = S (List.length z))
      by (rewrite length_app; simpl; lia).
    assert (Hb : (z ++ [c]) ++ rest = z ++ c :: rest)
      by (rewrite <- app_assoc; reflexivity).
    rewrite Hb in Hlen |- *. rewrite Hlz.
    assert (Hzl : List.length (z ++ c :: rest)
                  = (List.length z + S (List.length rest))%nat)
      by (rewrite length_app; reflexivity).
    rewrite trim_loop_eq.
    replace (Z.of_nat (S (List.length z)) - 1) with (Z.of_nat (List.length z)) by lia.
    rewrite size_t_index_small by lia.
    rewrite buf_read_in by (unfold len; lia).
    rewrite rbind_ok, Nat2Z.id, nth_middle.
    rewrite rstrip_snoc in Hne |- *. destruct (is_sep c) eqn:Hc.
    + assert (Hcond : ((c =? "/")%char
                       || ((c =? "\")%char && (0 <? Z.of_nat (S (List.length z))))) = true).
      { destruct (is_sep_cases _ Hc) as [-> | ->]; reflexivity. }
      rewrite Hcond.
      rewrite buf_write_in by (unfold len; lia).
      rewrite rbind_ok, Nat2Z.id, firstn_prefix, skipn_past.
      rewrite (IH (NUL :: rest) Hne)
        by (rewrite length_app in *; simpl in *; lia).
      pose proof (rstrip_length z) as Hle.
      replace (S (List.length z) - List.length (rstrip z))%nat
        with (S (List.length z - List.length (rstrip z))) by lia.
      simpl repeat. rewrite repeat_cons, <- app_assoc. reflexivity.
    + rewrite (not_sep_cond c _ Hc). rewrite Hlz, Nat.sub_diag.
      simpl repeat. rewrite <- Hb. reflexivity.
Qed.

Lemma printf_noargs_conversion (pre rest : cstring) (c : ascii) :
  Forall (fun a => a <> "%"%char) pre ->
  c <> "%"%char ->
  printf_noargs (pre ++ "%"%char :: c :: rest) = Fault BadFormat.
Proof.
  intros Hpre Hc. induction Hpre as [|a pre Ha Hp IH].
  - simpl.
    destruct (Ascii.eqb_spec c "%"%char) as [He|_]; [contradiction | reflexivity].
  - simpl app. simpl printf_noargs.
    destruct (Ascii.eqb_spec a "%"%char) as [He|_]; [contradiction|].
    simpl app in IH. rewrite IH. reflexivity.
Qed.

Lemma takes_argument_not_percent (c : ascii) :
  takes_argument c = true -> c <> "%"%char.
Proof. intros H ->. vm_compute in H. discriminate H. Qed.

Lemma buf_write_inv (b b' : list ascii) (i : Z) (c : ascii) :
  buf_write b i c = Ok b' ->
  List.length b' = List.length b /\ In c b'.
Proof.
  unfold buf_write, len.
  destruct (Z.leb_spec 0 i) as [Hi0|]; [|discriminate].
  destruct (Z.ltb_spec i (Z.of_nat (List.length b))) as [Hi1|]; [|discriminate].
  cbn [andb]. intros Hw. injection Hw as <-. split.
  - apply length_after_write. lia.
  - apply in_or_app. right. left. reflexivity.
Qed.

(** The loop never changes the size of the array and leaves a NUL in an
    array that had one. *)
Lemma trim_loop_keeps (n : nat) :
  forall b b' n',
    trim_loop b n = Ok (b', n') ->
    List.length b' = List.length b /\ (In NUL b -> In NUL b').
Proof.
  induction n as [|n IH]; intros b b' n'; rewrite trim_loop_eq.
  - destruct (buf_read b (size_t_index (Z.of_nat 0 - 1))) as [c|]; [|discriminate].
    rewrite rbind_ok.
    destruct ((c =? "/")%char || ((c =? "\")%char && (0 <? Z.of_nat 0)));
      [discriminate|].
    intros H. injection H as <- _. split; [reflexivity | trivial].
  - destruct (buf_read b (size_t_index (Z.of_nat (S n) - 1))) as [c|]; [|discriminate].
    rewrite rbind_ok.
    destruct ((c =? "/")%char || ((c =? "\")%char && (0 <? Z.of_nat (S n)))).
    + destruct (buf_write b (Z.of_nat n) NUL) as [b1|] eqn:Hw; [|discriminate].
      rewrite rbind_ok. intros H. apply IH in H as [Hl Hin].
      apply buf_write_inv in Hw as [Hl1 Hin1].
      split; [congruence | intros _; apply Hin; exact Hin1].
    + intros H. injection H as <- _. split; [reflexivity | trivial].
Qed.

Lemma snprintf_keeps (b b1 : list ascii) (N : nat) (fmt : cstring) :
  snprintf b N fmt = Ok b1 -> List.length b = N ->
  List.length b1 = N /\ (In NUL b -> In NUL b1).
Proof.
  unfold snprintf. destruct (printf_noargs fmt) as [out|]; [|discriminate].
  rewrite rbind_ok. destruct N as [|m].
  - intros H Hb. injection H as <-. split; trivial.
  - unfold buf_fill.
    destruct (Nat.leb_spec (List.length (firstn m out ++ [NUL])) (List.length b))
      as [Hle|]; [|discriminate].
    intros H Hb. injection H as <-. split.
    + rewrite length_app, length_skipn. lia.
    + intros _. apply in_or_app. left. apply in_or_app. right. left. reflexivity.
Qed.

Section MoreConfiguration.

Context {W : Type}.
Variable E : environment W.
Variable NAME_MAX : nat.

(** [vfsmirror_register] always completes, with the calls listed by
    [registration_events]. *)
Lemma vfsmirror_register_run (n : cstring) (o : option cstring) (d : Z)
    (s : state W) :
  exists rc w,
    vfsmirror_register E n o d s
    = Done rc (advance s w (registration_events E n o d (world s)))
    /\ (existsb is_vfs_register (registration_events E n o d (world s)) = false ->
        rc = SQLITE_NOTFOUND \/ rc = SQLITE_NOMEM).
Proof.
  unfold vfsmirror_register, registration_events, bind, sqlite3_vfs_find,
    sqlite3_malloc, sqlite3_vfs_register, call, ret.
  destruct (env_vfs_find E o (world s)); cbn [negb world advance].
  - destruct (env_malloc E (world s)) as [ok w1].
    destruct ok; cbn [negb fst snd world advance].
    + destruct (env_vfs_register E n d w1) as [rc w2]. exists rc, w2.
      cbn [fst]. split; [|intros H; discriminate H].
      unfold advance. cbn [zSlaveDir registered world trace].
      rewrite <- !app_assoc. reflexivity.
    + exists SQLITE_NOMEM, w1. split; [|intros _; right; reflexivity].
      unfold advance. cbn [zSlaveDir registered world trace].
      rewrite <- !app_assoc. reflexivity.
  - exists SQLITE_NOTFOUND, (world s).
    split; [reflexivity | intros _; left; reflexivity].
Qed.

(** X13. The acceptance rule of [set_mirror_directory] on a first call
    whose path is a plain string (no [%] in it) shorter than [NAME_MAX]
    with more than separators in it: the call returns 1 exactly when the
    path without its trailing separators has at least 2 characters and
    names an existing directory, 0 otherwise; the one-shot flag is set
    exactly when it returns 1; and the stripped path is what
    [zSlaveDir] holds afterwards, accepted or not. *)
Theorem set_mirror_directory_accepts (z : cstring) (s : state W) :
  registered s = 0 ->
  plain z -> rstrip z <> [] ->
  (List.length z < NAME_MAX)%nat ->
  List.length (zSlaveDir s) = NAME_MAX ->
  Z.of_nat NAME_MAX <= 2 ^ 63 ->
  let accepted :=
    (2 <=? List.length (rstrip z))%nat && env_dirExists E (rstrip z) (world s) in
  exists s',
    set_mirror_directory E NAME_MAX (Some z) s
    = Done (if accepted then 1 else 0) s'
    /\ registered s' = (if accepted then 1 else 0)
    /\ c_str (zSlaveDir s') = Some (rstrip z)
    /\ List.length (zSlaveDir s') = NAME_MAX.
Proof.
  intros Hreg Hz Hne Hl Hb HN accepted. subst accepted.
  unfold set_mirror_directory.
  erewrite bind_done by reflexivity. rewrite Hreg.
  change (negb (0 =? 0)) with false. cbv iota.
  erewrite bind_done by reflexivity.
  destruct (Nat.leb_spec NAME_MAX (List.length z)) as [Hbad|_]; [lia|].
  erewrite bind_done by reflexivity.
  erewrite bind_done
    by (apply lift_ok; apply (snprintf_plain _ NAME_MAX z Hz Hl Hb)).
  erewrite bind_done by reflexivity.
  set (tail := NUL :: skipn (S (List.length z)) (zSlaveDir s)).
  assert (Hlen1 : List.length (z ++ tail) = NAME_MAX).
  { unfold tail. rewrite length_app. cbn [List.length]. rewrite length_skipn. lia. }
  erewrite bind_done
    by (apply lift_ok; apply (trim_loop_strip z tail Hne); rewrite Hlen1; exact HN).
  cbn [fst snd]. erewrite bind_done by reflexivity.
  set (b2 := rstrip z ++ repeat NUL (List.length z - List.length (rstrip z)) ++ tail).
  assert (Hc : c_str b2 = Some (rstrip z)).
  { assert (Hex : exists r, repeat NUL (List.length z - List.length (rstrip z)) ++ tail
                            = NUL :: r).
    { destruct (List.length z - List.length (rstrip z))%nat; eexists; reflexivity. }
    destruct Hex as (r & Hr). unfold b2. rewrite Hr.
    apply c_str_terminated. pose proof (plain_rstrip z Hz) as Hp.
    unfold plain in Hp. rewrite Forall_forall in *. intros c Hin.
    exact (proj1 (Hp c Hin)). }
  assert (Hlen2 : List.length b2 = NAME_MAX).
  { unfold b2. rewrite !length_app, repeat_length.
    pose proof (rstrip_length z). rewrite length_app in Hlen1. lia. }
  destruct (Nat.ltb_spec (List.length (rstrip z)) 2) as [Hshort|Hlong].
  - destruct (Nat.leb_spec 2 (List.length (rstrip z))) as [Hc2|_]; [lia|].
    simpl andb. cbv iota. unfold ret. eexists. split; [reflexivity|].
    cbn [registered zSlaveDir]. repeat split; assumption.
  - destruct (Nat.leb_spec 2 (List.length (rstrip z))) as [_|Hc2]; [|lia].
    simpl andb.
    erewrite bind_done by (apply lift_ok; cbn [zSlaveDir]; rewrite Hc; reflexivity).
    unfold dirExists. erewrite bind_done by reflexivity. cbn [world].
    destruct (env_dirExists E (rstrip z) (world s)); cbn [negb]; cbv iota.
    + erewrite bind_done by reflexivity.
      match goal with
      | |- context [bind (vfsmirror_register E ?n ?o ?d) _ ?st] =>
          destruct (vfsmirror_register_run n o d st) as (rc & w & Hrun & _)
      end.
      erewrite bind_done by exact Hrun. unfold ret.
      eexists. split; [reflexivity|]. cbn [registered zSlaveDir advance].
      repeat split; assumption.
    + unfold ret. eexists. split; [reflexivity|].
      cbn [registered zSlaveDir advance]. repeat split; assumption.
Qed.

(** X14. The array [zSlaveDir] stays terminated: if it has its
    [NAME_MAX] characters and a NUL among them, so it does after every
    call of [set_mirror_directory] that completes, whatever the path and
    the result; [strncpy] in [vfsmirrorReplicaPath] then always finds the
    end of the directory inside the array. *)
Theorem zSlaveDir_stays_terminated (q : option cstring) (s s' : state W) (r : Z) :
  dir_terminated NAME_MAX s ->
  set_mirror_directory E NAME_MAX q s = Done r s' ->
  dir_terminated NAME_MAX s'
  /\ exists dir, strncpy (zSlaveDir s') NAME_MAX = Ok dir.
Proof.
  intros [Hlen Hnul] H.
  assert (Hgoal : dir_terminated NAME_MAX s').
  { unfold set_mirror_directory in H.
    apply bind_inv in H as (reg & s0 & Hm & H).
    unfold get_registered in Hm. injection Hm as _ <-.
    destruct (negb (reg =? 0)).
    { unfold ret in H. injection H as _ <-. split; assumption. }
    apply bind_inv in H as (z & s1 & Hm & H). apply lift_inv in Hm as [_ ->].
    destruct (NAME_MAX <=? List.length z)%nat.
    { unfold ret in H. injection H as _ <-. split; assumption. }
    apply bind_inv in H as (b0 & s2 & Hm & H).
    unfold get_zSlaveDir in Hm. injection Hm as <- <-.
    apply bind_inv in H as (b1 & s3 & Hm & H). apply lift_inv in Hm as [Hsn ->].
    apply bind_inv in H as (u1 & s4 & Hm & H).
    unfold set_zSlaveDir in Hm. injection Hm as _ <-.
    apply bind_inv in H as (t & s5 & Hm & H). apply lift_inv in Hm as [Htrim ->].
    apply bind_inv in H as (u2 & s6 & Hm & H).
    unfold set_zSlaveDir in Hm. injection Hm as _ <-.
    destruct (snprintf_keeps _ _ _ _ Hsn Hlen) as [Hl1 Hn1].
    destruct t as [b2 c]. destruct (trim_loop_keeps _ _ _ _ Htrim) as [Hl2 Hn2].
    cbn [fst snd world registered trace] in H.
    assert (Hdone : forall st : state W,
              zSlaveDir st = b2 -> dir_terminated NAME_MAX st).
    { intros st Hst. unfold dir_terminated. rewrite Hst.
      split; [congruence | apply Hn2, Hn1, Hnul]. }
    destruct (c <? 2)%nat.
    { unfold ret in H. injection H as _ <-. apply Hdone. reflexivity. }
    apply bind_inv in H as (d & s7 & Hm & H). apply lift_inv in Hm as [_ ->].
    apply bind_inv in H as (ex & s8 & Hm & H).
    unfold dirExists, call in Hm. injection Hm as _ <-.
    destruct (negb ex).
    { unfold ret in H. injection H as _ <-. apply Hdone. reflexivity. }
    apply bind_inv in H as (u3 & s9 & Hm & H).
    unfold set_registered in Hm. injection Hm as _ <-.
    apply bind_inv in H as (rc & s10 & Hm & H).
    apply vfsmirror_register_keeps_statics in Hm. destruct Hm as [_ Hz].
    unfold ret in H. injection H as _ <-. apply Hdone. rewrite Hz. reflexivity. }
  split; [exact Hgoal|].
  destruct Hgoal as [Hl' Hn']. unfold strncpy.
  rewrite firstn_exact by lia.
  assert (Hc : forall b, In NUL b -> exists d, c_str b = Some d).
  { induction b as [|c b IHb]; intros Hin; [contradiction|]. simpl.
    destruct (Ascii.eqb_spec c NUL) as [_|Hne]; [eexists; reflexivity|].
    destruct Hin as [He|Hin]; [congruence|].
    destruct (IHb Hin) as (d & ->). eexists. reflexivity. }
  destruct (Hc _ Hn') as (d & ->). exists d. reflexivity.
Qed.

(** X15. [set_mirror_directory] hands the path to [snprintf] as the
    format: on a first call with a path shorter than [NAME_MAX] whose
    first [%] is followed by a conversion specifier that takes an
    argument (one of [d i o u x X e E f F g G a A c s p n]), [snprintf]
    takes an argument that was never passed. *)
Theorem set_mirror_directory_path_is_format (pre rest : cstring) (c : ascii)
    (s : state W) :
  registered s = 0 ->
  (List.length (pre ++ "%"%char :: c :: rest) < NAME_MAX)%nat ->
  Forall (fun a => a <> "%"%char) pre ->
  takes_argument c = true ->
  set_mirror_directory E NAME_MAX (Some (pre ++ "%"%char :: c :: rest)) s
  = Crash BadFormat.
Proof.
  intros Hreg Hl Hpre Hc. unfold set_mirror_directory.
  erewrite bind_done by reflexivity. rewrite Hreg.
  change (negb (0 =? 0)) with false. cbv iota.
  erewrite bind_done by reflexivity.
  destruct (Nat.leb_spec NAME_MAX (List.length (pre ++ "%"%char :: c :: rest)))
    as [Hbad|_]; [lia|].
  erewrite bind_done by reflexivity.
  apply bind_crash. unfold lift, snprintf.
  rewrite (printf_noargs_conversion pre rest c Hpre
             (takes_argument_not_percent c Hc)).
  reflexivity.
Qed.

(** X16. [set_mirror_directory] ignores the result of
    [vfsmirror_register]: a call that returns 1 has checked the directory
    and then made the calls of [vfsmirror_register("trace", 0, ..., 1)],
    and it returns 1 with the one-shot flag set also when the root VFS
    was not found or the allocation failed, in which case no VFS was
    registered and, the flag being set, no later call can register one. *)
Theorem set_mirror_directory_ignores_registration (p : option cstring)
    (s s' : state W) :
  set_mirror_directory E NAME_MAX p s = Done 1 s' ->
  registered s' = 1
  /\ exists d,
       trace s' = trace s ++ EvDirExists d true
                    :: registration_events E (C "trace") None 1 (world s)
  /\ existsb is_vfs_register (registration_events E (C "trace") None 1 (world s))
     = env_vfs_find E None (world s) && fst (env_malloc E (world s)).
Proof.
  intros H. split; [exact (set_mirror_directory_success E NAME_MAX p s s' H)|].
  unfold set_mirror_directory in H.
  apply bind_inv in H as (reg & s0 & Hm & H).
  unfold get_registered in Hm. injection Hm as _ <-.
  destruct (negb (reg =? 0)); [discriminate H|].
  apply bind_inv in H as (z & s1 & Hm & H). apply lift_inv in Hm as [_ ->].
  destruct (NAME_MAX <=? List.length z)%nat; [discriminate H|].
  apply bind_inv in H as (b0 & s2 & Hm & H).
  unfold get_zSlaveDir in Hm. injection Hm as _ <-.
  apply bind_inv in H as (b1 & s3 & Hm & H). apply lift_inv in Hm as [_ ->].
  apply bind_inv in H as (u1 & s4 & Hm & H).
  unfold set_zSlaveDir in Hm. injection Hm as _ <-.
  apply bind_inv in H as (t & s5 & Hm & H). apply lift_inv in Hm as [_ ->].
  apply bind_inv in H as (u2 & s6 & Hm & H).
  unfold set_zSlaveDir in Hm. injection Hm as _ <-.
  cbn [world registered trace] in H.
  destruct (snd t <? 2)%nat; [discriminate H|].
  apply bind_inv in H as (d & s7 & Hm & H). apply lift_inv in Hm as [_ ->].
  apply bind_inv in H as (ex & s8 & Hm & H).
  unfold dirExists, call in Hm. cbn [world] in Hm. injection Hm as <- <-.
  destruct (env_dirExists E d (world s)) eqn:Hex; cbn [negb] in H; [|discriminate H].
  apply bind_inv in H as (u3 & s9 & Hm & H).
  unfold set_registered in Hm. injection Hm as _ <-.
  apply bind_inv in H as (rc & s10 & Hm & H).
  match type of Hm with
  | vfsmirror_register E ?n ?o ?dd ?st = _ =>
      destruct (vfsmirror_register_run n o dd st) as (rc' & w & Hrun & _)
  end.
  rewrite Hrun in Hm. injection Hm as _ <-.
  unfold ret in H. injection H as <-.
  exists d. cbn [trace advance world]. split.
  - rewrite <- app_assoc. reflexivity.
  - unfold registration_events.
    destruct (env_vfs_find E None (world s)); [|reflexivity].
    destruct (fst (env_malloc E (world s))); reflexivity.
Qed.

End MoreConfiguration.

(** ** Open and delete on the same name *)

(** The replica path is the same whether the path or the pointer
    [fileTail] returned for it is passed. *)
Lemma replica_path_via_tail (N : nat) (dirbuf : list ascii) (z : cstring)
    (zf : option char_ptr) :
  z <> [] -> len z < 2 ^ 31 ->
  fileTail (Some (ptr_to z)) = Ok zf ->
  vfsmirrorReplicaPath dirbuf zf N
  = vfsmirrorReplicaPath dirbuf (Some (ptr_to z)) N.
Proof.
  intros Hz Hl Hzf. rewrite (fileTail_pointer z Hz Hl) in Hzf.
  injection Hzf as <-.
  rewrite (vfsmirrorReplicaPath_tail N dirbuf z Hz Hl).
  unfold vfsmirrorReplicaPath.
  destruct (strncpy dirbuf N) as [d0|f]; [|reflexivity]. rewrite !rbind_ok.
  destruct (strncat N d0 (C "\") N) as [d1|f]; [|reflexivity]. rewrite !rbind_ok.
  rewrite (fileTail_on_tail z Hz Hl), rbind_ok.
  destruct (tail_pointer_valid z Hz) as [Hv Hp].
  rewrite (c_string_valid _ Hv), rbind_ok, Hp. reflexivity.
Qed.

Section OpenAndDelete.

Context {W : Type}.
Variable E : environment W.
Variable NAME_MAX : nat.

(** The replica path a mirrored open resolved. *)
Lemma vfsmirrorOpen_replica_path (blk : nat) (p : vfsmirror_file) (z : cstring)
    (flags : Z) (s s' : state W) (r : Z) (p' : vfsmirror_file) :
  vfsmirrorOpen E NAME_MAX blk p (Some z) flags s = Done (r, p') s' ->
  pReal1 p' <> None ->
  exists zf z2,
    fileTail (Some (ptr_to z)) = Ok zf
    /\ vfsmirrorReplicaPath (zSlaveDir s) zf NAME_MAX = Ok z2
    /\ zFname2 p' = Some z2.
Proof.
  intros H Hmir. unfold vfsmirrorOpen in H.
  apply bind_inv in H as (zf & s0 & Hzf & H).
  apply lift_inv in Hzf as [Hzf ->].
  apply bind_inv in H as (ro & s1 & Hro & H).
  apply (steady_call (env_xOpen E (Some z) (blk, PrimaryArea) flags)) in Hro.
  apply bind_inv in H as (pm & s2 & Hpm & H).
  apply new_methods_inv in Hpm as (w2 & tr2 & -> & _).
  destruct (mirror_condition (Some z) (fst ro) flags).
  - apply bind_inv in H as (dir & s3 & Hdir & H).
    unfold get_zSlaveDir in Hdir. injection Hdir as <- <-.
    apply bind_inv in H as (z2 & s4 & Hz2 & H).
    apply lift_inv in Hz2 as [Hz2 ->].
    apply bind_inv in H as (rc1 & s5 & Hloop & H).
    unfold ret in H. injection H as _ <- _.
    exists zf, z2. split; [exact Hzf|]. split; [|reflexivity].
    destruct Hro as (w1 & tr1 & ->). exact Hz2.
  - unfold ret in H. injection H as _ <- _. exfalso. apply Hmir. reflexivity.
Qed.

(** X17. Open and delete agree on the replica: for a non-empty name,
    the replica path that a mirrored open resolved and kept in [zFname2]
    is the path that [vfsmirrorDelete] of the same name deletes after the
    primary, as long as the replica directory is the same. *)
Theorem delete_removes_the_replica_open_made (blk : nat) (p p' : vfsmirror_file)
    (z z2 : cstring) (flags dirSync : Z) (s s1 s2 : state W) (r rc rc1 : Z)
    (w1 w2 : W) :
  z <> [] -> len z < 2 ^ 31 ->
  vfsmirrorOpen E NAME_MAX blk p (Some z) flags s = Done (r, p') s1 ->
  pReal1 p' <> None -> zFname2 p' = Some z2 ->
  zSlaveDir s2 = zSlaveDir s ->
  env_xDelete E (Some z) dirSync (world s2) = (rc, w1) ->
  env_xDelete E (Some z2) dirSync w1 = (rc1, w2) ->
  vfsmirrorDelete E NAME_MAX (Some z) dirSync s2
  = Done (RETURN_CODE rc rc1)
      (advance s2 w2 [EvDelete (Some z) dirSync rc;
                      EvDelete (Some z2) dirSync rc1]).
Proof.
  intros Hz Hl Hopen Hmir Hf2 Hdir Hd Hd1.
  destruct (vfsmirrorOpen_replica_path blk p z flags s s1 r p' Hopen Hmir)
    as (zf & z2' & Hzf & Hpath & Hf2').
  assert (z2' = z2) by congruence. subst z2'.
  rewrite (replica_path_via_tail NAME_MAX (zSlaveDir s) z zf Hz Hl Hzf) in Hpath.
  unfold vfsmirrorDelete, bind, root_xDelete, call, get_zSlaveDir, lift, ret.
  rewrite Hd. cbn [zSlaveDir advance option_map]. rewrite Hdir, Hpath.
  cbn [world advance]. rewrite Hd1.
  unfold advance. cbn [zSlaveDir registered world trace].
  rewrite <- app_assoc. reflexivity.
Qed.

End OpenAndDelete.

(** ** strappend, lockName and the size of a file *)

Lemma write_then_firstn (z : list ascii) (n : nat) (c : ascii) :
  (n < List.length z)%nat ->
  firstn (S n) (firstn n z ++ c :: skipn (S n) z) = firstn n z ++ [c].
Proof.
  intros Hn.
  assert (Hl : List.length (firstn n z) = n) by (rewrite length_firstn; lia).
  rewrite firstn_app, Hl, firstn_all2 by lia.
  replace (S n - n)%nat with 1%nat by lia. reflexivity.
Qed.

Lemma write_then_skipn (z : list ascii) (n m : nat) (c : ascii) :
  (n < List.length z)%nat ->
  skipn (S n + m) (firstn n z ++ c :: skipn (S n) z) = skipn (S n + m) z.
Proof.
  intros Hn.
  assert (Hl : List.length (firstn n z) = n) by (rewrite length_firstn; lia).
  rewrite skipn_app, Hl, skipn_all2 by lia.
  replace (S n + m - n)%nat with (S m) by lia.
  cbn [app]. rewrite skipn_cons, skipn_skipn. f_equal. lia.
Qed.

(** X18. [strappend] on an array shorter than 2^31 with the index
    inside it: when the appended string and its terminator fit behind the
    index, the array holds them there and is otherwise unchanged, and the
    new index is the old one plus the length of the string; when they do
    not fit, characters are written up to the end of the array and the
    next write falls outside it. No bound is checked. *)
Theorem strappend_fits_or_overruns (a : cstring) :
  forall (z : list ascii) (i : Z),
    0 <= i <= len z -> len z < 2 ^ 31 ->
    strappend z i a
    = if i + len a <? len z
      then Ok (firstn (Z.to_nat i) z ++ a
                 ++ NUL :: skipn (Z.to_nat i + List.length a + 1) z,
               i + len a)
      else Fault (OobWrite (len z)).
Proof.
  induction a as [|c r IH]; intros z i Hi Hz.
  - simpl strappend. change (len []) with 0. rewrite Z.add_0_r.
    destruct (Z.ltb_spec i (len z)) as [Hlt|Hge].
    + rewrite buf_write_in by lia. rewrite rbind_ok. simpl app.
      replace (Z.to_nat i + 0 + 1)%nat with (S (Z.to_nat i)) by lia. reflexivity.
    + assert (i = len z) by lia. subst i. unfold buf_write.
      rewrite Z.ltb_irrefl, andb_false_r. reflexivity.
  - simpl strappend.
    assert (Hlen : len (c :: r) = 1 + len r) by (unfold len; simpl List.length; lia).
    rewrite Hlen.
    destruct (Z.ltb_spec i (len z)) as [Hlt|Hge].
    + rewrite buf_write_in by lia. rewrite rbind_ok.
      rewrite to_int_small by lia.
      set (n := Z.to_nat i).
      assert (Hn : (n < List.length z)%nat) by (unfold n, len in *; lia).
      assert (Hl' : len (firstn n z ++ c :: skipn (S n) z) = len z).
      { unfold len. rewrite length_after_write by exact Hn. reflexivity. }
      rewrite IH by (rewrite Hl'; lia). rewrite Hl'.
      replace (i + 1 + len r) with (i + (1 + len r)) by lia.
      destruct (Z.ltb_spec (i + (1 + len r)) (len z)); [|reflexivity].
      replace (Z.to_nat (i + 1)) with (S n) by (unfold n; lia).
      rewrite write_then_firstn by exact Hn.
      replace (S n + List.length r + 1)%nat with (S n + (List.length r + 1))%nat by lia.
      rewrite write_then_skipn by exact Hn.
      rewrite <- app_assoc. simpl app. simpl List.length.
      replace (n + S (List.length r) + 1)%nat
        with (S n + (List.length r + 1))%nat by lia.
      reflexivity.
    + assert (i = len z) by lia. subst i. unfold buf_write.
      rewrite Z.ltb_irrefl, andb_false_r. simpl rbind.
      destruct (Z.ltb_spec (len z + (1 + len r)) (len z)); [|reflexivity].
      unfold len in *. lia.
Qed.

Lemma buf_write_overwrite (z z1 : list ascii) (i : Z) (x y : ascii) :
  buf_write z i x = Ok z1 -> buf_write z1 i y = buf_write z i y.
Proof.
  unfold buf_write, len.
  destruct (Z.leb_spec 0 i) as [Hi0|]; [|discriminate].
  destruct (Z.ltb_spec i (Z.of_nat (List.length z))) as [Hi1|]; [|discriminate].
  cbn [andb]. intros Hw. injection Hw as <-.
  assert (Hn : (Z.to_nat i < List.length z)%nat) by lia.
  rewrite length_after_write by exact Hn.
  destruct (Z.ltb_spec i (Z.of_nat (List.length z))); [|lia]. cbn [andb].
  assert (Hl : List.length (firstn (Z.to_nat i) z) = Z.to_nat i)
    by (rewrite length_firstn; lia).
  f_equal. f_equal.
  - rewrite <- Hl at 1. apply firstn_prefix.
  - f_equal. rewrite <- Hl at 1. apply skipn_past.
Qed.

(** X19. Two calls of [strappend] in a row are one call with the two
    strings joined: if the first call completes, the second call on the
    array and the index it left does what a single call with [a ++ b]
    does on the original array, result or overrun alike. *)
Theorem strappend_twice (a b : cstring) :
  forall (z z1 : list ascii) (i i1 : Z),
    strappend z i a = Ok (z1, i1) ->
    strappend z1 i1 b = strappend z i (a ++ b).
Proof.
  induction a as [|c r IH]; intros z z1 i i1 H.
  - simpl in H. destruct (buf_write z i NUL) as [z'|] eqn:Hw; [|discriminate].
    rewrite rbind_ok in H. injection H as <- <-. simpl app.
    destruct b as [|d b]; simpl strappend;
      rewrite (buf_write_overwrite _ _ _ _ _ Hw); reflexivity.
  - simpl in H. destruct (buf_write z i c) as [z'|] eqn:Hw; [|discriminate].
    rewrite rbind_ok in H. simpl app. simpl strappend. rewrite Hw, rbind_ok.
    apply IH. exact H.
Qed.

(** X20. [lockName] never reads outside its table: for every [int] it
    returns a name, which is [???] exactly when the lock level is below 0
    or above 4, and the five lock levels have five different names. *)
Theorem lockName_stays_in_table (eLock other : Z) :
  - 2 ^ 31 <= eLock < 2 ^ 31 ->
  (exists name, lockName eLock = Ok name
     /\ (name = C "???" <-> eLock < 0 \/ 4 < eLock))
  /\ (0 <= eLock <= 4 -> 0 <= other <= 4 ->
      lockName eLock = lockName other -> eLock = other).
Proof.
  intros Hint. split.
  - destruct (Z.lt_ge_cases eLock 0) as [Hneg|Hpos].
    + exists (C "???"). unfold lockName.
      destruct (Z.ltb_spec eLock 0); [|lia].
      split; [reflexivity | split; [intros _; left; exact Hneg | reflexivity]].
    + destruct (Z.lt_ge_cases 4 eLock) as [Hbig|Hsmall].
      * exists (C "???"). unfold lockName. rewrite Z.mod_small by lia.
        destruct (Z.leb_spec (Z.of_nat (List.length azLockNames)) eLock) as [_|Hc];
          [|simpl in Hc; lia].
        rewrite orb_true_r.
        split; [reflexivity | split; [intros _; right; exact Hbig | reflexivity]].
      * assert (Hc : eLock = 0 \/ eLock = 1 \/ eLock = 2 \/ eLock = 3 \/ eLock = 4)
          by lia.
        destruct Hc as [-> | [-> | [-> | [-> | ->]]]];
          (eexists; split; [reflexivity|];
           split; [intros Hq; discriminate Hq | intros [Hq|Hq]; lia]).
  - intros He Ho.
    assert (Hc : eLock = 0 \/ eLock = 1 \/ eLock = 2 \/ eLock = 3 \/ eLock = 4) by lia.
    assert (Hd : other = 0 \/ other = 1 \/ other = 2 \/ other = 3 \/ other = 4) by lia.
    destruct Hc as [-> | [-> | [-> | [-> | ->]]]];
      destruct Hd as [-> | [-> | [-> | [-> | ->]]]];
      intros Heq; try reflexivity; vm_compute in Heq; discriminate Heq.
Qed.

(** X21. The size [vfsmirror_register] announces for a file and the
    pointers [vfsmirrorOpen] computes fit together: when twice the size
    of a real file plus the header is an [int], the header, the primary
    area and the replica area follow one another without overlap and the
    replica area ends exactly at the announced size. *)
Theorem real_files_fit_the_block (root_szOsFile sizeof_file : Z) :
  0 <= root_szOsFile -> 0 <= sizeof_file ->
  2 * root_szOsFile + sizeof_file < 2 ^ 31 ->
  sizeof_file <= pReal0_offset sizeof_file
  /\ pReal0_offset sizeof_file + root_szOsFile
     <= pReal1_offset root_szOsFile sizeof_file
  /\ pReal1_offset root_szOsFile sizeof_file + root_szOsFile
     = shim_szOsFile root_szOsFile sizeof_file.
Proof.
  intros Hr Hs Hfit. unfold pReal0_offset, pReal1_offset, shim_szOsFile.
  rewrite (to_int_small (2 * root_szOsFile)) by lia.
  assert (H64 : 2 ^ 31 < 2 ^ 64) by (vm_compute; reflexivity).
  rewrite (Z.mod_small (2 * root_szOsFile)) by lia.
  rewrite Z.mod_small by lia. rewrite to_int_small by lia. lia.
Qed.

(** ** The further properties at work on the sample environments *)

Lemma mirrored_operation_status_witness :
  exists r,
    vfsmirror_method broken_replica_env (xFileControl SQLITE_FCNTL_VFSNAME)
      mirrored_file (configured_state 260 "/mirror")
    = Done (r, mirrored_file)
        (advance (configured_state 260 "/mirror") O
           [EvFile (7%nat, PrimaryArea) (xFileControl SQLITE_FCNTL_VFSNAME) SQLITE_OK;
            EvFile (7%nat, ReplicaArea) (xFileControl SQLITE_FCNTL_VFSNAME)
              SQLITE_IOERR;
            EvMprintf true])
    /\ (r = SQLITE_OK <-> SQLITE_OK = SQLITE_OK /\ SQLITE_IOERR = SQLITE_OK)
    /\ (SQLITE_OK <> SQLITE_OK -> r = SQLITE_OK)
    /\ (SQLITE_OK = SQLITE_OK -> r = SQLITE_IOERR).
Proof.
  exact (mirrored_operation_status broken_replica_env
           (xFileControl SQLITE_FCNTL_VFSNAME) mirrored_file
           (configured_state 260 "/mirror") (7%nat, PrimaryArea) (7%nat, ReplicaArea)
           SQLITE_OK SQLITE_IOERR O O eq_refl eq_refl eq_refl eq_refl eq_refl).
Defined.

Lemma shim_calls_keep_configuration_witness :
  exists s',
    vfsmirrorDelete healthy_env 260 (Some (C "/a/b/test.db")) 0
      (configured_state 260 "/mirror") = Done SQLITE_OK s'
    /\ registered s' = registered (configured_state 260 "/mirror")
    /\ zSlaveDir s' = zSlaveDir (configured_state 260 "/mirror")
    /\ exists tr, trace s' = trace (configured_state 260 "/mirror") ++ tr.
Proof.
  eexists. split.
  - vm_compute. reflexivity.
  - apply (shim_calls_keep_configuration healthy_env 260).
    right. right. exists (Some (C "/a/b/test.db")), 0, SQLITE_OK.
    vm_compute. reflexivity.
Defined.

Lemma mirrored_open_outcome_witness :
  exists p' s',
    vfsmirrorOpen healthy_env 260 7 blank_file (Some (C "/a/b/test.db"))
      main_db_flags (configured_state 260 "/mirror") = Done (SQLITE_OK, p') s'
    /\ exists w' tr z2,
         s' = advance (configured_state 260 "/mirror") w' tr
         /\ zFname2 p' = Some z2
         /\ (forall zn fl rc, In (EvOpen zn (7%nat, ReplicaArea) fl rc) tr ->
               zn = Some z2 /\ fl = main_db_flags)
         /\ (SQLITE_OK = SQLITE_OK ->
             open_attempts (7%nat, ReplicaArea) tr = S (sleeps tr)
             /\ (sleeps tr <= 9)%nat
             /\ exists tr0,
                  tr = tr0 ++ [EvOpen (Some z2) (7%nat, ReplicaArea) main_db_flags
                                 SQLITE_OK])
         /\ (SQLITE_OK <> SQLITE_OK ->
             open_attempts (7%nat, ReplicaArea) tr = 10%nat /\ sleeps tr = 10%nat).
Proof.
  eexists. eexists. split.
  - vm_compute. reflexivity.
  - eapply (mirrored_open_outcome healthy_env 260 7 blank_file (C "/a/b/test.db")
              main_db_flags (configured_state 260 "/mirror") _ SQLITE_OK _
              (Some shm_capable) O).
    + reflexivity.
    + vm_compute. discriminate.
    + vm_compute. reflexivity.
Defined.

Lemma unmirrored_open_passes_through_witness :
  exists p' s',
    vfsmirrorOpen broken_primary_env 260 7 blank_file (Some (C "/a/b/test.db"))
      main_db_flags (configured_state 260 "/mirror") = Done (SQLITE_CANTOPEN, p') s'
    /\ SQLITE_CANTOPEN = SQLITE_CANTOPEN
    /\ pReal0 p' = Some (7%nat, PrimaryArea) /\ pReal1 p' = None
    /\ zFname2 p' = zFname2 blank_file
    /\ (Some (C "/a/b/test.db") = None -> zFName p' = Some (ptr_to (C "<temp>")))
    /\ exists w',
         s' = advance (configured_state 260 "/mirror") w'
                [EvOpen (Some (C "/a/b/test.db")) (7%nat, PrimaryArea) main_db_flags
                   SQLITE_CANTOPEN]
         \/ s' = advance (configured_state 260 "/mirror") w'
                   [EvOpen (Some (C "/a/b/test.db")) (7%nat, PrimaryArea)
                      main_db_flags SQLITE_CANTOPEN; EvMalloc true].
Proof.
  eexists. eexists. split.
  - vm_compute. reflexivity.
  - eapply (unmirrored_open_passes_through broken_primary_env 260 7 blank_file
              (Some (C "/a/b/test.db")) main_db_flags
              (configured_state 260 "/mirror") _ SQLITE_CANTOPEN _ SQLITE_CANTOPEN
              None O).
    + reflexivity.
    + right. left. vm_compute. discriminate.
    + vm_compute. reflexivity.
Defined.

Lemma open_installs_matching_methods_witness :
  exists p' s',
    vfsmirrorOpen healthy_env 260 7 blank_file (Some (C "/a/b/test.db-wal"))
      SQLITE_OPEN_WAL (configured_state 260 "/mirror") = Done (SQLITE_OK, p') s'
    /\ exists m, pMethods p' = Some m /\ iVersion m = 2
         /\ has_xShmMap m = sub_xShmMap shm_capable
         /\ has_xShmLock m = sub_xShmLock shm_capable
         /\ has_xShmBarrier m = sub_xShmBarrier shm_capable
         /\ has_xShmUnmap m = sub_xShmUnmap shm_capable.
Proof.
  eexists. eexists. split.
  - vm_compute. reflexivity.
  - eapply (open_installs_matching_methods healthy_env 260 7 blank_file
              (Some (C "/a/b/test.db-wal")) SQLITE_OPEN_WAL
              (configured_state 260 "/mirror") _ SQLITE_OK _ SQLITE_OK
              (Some shm_capable) O).
    + reflexivity.
    + vm_compute. reflexivity.
Defined.

Lemma open_crashes_when_allocation_fails_witness :
  vfsmirrorOpen (with_malloc healthy_env false) 260 7 blank_file
    (Some (C "/a/b/test.db")) main_db_flags (configured_state 260 "/mirror")
  = Crash NullDeref.
Proof.
  exact (open_crashes_when_allocation_fails (with_malloc healthy_env false) 260 7
           blank_file (Some (C "/a/b/test.db")) main_db_flags
           (configured_state 260 "/mirror") SQLITE_OK shm_capable O
           eq_refl eq_refl).
Defined.

Lemma opened_mirror_file_reaches_both_witness :
  exists p' s1,
    vfsmirrorOpen healthy_env 260 7 blank_file (Some (C "/a/b/test.db"))
      main_db_flags (configured_state 260 "/mirror") = Done (SQLITE_OK, p') s1
    /\ vfsmirror_method healthy_env (xFileControl SQLITE_FCNTL_VFSNAME) p' s1
       = Done (RETURN_CODE SQLITE_OK SQLITE_OK, p')
           (advance s1 1%nat
              [EvFile (7%nat, PrimaryArea) (xFileControl SQLITE_FCNTL_VFSNAME)
                 SQLITE_OK;
               EvFile (7%nat, ReplicaArea) (xFileControl SQLITE_FCNTL_VFSNAME)
                 SQLITE_OK;
               EvMprintf true]).
Proof.
  eexists. eexists. split.
  - vm_compute. reflexivity.
  - eapply (opened_mirror_file_reaches_both healthy_env 260 7 blank_file _
              (C "/a/b/test.db") main_db_flags (configured_state 260 "/mirror")
              _ _ (xFileControl SQLITE_FCNTL_VFSNAME) SQLITE_OK SQLITE_OK
              1%nat 1%nat).
    + vm_compute. reflexivity.
    + vm_compute. discriminate.
    + reflexivity.
    + reflexivity.
    + reflexivity.
Defined.

Lemma opened_plain_file_stays_on_primary_witness :
  exists p' s1 p2 s3,
    vfsmirrorOpen healthy_env 260 7 blank_file (Some (C "/a/b/test.db-wal"))
      SQLITE_OPEN_WAL (configured_state 260 "/mirror") = Done (SQLITE_OK, p') s1
    /\ vfsmirror_method healthy_env (xWrite 4096 0) p' s1 = Done (SQLITE_OK, p2) s3
    /\ exists rc w tr,
         env_file healthy_env (7%nat, PrimaryArea) (xWrite 4096 0) (world s1)
         = Some (rc, w)
         /\ s3 = advance s1 (world s3)
                   (EvFile (7%nat, PrimaryArea) (xWrite 4096 0) rc :: tr)
         /\ only_on (7%nat, PrimaryArea)
              (EvFile (7%nat, PrimaryArea) (xWrite 4096 0) rc :: tr)
         /\ (xWrite 4096 0 <> xShmBarrier -> SQLITE_OK = rc)
         /\ pReal1 p2 = None.
Proof.
  eexists. eexists. eexists. eexists. split; [|split].
  - vm_compute. reflexivity.
  - vm_compute. reflexivity.
  - eapply (opened_plain_file_stays_on_primary healthy_env 260 7 blank_file _
              (Some (C "/a/b/test.db-wal")) SQLITE_OPEN_WAL
              (configured_state 260 "/mirror") _ _ _ SQLITE_OK SQLITE_OK
              (xWrite 4096 0) _).
    + vm_compute. reflexivity.
    + right. vm_compute. reflexivity.
    + vm_compute. reflexivity.
Defined.

Lemma set_mirror_directory_accepts_witness :
  exists s',
    set_mirror_directory healthy_env 260 (Some (C "/mirror//")) (initial_state 260)
    = Done 1 s'
    /\ registered s' = 1
    /\ c_str (zSlaveDir s') = Some (C "/mirror")
    /\ List.length (zSlaveDir s') = 260%nat.
Proof.
  apply (set_mirror_directory_accepts healthy_env 260 (C "/mirror//")
           (initial_state 260)).
  - reflexivity.
  - repeat (constructor; [split; discriminate|]). constructor.
  - vm_compute. discriminate.
  - simpl. lia.
  - vm_compute. reflexivity.
  - vm_compute. discriminate.
Defined.

Lemma zSlaveDir_stays_terminated_witness :
  exists s',
    set_mirror_directory healthy_env 260 (Some (C "/mirror//")) (initial_state 260)
    = Done 1 s'
    /\ dir_terminated 260 s'
    /\ exists dir, strncpy (zSlaveDir s') 260 = Ok dir.
Proof.
  eexists. split.
  - vm_compute. reflexivity.
  - eapply (zSlaveDir_stays_terminated healthy_env 260 (Some (C "/mirror//"))
              (initial_state 260) _ 1).
    + split; [vm_compute; reflexivity | left; reflexivity].
    + vm_compute. reflexivity.
Defined.

Lemma set_mirror_directory_path_is_format_witness :
  set_mirror_directory healthy_env 260 (Some (C "/mir%sror")) (initial_state 260)
  = Crash BadFormat.
Proof.
  apply (set_mirror_directory_path_is_format healthy_env 260 (C "/mir") (C "ror")
           "s"%char (initial_state 260)).
  - reflexivity.
  - simpl. lia.
  - repeat (constructor; [discriminate|]). constructor.
  - reflexivity.
Defined.

Lemma set_mirror_directory_ignores_registration_witness :
  exists s',
    set_mirror_directory (with_vfs_find healthy_env false) 260
      (Some (C "/mirror")) (initial_state 260) = Done 1 s'
    /\ registered s' = 1
    /\ exists d,
         trace s' = trace (initial_state 260) ++ EvDirExists d true
                      :: registration_events (with_vfs_find healthy_env false)
                           (C "trace") None 1 (world (initial_state 260))
    /\ existsb is_vfs_register
         (registration_events (with_vfs_find healthy_env false) (C "trace") None 1
            (world (initial_state 260)))
       = env_vfs_find (with_vfs_find healthy_env false) None
           (world (initial_state 260))
         && fst (env_malloc (with_vfs_find healthy_env false)
                   (world (initial_state 260))).
Proof.
  eexists. split.
  - vm_compute. reflexivity.
  - eapply (set_mirror_directory_ignores_registration
              (with_vfs_find healthy_env false) 260 (Some (C "/mirror"))
              (initial_state 260)).
    vm_compute. reflexivity.
Defined.

Lemma delete_removes_the_replica_open_made_witness :
  exists p' s1,
    vfsmirrorOpen healthy_env 260 7 blank_file (Some (C "/a/b/test.db"))
      main_db_flags (configured_state 260 "/mirror") = Done (SQLITE_OK, p') s1
    /\ zFname2 p' = Some (C "/mirror\test.db")
    /\ vfsmirrorDelete healthy_env 260 (Some (C "/a/b/test.db")) 0 s1
       = Done (RETURN_CODE SQLITE_OK SQLITE_OK)
           (advance s1 1%nat
              [EvDelete (Some (C "/a/b/test.db")) 0 SQLITE_OK;
               EvDelete (Some (C "/mirror\test.db")) 0 SQLITE_OK]).
Proof.
  eexists. eexists. split; [|split].
  - vm_compute. reflexivity.
  - reflexivity.
  - eapply (delete_removes_the_replica_open_made healthy_env 260 7 blank_file _
              (C "/a/b/test.db") (C "/mirror\test.db") main_db_flags 0
              (configured_state 260 "/mirror") _ _ SQLITE_OK SQLITE_OK SQLITE_OK
              1%nat 1%nat).
    + discriminate.
    + vm_compute. reflexivity.
    + vm_compute. reflexivity.
    + discriminate.
    + reflexivity.
    + reflexivity.
    + reflexivity.
    + reflexivity.
Defined.

Lemma strappend_fits_or_overruns_witness :
  strappend (C "lock(        )") 5 (C "SHARED")
  = Ok (C "lock(SHARED" ++ NUL :: C " )", 11)
  /\ strappend (C "lock(   )") 5 (C "SHARED") = Fault (OobWrite 9).
Proof.
  split.
  - apply (strappend_fits_or_overruns (C "SHARED") (C "lock(        )") 5).
    + vm_compute. split; discriminate.
    + reflexivity.
  - apply (strappend_fits_or_overruns (C "SHARED") (C "lock(   )") 5).
    + vm_compute. split; discriminate.
    + reflexivity.
Defined.

Lemma strappend_twice_witness :
  strappend (C "lock(" ++ NUL :: C "          ") 5 (C "-RESERVED")
  = strappend (C "                ") 0 (C "lock(" ++ C "-RESERVED").
Proof.
  apply (strappend_twice (C "lock(") (C "-RESERVED") (C "                ")
           (C "lock(" ++ NUL :: C "          ") 0 5).
  reflexivity.
Defined.

Lemma lockName_stays_in_table_witness :
  (exists name, lockName 2 = Ok name
     /\ (name = C "???" <-> 2 < 0 \/ 4 < 2))
  /\ (0 <= 2 <= 4 -> 0 <= 4 <= 4 -> lockName 2 = lockName 4 -> 2 = 4).
Proof.
  apply (lockName_stays_in_table 2 4).
  split; [vm_compute; discriminate | reflexivity].
Defined.

Lemma real_files_fit_the_block_witness :
  72 <= pReal0_offset 72
  /\ pReal0_offset 72 + 104 <= pReal1_offset 104 72
  /\ pReal1_offset 104 72 + 104 = shim_szOsFile 104 72.
Proof.
  apply (real_files_fit_the_block 104 72);
    [vm_compute; discriminate | vm_compute; discriminate | reflexivity].
Defined.

(** ** The flag names of the trace *)

Lemma normal_within_full (flags : Z) :
  flag_set flags SQLITE_SYNC_FULL = false ->
  flag_set flags SQLITE_SYNC_NORMAL = false.
Proof.
  unfold flag_set, SQLITE_SYNC_FULL, SQLITE_SYNC_NORMAL. intros H.
  apply negb_false_iff, Z.eqb_eq in H.
  apply negb_false_iff, Z.eqb_eq.
  change 2 with (Z.land 3 2). rewrite Z.land_assoc, H. apply Z.land_0_l.
Qed.

Ltac hundred_chars z Hlen :=
  do 100 (destruct z as [|? z];
          [discriminate Hlen | simpl in Hlen; injection Hlen as Hlen]);
  destruct z; [clear Hlen | discriminate Hlen].

(** X22. The flag names that [vfsmirrorSync] builds for the trace
    always fit its array of 100 characters: for every value of [flags]
    the calls of [strappend] complete, with at most 14 characters
    appended. The array then reads [|FULL] when a bit of
    [SQLITE_SYNC_FULL] is set, followed by [|DATAONLY] when that bit is
    set, and [|0] when neither is; [|NORMAL] is never written, because
    the bit of [SQLITE_SYNC_NORMAL] is one of the two bits of
    [SQLITE_SYNC_FULL], which is tested first. *)
Theorem sync_flag_names_fit (zBuf : list ascii) (flags : Z) :
  List.length zBuf = 100%nat ->
  let names := named (flag_set flags SQLITE_SYNC_FULL) "|FULL"
               ++ named (flag_set flags SQLITE_SYNC_DATAONLY) "|DATAONLY" in
  exists z,
    sync_flag_names zBuf flags = Ok (z, len names)
    /\ List.length z = 100%nat
    /\ len names <= 14
    /\ c_str z = Some (or_bar_zero names).
Proof.
  intros Hlen names. subst names. unfold sync_flag_names.
  pose proof (normal_within_full flags) as Hn.
  destruct (flag_set flags SQLITE_SYNC_FULL);
    [|rewrite (Hn eq_refl)]; clear Hn;
    destruct (flag_set flags SQLITE_SYNC_DATAONLY);
    hundred_chars zBuf Hlen;
    (eexists; split; [vm_compute; reflexivity|];
     split; [reflexivity|]; split; [vm_compute; discriminate | reflexivity]).
Qed.

Lemma sync_flag_names_fit_witness :
  exists z,
    sync_flag_names (repeat "x"%char 100) SQLITE_SYNC_NORMAL
    = Ok (z, len (C "|FULL"))
    /\ List.length z = 100%nat
    /\ len (C "|FULL") <= 14
    /\ c_str z = Some (C "|FULL").
Proof.
  apply (sync_flag_names_fit (repeat "x"%char 100) SQLITE_SYNC_NORMAL).
  reflexivity.
Defined.

(** X23. The flag names that [vfsmirrorShmLock] builds for the trace
    always fit its array of 100 characters: for every value of [flags]
    the calls of [strappend] complete, with at most 30 characters
    appended, and the array then reads the names of the bits that are
    set among [|UNLOCK], [|LOCK], [|SHARED] and [|EXCLUSIVE], in this
    order, or [|0] when none is. *)
Theorem shm_lock_flag_names_fit (zLck : list ascii) (flags : Z) :
  List.length zLck = 100%nat ->
  let names := named (flag_set flags SQLITE_SHM_UNLOCK) "|UNLOCK"
               ++ named (flag_set flags SQLITE_SHM_LOCK) "|LOCK"
               ++ named (flag_set flags SQLITE_SHM_SHARED) "|SHARED"
               ++ named (flag_set flags SQLITE_SHM_EXCLUSIVE) "|EXCLUSIVE" in
  exists z,
    shm_lock_flag_names zLck flags = Ok (z, len names)
    /\ List.length z = 100%nat
    /\ len names <= 30
    /\ c_str z = Some (or_bar_zero names).
Proof.
  intros Hlen names. subst names. unfold shm_lock_flag_names.
  destruct (flag_set flags SQLITE_SHM_UNLOCK), (flag_set flags SQLITE_SHM_LOCK),
    (flag_set flags SQLITE_SHM_SHARED), (flag_set flags SQLITE_SHM_EXCLUSIVE);
    hundred_chars zLck Hlen;
    (eexists; split; [vm_compute; reflexivity|];
     split; [reflexivity|]; split; [vm_compute; discriminate | reflexivity]).
Qed.

Lemma shm_lock_flag_names_fit_witness :
  exists z,
    shm_lock_flag_names (repeat "x"%char 100)
      (Z.lor SQLITE_SHM_LOCK SQLITE_SHM_EXCLUSIVE)
    = Ok (z, len (C "|LOCK|EXCLUSIVE"))
    /\ List.length z = 100%nat
    /\ len (C "|LOCK|EXCLUSIVE") <= 30
    /\ c_str z = Some (C "|LOCK|EXCLUSIVE").
Proof.
  apply (shm_lock_flag_names_fit (repeat "x"%char 100)
           (Z.lor SQLITE_SHM_LOCK SQLITE_SHM_EXCLUSIVE)).
  reflexivity.
Defined.
